(** * vit-finetune: the classification module ([src/model.py])

  A shallow embedding of [ClassificationModel] and of the Python
  operations it relies on, followed by the properties of its constructor,
  its step callbacks, its test-epoch hook and its optimizer set-up.

  The deep-learning framework, the model hub and the other libraries the
  module calls are not part of the repository: what they return is given
  by the fields of the [Framework] class, and the calls that load, log,
  print or run the network are recorded, in program order, as [Event]s.
  A method is a computation over the state of the module that may raise;
  what it did before raising stays done, as in Python. *)

From Stdlib Require Import String Ascii List ZArith Lia Bool DecimalString.
Import ListNotations.

Open Scope string_scope.
Open Scope Z_scope.

Set Implicit Arguments.

(** ** Python strings *)

Module PyStr.

(** [s.startswith(p)] *)
Definition startswith (s p : string) : bool := String.prefix p s.

(** [sub in s] *)
Fixpoint contains (sub s : string) : bool :=
  String.prefix sub s ||
  match s with
  | EmptyString => false
  | String _ s' => contains sub s'
  end.

(** [s.replace(old, new)] for a non-empty [old]: the occurrences of [old]
    are found scanning from the left, each one is replaced and the scan
    resumes after it. [skip] counts the characters of the current
    occurrence still to be passed over. *)
Fixpoint replace_from (old new : string) (skip : nat) (s : string) : string :=
  match s with
  | EmptyString => EmptyString
  | String c s' =>
      match skip with
      | S k => replace_from old new k s'
      | O =>
          if String.prefix old s
          then new ++ replace_from old new (String.length old - 1) s'
          else String c (replace_from old new 0 s')
      end
  end.

Definition replace (s old new : string) : string := replace_from old new 0 s.

(** [sep.join(xs)] *)
Fixpoint join (sep : string) (xs : list string) : string :=
  match xs with
  | [] => EmptyString
  | [x] => x
  | x :: rest => x ++ sep ++ join sep rest
  end.

(** [repr(s)] for a string without quotes, backslashes or control
    characters (every key of [MODEL_DICT] is one). *)
Definition repr (s : string) : string := "'" ++ s ++ "'".

(** [repr(xs)] for a list of such strings. *)
Definition repr_list (xs : list string) : string :=
  "[" ++ join ", " (map repr xs) ++ "]".

(** [str(n)] for an [int]. *)
Definition of_int (n : Z) : string := NilZero.string_of_int (Z.to_int n).

(** [str(b)] for a [bool]. *)
Definition of_bool (b : bool) : string := if b then "True" else "False".

(** [s.lower()] on ASCII text. *)
Definition lower_ascii (c : ascii) : ascii :=
  let n := nat_of_ascii c in
  if ((65 <=? n) && (n <=? 90))%nat then ascii_of_nat (n + 32) else c.

Fixpoint lower (s : string) : string :=
  match s with
  | EmptyString => EmptyString
  | String c s' => String (lower_ascii c) (lower s')
  end.

(** Truth value of an [Optional[str]]: [None] and the empty string are
    false. *)
Definition truthy (s : option string) : bool :=
  match s with
  | None | Some EmptyString => false
  | Some _ => true
  end.

End PyStr.

(** ** Python dictionaries with string keys

  A [dict] keeps its entries in insertion order; assigning to a key that
  is present replaces the value in place, assigning to a new key appends. *)

Module PyDict.

Definition t (V : Type) := list (string * V).

Fixpoint get {V} (d : t V) (k : string) : option V :=
  match d with
  | [] => None
  | (k', v) :: d' => if String.eqb k' k then Some v else get d' k
  end.

Fixpoint set {V} (d : t V) (k : string) (v : V) : t V :=
  match d with
  | [] => [(k, v)]
  | (k', v') :: d' =>
      if String.eqb k' k then (k', v) :: d' else (k', v') :: set d' k v
  end.

Definition keys {V} (d : t V) : list string := map fst d.

Definition items {V} (d : t V) : list (string * V) := d.

End PyDict.

(** ** Exceptions

    [LibraryError] stands for whatever a failing library call raises. *)

Inductive exn : Type :=
| LibraryError (call : string)
| ValueError (msg : string)
| AssertionError (msg : string)
| AttributeError (msg : string)
| RuntimeError (msg : string)
| TypeError (msg : string)
| KeyError (key : string).

(** ** The table of checkpoints (lines 21-39) *)

Definition MODEL_DICT : PyDict.t string :=
  [ ("vit-b16-224-in21k", "google/vit-base-patch16-224-in21k");
    ("vit-b32-224-in21k", "google/vit-base-patch32-224-in21k");
    ("vit-l32-224-in21k", "google/vit-large-patch32-224-in21k");
    ("vit-l15-224-in21k", "google/vit-large-patch16-224-in21k");
    ("vit-h14-224-in21k", "google/vit-huge-patch14-224-in21k");
    ("vit-b16-224", "google/vit-base-patch16-224");
    ("vit-l16-224", "google/vit-large-patch16-224");
    ("vit-b16-384", "google/vit-base-patch16-384");
    ("vit-b32-384", "google/vit-base-patch32-384");
    ("vit-l16-384", "google/vit-large-patch16-384");
    ("vit-l32-384", "google/vit-large-patch32-384");
    ("vit-b16-224-dino", "facebook/dino-vitb16");
    ("vit-b8-224-dino", "facebook/dino-vitb8");
    ("vit-s16-224-dino", "facebook/dino-vits16");
    ("vit-s8-224-dino", "facebook/dino-vits8");
    ("beit-b16-224-in21k", "microsoft/beit-base-patch16-224-pt22k-ft22k");
    ("beit-l16-224-in21k", "microsoft/beit-large-patch16-224-pt22k-ft22k") ].

(** ** Values exchanged with the libraries *)

(** The types the module never looks inside. *)
Class Carriers : Type := {
  Float : Type;      (* Python floats and the entries of float tensors *)
  Image : Type;      (* the pixel values of one sample *)
  Weight : Type;     (* the data of one parameter tensor *)
  Draw : Type;       (* the random numbers one Mixup call consumes *)
  HubConfig : Type   (* a model configuration of the hub *)
}.

(** [BitsAndBytesConfig(...)] *)
Record BitsAndBytesConfig : Type := {
  load_in_4bit : bool;
  bnb_4bit_compute_dtype : string;
  bnb_4bit_use_double_quant : bool;
  bnb_4bit_quant_type : string;
  llm_int8_skip_modules : list string
}.

(** One row of a multiclass [StatScores] result with [average=None]:
    true positives, false positives, true negatives, false negatives,
    support. *)
Definition StatRow : Type := (Z * Z * Z * Z * Z)%type.

Definition stat_tp (r : StatRow) : Z := let '(tp, _, _, _, _) := r in tp.
Definition stat_sup (r : StatRow) : Z := let '(_, _, _, _, sup) := r in sup.

(** The values of a 64-bit integer entry. *)
Definition in_int64 (z : Z) : Prop := - 2 ^ 63 <= z < 2 ^ 63.

Definition row_in_int64 (r : StatRow) : Prop :=
  let '(a, b, c, d, e) := r in
  in_int64 a /\ in_int64 b /\ in_int64 c /\ in_int64 d /\ in_int64 e.

(** The sum, over the batches, of one count of class [i]. *)
Definition class_total (f : StatRow -> Z) (ts : list (list StatRow))
    (i : nat) : Z :=
  fold_right Z.add 0 (map (fun t => f (nth i t (0, 0, 0, 0, 0))) ts).

(** A metric of a [MetricCollection]. *)
Inductive Metric : Type :=
| Accuracy (num_classes : Z) (task : string) (top_k : Z)
| StatScores (task : string) (num_classes : Z).

Section Data.
Context `{Carriers}.

(** A parameter tensor. *)
Record Param : Type := {
  data : Weight;
  requires_grad : bool
}.

(** A network, seen through [named_parameters()]. *)
Definition Net : Type := list (string * Param).

(** [net.parameters()] *)
Definition parameters (n : Net) : list Param := map snd n.

(** Integer class labels, one per sample; float target rows, one per
    sample; logits, one row per sample. *)
Definition Labels : Type := list Z.
Definition Targets : Type := list (list Float).
Definition Logits : Type := list (list Float).
Definition Batch : Type := (list Image * Labels)%type.

(** [LoraConfig(...)] *)
Record LoraConfig : Type := {
  cfg_r : Z;
  cfg_lora_alpha : Z;
  cfg_target_modules : list string;
  cfg_lora_dropout : Float;
  cfg_bias : string;
  cfg_modules_to_save : list string
}.

(** [Mixup(...)] *)
Record Mixup : Type := {
  mx_mixup_alpha : Float;
  mx_cutmix_alpha : Float;
  mx_prob : Float;
  mx_label_smoothing : Float;
  mx_num_classes : Z
}.

(** The value a metric returns for a batch: a zero-dimensional tensor or
    a [num_classes x 5] tensor. *)
Inductive MetricValue : Type :=
| Scalar (v : Float)
| Stats (rows : list StatRow).

(** A [pandas.DataFrame] of per-class rows. *)
Record DataFrame : Type := {
  columns : list string;
  rows : list (Float * Z)
}.

(** What the training-loop driver exposes through [self.trainer]. *)
Record Trainer : Type := {
  optimizer_lr : Float;
  current_epoch : Z;
  estimated_stepping_batches : Z
}.

(** The optimizers and schedulers [configure_optimizers] can build. *)
Inductive Optimizer : Type :=
| Adam (params : list Param) (lr : Float) (betas : Float * Float)
    (weight_decay : Float)
| AdamW (params : list Param) (lr : Float) (betas : Float * Float)
    (weight_decay : Float)
| SGD (params : list Param) (lr : Float) (momentum : Float)
    (weight_decay : Float)
| Lpmm_AdamW (params : list Param) (lr : Float) (betas : Float * Float)
    (weight_decay : Float).

Inductive Scheduler : Type :=
| CosineScheduleWithWarmup (opt : Optimizer)
    (num_training_steps num_warmup_steps : Z)
| LambdaLR (opt : Optimizer) (lr_lambda : Z -> Z).

Record LrSchedulerConfig : Type := {
  sched : Scheduler;
  interval : string
}.

Record OptimizerConfig : Type := {
  cfg_optimizer : Optimizer;
  cfg_lr_scheduler : LrSchedulerConfig
}.

(** The constructor's arguments (lines 43-72). *)
Record HParams : Type := {
  model_name : string;
  optimizer : string;
  lr : Float;
  betas : Float * Float;
  momentum : Float;
  weight_decay : Float;
  scheduler : string;
  warmup_steps : Z;
  n_classes : Z;
  mixup_alpha : Float;
  cutmix_alpha : Float;
  mix_prob : Float;
  label_smoothing : Float;
  image_size : Z;
  weights : option string;
  training_mode : string;
  lora_r : Z;
  lora_alpha : Z;
  lora_target_modules : list string;
  lora_dropout : Float;
  lora_bias : string;
  from_scratch : bool;
  batch_size : Z;
  filename : string;
  open_gact : bool;
  gact_level : string;
  use_4bit : bool
}.

(** The same arguments with another [use_4bit]. *)
Definition with_use_4bit (b : bool) (hp : HParams) : HParams :=
  {| model_name := model_name hp; optimizer := optimizer hp; lr := lr hp;
     betas := betas hp; momentum := momentum hp;
     weight_decay := weight_decay hp; scheduler := scheduler hp;
     warmup_steps := warmup_steps hp; n_classes := n_classes hp;
     mixup_alpha := mixup_alpha hp; cutmix_alpha := cutmix_alpha hp;
     mix_prob := mix_prob hp; label_smoothing := label_smoothing hp;
     image_size := image_size hp; weights := weights hp;
     training_mode := training_mode hp; lora_r := lora_r hp;
     lora_alpha := lora_alpha hp;
     lora_target_modules := lora_target_modules hp;
     lora_dropout := lora_dropout hp; lora_bias := lora_bias hp;
     from_scratch := from_scratch hp; batch_size := batch_size hp;
     filename := filename hp; open_gact := open_gact hp;
     gact_level := gact_level hp; use_4bit := b |}.

(** Calls into the libraries, in the order the module makes them.
    [ControllerIterate] carries what the callback handed to the controller
    does when the controller runs it. *)
#[warnings="-register-all"]
Inductive Event : Type :=
| SaveHyperparameters
| AutoConfigFromPretrained (path : string)
| AutoModelFromConfig (config : HubConfig)
| NewLinear (in_features out_features : Z)
| AutoModelFromPretrained (path : string) (num_labels : Z)
    (ignore_mismatched_sizes : bool) (img_size : Z)
    (quantization_config : option BitsAndBytesConfig)
| Print (s : string)
| PrintNet (n : Net)
| TorchLoad (path : string)
| LoadStateDict (state_dict : PyDict.t Weight) (strict : bool)
| GetPeftModel (config : LoraConfig)
| WandbInit (project name : string)
| WandbDefineMetric (name : string) (step_metric : option string)
| GactSetOptimizationLevel (level : string)
| NewController (n : Net)
| InstallHook
| MixupCall (x : list Image) (y : Labels)
| OneHot (y : Labels) (num_classes : Z)
| ControllerIterate (get_grad : list Event)
| Forward (x : list Image)
| LossFn (pred : Logits) (target : Targets)
| Optimizers
| OptimizerZeroGrad (epoch batch_idx : Z)
| Backward (loss : Float)
| MetricsCall (collection : PyDict.t Metric) (pred : Logits) (target : Labels)
| Log (name : string) (value : Float) (on_epoch : option bool)
    (prog_bar : bool)
| WandbLog (name : string) (value : Float) (step_name : string) (step : Z)
| ToCsv (df : DataFrame) (path : string).

Definition is_mixup (e : Event) : bool :=
  match e with MixupCall _ _ => true | _ => false end.

Definition is_iterate (e : Event) : bool :=
  match e with ControllerIterate _ => true | _ => false end.

(** The state of a constructed module (the attributes set by lines
    104-280, and the ones later calls add). *)
Record Model : Type := {
  hparams : HParams;
  net : Net;
  train_metrics : PyDict.t Metric;
  val_metrics : PyDict.t Metric;
  test_metrics : PyDict.t Metric;
  mixup : Mixup;
  test_metric_outputs : list MetricValue;
  train_step : Z;
  val_step : Z;
  controller : option Net;
  partial_x : option (list Image);
  partial_y : option Targets;
  trainer : option Trainer
}.

Definition set_train_step (v : Z) (m : Model) : Model :=
  {| hparams := hparams m; net := net m; train_metrics := train_metrics m;
     val_metrics := val_metrics m; test_metrics := test_metrics m;
     mixup := mixup m; test_metric_outputs := test_metric_outputs m;
     train_step := v; val_step := val_step m; controller := controller m;
     partial_x := partial_x m; partial_y := partial_y m;
     trainer := trainer m |}.

Definition set_val_step (v : Z) (m : Model) : Model :=
  {| hparams := hparams m; net := net m; train_metrics := train_metrics m;
     val_metrics := val_metrics m; test_metrics := test_metrics m;
     mixup := mixup m; test_metric_outputs := test_metric_outputs m;
     train_step := train_step m; val_step := v; controller := controller m;
     partial_x := partial_x m; partial_y := partial_y m;
     trainer := trainer m |}.

Definition set_partial (x : list Image) (y : Targets) (m : Model) : Model :=
  {| hparams := hparams m; net := net m; train_metrics := train_metrics m;
     val_metrics := val_metrics m; test_metrics := test_metrics m;
     mixup := mixup m; test_metric_outputs := test_metric_outputs m;
     train_step := train_step m; val_step := val_step m;
     controller := controller m;
     partial_x := Some x; partial_y := Some y;
     trainer := trainer m |}.

Definition set_test_metric_outputs (v : list MetricValue) (m : Model)
  : Model :=
  {| hparams := hparams m; net := net m; train_metrics := train_metrics m;
     val_metrics := val_metrics m; test_metrics := test_metrics m;
     mixup := mixup m; test_metric_outputs := v;
     train_step := train_step m; val_step := val_step m;
     controller := controller m;
     partial_x := partial_x m; partial_y := partial_y m;
     trainer := trainer m |}.

(** The two step counters. *)
Definition counters (m : Model) : Z * Z := (train_step m, val_step m).

(** The driver attaches itself to the module before it runs a callback. *)
Definition attach (t : Trainer) (m : Model) : Model :=
  {| hparams := hparams m; net := net m; train_metrics := train_metrics m;
     val_metrics := val_metrics m; test_metrics := test_metrics m;
     mixup := mixup m; test_metric_outputs := test_metric_outputs m;
     train_step := train_step m; val_step := val_step m;
     controller := controller m;
     partial_x := partial_x m; partial_y := partial_y m;
     trainer := Some t |}.

(** *** Effects

    A computation reads and updates a state, appends to the trace of
    library calls and either returns or raises. What was done before a
    [raise] stays done. *)
Definition Eff (S A : Type) : Type := S -> S * list Event * (exn + A).

Definition ret {S A : Type} (a : A) : Eff S A :=
  fun s => (s, [], inr a).

Definition bind {S A B : Type} (m : Eff S A) (f : A -> Eff S B) : Eff S B :=
  fun s =>
    let '(s1, l1, r) := m s in
    match r with
    | inl e => (s1, l1, inl e)
    | inr a => let '(s2, l2, r2) := f a s1 in (s2, (l1 ++ l2)%list, r2)
    end.

Definition raise {S A : Type} (e : exn) : Eff S A :=
  fun s => (s, [], inl e).

Definition emit {S : Type} (ev : Event) : Eff S unit :=
  fun s => (s, [ev], inr tt).

Definition get {S : Type} : Eff S S :=
  fun s => (s, [], inr s).

Definition modify {S : Type} (f : S -> S) : Eff S unit :=
  fun s => (f s, [], inr tt).

Definition lift {S A : Type} (r : exn + A) : Eff S A :=
  fun s => (s, [], r).

(** The result of a library call that may fail. *)
Definition library {S A : Type} (call : string) (r : option A) : Eff S A :=
  match r with
  | Some a => ret a
  | None => raise (LibraryError call)
  end.

(** [when c m]: a Python [if c: m] without [else]. *)
Definition when {S : Type} (c : bool) (m : Eff S unit) : Eff S unit :=
  if c then m else ret tt.

(** [for x in xs: body x] *)
Fixpoint for_each {S A : Type} (xs : list A) (body : A -> Eff S unit)
  : Eff S unit :=
  match xs with
  | [] => ret tt
  | x :: rest => bind (body x) (fun _ => for_each rest body)
  end.

(** The state, the trace and the outcome of a finished computation. *)
Definition state_of {S A : Type} (r : S * list Event * (exn + A)) : S :=
  fst (fst r).
Definition trace_of {S A : Type} (r : S * list Event * (exn + A))
  : list Event := snd (fst r).
Definition outcome_of {S A : Type} (r : S * list Event * (exn + A))
  : exn + A := snd r.

End Data.

Declare Scope eff_scope.
Delimit Scope eff_scope with eff.
Notation "x <- m ;; k" := (bind m (fun x => k))
  (at level 61, m at next level, right associativity) : eff_scope.
Notation "' pat <- m ;; k" := (bind m (fun x => match x with pat => k end))
  (at level 61, pat pattern, m at next level, right associativity) : eff_scope.
Notation "m ;; k" := (bind m (fun _ => k))
  (at level 61, right associativity) : eff_scope.

(** ** The libraries

    What the calls into the framework, the hub, the adapter library, the
    metrics library and the repository's own [src/loss.py] and
    [src/mixup.py] return. *)
Class Framework `{Carriers} : Type := {
  (* int.float() on a tensor entry, the true division of two integer
     entries, str(f) *)
  float_of_int : Z -> Float;
  true_div : Z -> Z -> Float;
  float_str : Float -> string;
  (* AutoConfig.from_pretrained, config.image_size = v, config.hidden_size *)
  auto_config : string -> HubConfig;
  config_with_image_size : HubConfig -> Z -> HubConfig;
  config_hidden_size : HubConfig -> Z;
  (* AutoModelForImageClassification.from_config *)
  from_config : HubConfig -> Net;
  (* net.classifier = torch.nn.Linear(in_features, out_features) *)
  with_classifier : Net -> Z -> Z -> Net;
  (* AutoModelForImageClassification.from_pretrained(path, num_labels,
     ignore_mismatched_sizes, image_size, quantization_config) *)
  from_pretrained :
    string -> Z -> bool -> Z -> option BitsAndBytesConfig -> Net;
  (* torch.load(path)["state_dict"] *)
  torch_load : string -> option (PyDict.t Weight);
  (* net.load_state_dict(state_dict, strict) *)
  load_state_dict : Net -> PyDict.t Weight -> bool -> option Net;
  (* peft.get_peft_model *)
  get_peft_model : Net -> LoraConfig -> Net;
  (* net(pixel_values=x).logits *)
  net_forward : Net -> list Image -> Logits;
  (* SoftTargetCrossEntropy()(pred, target), of src/loss.py *)
  soft_target_cross_entropy : Logits -> Targets -> Float;
  (* Mixup(...)(x, y), of src/mixup.py *)
  mixup_call : Mixup -> Draw -> list Image -> Labels -> list Image * Targets;
  (* y.argmax(1) *)
  argmax1 : Targets -> Labels;
  (* Accuracy(num_classes, top_k)(pred, target) and
     StatScores(num_classes)(pred, target) *)
  accuracy_value : Z -> Z -> Logits -> Labels -> Float;
  stat_scores_value : Z -> Logits -> Labels -> list StatRow;
  (* torch.optim.Adam, AdamW and SGD and lpmm.optim.AdamW on these
     arguments: the exception the constructor raises, if it raises *)
  optimizer_init : Optimizer -> option exn;
  (* get_cosine_schedule_with_warmup and LambdaLR on these arguments,
     likewise *)
  scheduler_init : Scheduler -> option exn
}.

(** ** Tensor operations the module uses, on the data above *)

Module Torch.

(** A 64-bit integer entry wraps around. *)
Definition wrap64 (z : Z) : Z := (z + 2 ^ 63) mod 2 ^ 64 - 2 ^ 63.

Definition add64 (a b : Z) : Z := wrap64 (a + b).

Definition add_row (a b : StatRow) : StatRow :=
  let '(a1, a2, a3, a4, a5) := a in
  let '(b1, b2, b3, b4, b5) := b in
  (add64 a1 b1, add64 a2 b2, add64 a3 b3, add64 a4 b4, add64 a5 b5).

(** Entry-wise sum of two tensors of one shape. *)
Fixpoint add_rows (a b : list StatRow) : list StatRow :=
  match a, b with
  | ra :: a', rb :: b' => add_row ra rb :: add_rows a' b'
  | _, _ => []
  end.

(** [torch.sum(torch.stack(ts, dim=-1), dim=-1)]: [stack] refuses an empty
    list and tensors of different sizes. *)
Definition same_size `{Carriers} (t u : MetricValue) : bool :=
  match t, u with
  | Scalar _, Scalar _ => true
  | Stats a, Stats b => (length a =? length b)%nat
  | _, _ => false
  end.

Definition stats_rows `{Carriers} (t : MetricValue) : list StatRow :=
  match t with
  | Stats a => a
  | Scalar _ => []
  end.

Definition stack_sum `{Carriers} (ts : list MetricValue)
  : exn + list StatRow :=
  match ts with
  | [] => inl (RuntimeError "stack expects a non-empty TensorList")
  | t :: rest =>
      if forallb (same_size t) rest
      then match t with
           | Stats a => inr (fold_left add_rows (map stats_rows rest) a)
           | Scalar _ => inl (TypeError "iteration over a 0-d tensor")
           end
      else inl (RuntimeError "stack expects each tensor to be equal size")
  end.

Definition one_hot_row (n : Z) (c : Z) : list Z :=
  map (fun j => if Z.of_nat j =? c then 1 else 0) (seq 0 (Z.to_nat n)).

(** [F.one_hot(y, num_classes)]: the labels must be non-negative and below
    [num_classes]; [num_classes = -1] stands for one more than the largest
    label. *)
Definition one_hot (y : Labels) (num_classes : Z) : exn + list (list Z) :=
  match y with
  | [] =>
      if num_classes <=? 0
      then inl (RuntimeError
                  "Can not infer total number of classes from empty tensor.")
      else inr []
  | c :: cs =>
      if fold_left Z.min cs c <? 0
      then inl (RuntimeError "Class values must be non-negative.")
      else if num_classes =? -1
      then inr (map (one_hot_row (fold_left Z.max cs c + 1)) y)
      else if fold_left Z.max cs c <? num_classes
      then inr (map (one_hot_row num_classes) y)
      else inl (RuntimeError "Class values must be smaller than num_classes.")
  end.

(** [t[:n]] along the first dimension. *)
Definition take {A : Type} (n : nat) (t : list A) : list A := firstn n t.

End Torch.

(** ** The class [ClassificationModel] *)

Section ClassificationModel.
Context `{Framework}.

Local Open Scope eff_scope.

(** *** The constructor (lines 104-280) *)

(** The exceptions the constructor raises itself (lines 138, 151, 207). *)
Definition model_error (name : string) : exn :=
  ValueError
    (name ++ " is not an available model. Should be one of " ++
     PyStr.repr_list (PyDict.keys MODEL_DICT)).

Definition four_bit_error : exn :=
  AssertionError "4-bit quantization can not work with full fine-tuning mode".

Definition mode_error (mode : string) : exn :=
  ValueError
    (mode ++
     " is not an available fine-tuning mode. Should be one of ['full', 'linear', 'lora']").

(** Lines 134-140: the checkpoint path of the model name. *)
Definition lookup_model_path {S : Type} (hp : HParams) : Eff S string :=
  match PyDict.get MODEL_DICT (model_name hp) with
  | Some model_path => ret model_path
  | None => raise (model_error (model_name hp))
  end.

Definition nf4_config : BitsAndBytesConfig :=
  {| load_in_4bit := true;
     bnb_4bit_compute_dtype := "bfloat16";
     bnb_4bit_use_double_quant := true;
     bnb_4bit_quant_type := "nf4";
     llm_int8_skip_modules := ["classifier"] |}.

(** Lines 142-171: the network, with random or pretrained weights. *)
Definition initialize_network {S : Type} (hp : HParams) (model_path : string)
  : Eff S Net :=
  n <- (if from_scratch hp then
          emit (AutoConfigFromPretrained model_path) ;;
          let config :=
            config_with_image_size (auto_config model_path) (image_size hp) in
          emit (AutoModelFromConfig config) ;;
          emit (NewLinear (config_hidden_size config) (n_classes hp)) ;;
          ret (with_classifier (from_config config)
                 (config_hidden_size config) (n_classes hp))
        else if use_4bit hp then
          (if negb (training_mode hp =? "full")%string then ret tt
           else raise four_bit_error) ;;
          emit (AutoModelFromPretrained model_path (n_classes hp) true
                  (image_size hp) (Some nf4_config)) ;;
          ret (from_pretrained model_path (n_classes hp) true (image_size hp)
                 (Some nf4_config))
        else
          emit (AutoModelFromPretrained model_path (n_classes hp) true
                  (image_size hp) None) ;;
          ret (from_pretrained model_path (n_classes hp) true (image_size hp)
                 None)) ;;
  emit (PrintNet n) ;;
  ret n.

(** Lines 181-183: one turn of the loop over the checkpoint. *)
Definition strip_step (new_state_dict : PyDict.t Weight)
    (kv : string * Weight) : PyDict.t Weight :=
  let '(k, v) := kv in
  if PyStr.startswith k "net"
  then PyDict.set new_state_dict (PyStr.replace k ("net" ++ ".") "") v
  else new_state_dict.

(** Lines 178-183: the entries of the checkpoint kept for the network. *)
Definition strip_prefix (ckpt : PyDict.t Weight) : PyDict.t Weight :=
  fold_left strip_step (PyDict.items ckpt) [].

(** The entries whose key starts with "net", under the key without its
    occurrences of "net.", in the order of the checkpoint: what the loop is
    meant to keep. *)
Definition kept_entries (ckpt : PyDict.t Weight) : list (string * Weight) :=
  map (fun '(k, v) => (PyStr.replace k "net." "", v))
    (filter (fun '(k, _) => PyStr.startswith k "net") ckpt).

(** Lines 173-185: the weights of a checkpoint, when one is given. *)
Definition load_checkpoint_weights {S : Type} (hp : HParams) (n : Net)
  : Eff S Net :=
  if PyStr.truthy (weights hp) then
    let path := match weights hp with Some p => p | None => "" end in
    emit (Print ("Loaded weights from " ++ path)) ;;
    emit (TorchLoad path) ;;
    ckpt <- library "torch.load" (torch_load path) ;;
    let new_state_dict := strip_prefix ckpt in
    emit (LoadStateDict new_state_dict true) ;;
    library "load_state_dict" (load_state_dict n new_state_dict true)
  else ret n.

(** Lines 190-192: every parameter outside the classifier is frozen. *)
Definition freeze_backbone (n : Net) : Net :=
  map (fun '(name, param) =>
         if negb (PyStr.contains "classifier" name)
         then (name, {| data := data param; requires_grad := false |})
         else (name, param))
      n.

(** The fine-tuning modes. *)
Definition known_mode (mode : string) : Prop :=
  mode = "full" \/ mode = "linear" \/ mode = "lora".

(** Lines 187-209: the network as the fine-tuning mode wants it. *)
Definition prepare_for_training_mode {S : Type} (hp : HParams) (n : Net)
  : Eff S Net :=
  if (training_mode hp =? "linear")%string then
    ret (freeze_backbone n)
  else if (training_mode hp =? "lora")%string then
    let config :=
      {| cfg_r := lora_r hp;
         cfg_lora_alpha := lora_alpha hp;
         cfg_target_modules := lora_target_modules hp;
         cfg_lora_dropout := lora_dropout hp;
         cfg_bias := lora_bias hp;
         cfg_modules_to_save := ["classifier"] |} in
    emit (GetPeftModel config) ;;
    ret (get_peft_model n config)
  else if (training_mode hp =? "full")%string then
    ret n
  else
    raise (mode_error (training_mode hp)).

(** Lines 212-244: the metric collections. *)
Definition accuracy_metrics (hp : HParams) : PyDict.t Metric :=
  [ ("acc", Accuracy (n_classes hp) "multiclass" 1);
    ("acc_top5", Accuracy (n_classes hp) "multiclass" (Z.min 5 (n_classes hp))) ].

Definition test_metrics_of (hp : HParams) : PyDict.t Metric :=
  (accuracy_metrics hp ++
   [ ("stats", StatScores "multiclass" (n_classes hp)) ])%list.

(** Lines 261-271: the experiment logger. *)
Definition init_wandb {S : Type} (hp : HParams) : Eff S unit :=
  emit (WandbInit
          (model_name hp ++ "_" ++ training_mode hp)
          ("lr_" ++ float_str (lr hp) ++
           "_bs_" ++ PyStr.of_int (batch_size hp) ++
           "_optim_" ++ optimizer hp ++
           "_scheduler_" ++ scheduler hp ++
           "_gact_" ++ gact_level hp ++
           "_4bit_" ++ PyStr.of_bool (use_4bit hp))) ;;
  emit (WandbDefineMetric "train_step" None) ;;
  emit (WandbDefineMetric "val_step" None) ;;
  emit (WandbDefineMetric "train_*" (Some "train_step")) ;;
  emit (WandbDefineMetric "val_*" (Some "val_step")).

(** Lines 273-280: activation compression. *)
Definition enable_gact {S : Type} (hp : HParams) (n : Net)
  : Eff S (option Net) :=
  if open_gact hp then
    emit (GactSetOptimizationLevel (gact_level hp)) ;;
    emit (NewController n) ;;
    emit InstallHook ;;
    emit (Print "GACT is enabled") ;;
    ret (Some n)
  else ret None.

(** Lines 104-280. The constructors of the metric collections, of the
    loss and of Mixup (lines 212-256) and the calls into the logger and
    into the compression library (lines 261-280) are taken to return:
    what a construction does when one of them raises is not described. *)
Definition __init__ (hp : HParams) : Eff unit Model :=
  emit SaveHyperparameters ;;
  model_path <- lookup_model_path hp ;;
  n0 <- initialize_network hp model_path ;;
  n1 <- load_checkpoint_weights hp n0 ;;
  n2 <- prepare_for_training_mode hp n1 ;;
  init_wandb hp ;;
  ctl <- enable_gact hp n2 ;;
  ret {| hparams := hp;
         net := n2;
         train_metrics := accuracy_metrics hp;
         val_metrics := accuracy_metrics hp;
         test_metrics := test_metrics_of hp;
         mixup := {| mx_mixup_alpha := mixup_alpha hp;
                     mx_cutmix_alpha := cutmix_alpha hp;
                     mx_prob := mix_prob hp;
                     mx_label_smoothing := label_smoothing hp;
                     mx_num_classes := n_classes hp |};
         test_metric_outputs := [];
         train_step := 0;
         val_step := 0;
         controller := ctl;
         partial_x := None;
         partial_y := None;
         trainer := None |}.

(** [ClassificationModel(...)]: the trace of the construction and either
    the exception raised or the new module. *)
Definition new (hp : HParams) : list Event * (exn + Model) :=
  let '(_, evs, r) := __init__ hp tt in (evs, r).

(** The network of a construction, or the exception that ended it. *)
Definition network_of (r : list Event * (exn + Model)) : exn + Net :=
  match snd r with
  | inl e => inl e
  | inr m => inr (net m)
  end.

(** *** The callbacks (lines 282-419) *)

(** The driver, or the exception of a module that is not attached. *)
Definition the_trainer : Eff Model Trainer :=
  self <- get ;;
  match trainer self with
  | Some t => ret t
  | None =>
      raise (RuntimeError
               "ClassificationModel is not attached to a `Trainer`.")
  end.

Definition forward (x : list Image) : Eff Model Logits :=
  self <- get ;;
  emit (Forward x) ;;
  ret (net_forward (net self) x).

Definition loss_fn (pred : Logits) (target : Targets) : Eff Model Float :=
  emit (LossFn pred target) ;;
  ret (soft_target_cross_entropy pred target).

Definition gact_backward : Eff Model unit :=
  the_trainer ;;
  emit Optimizers ;;
  self <- get ;;
  x <- match partial_x self with
       | Some x => ret x
       | None =>
           raise (AttributeError
                    "'ClassificationModel' object has no attribute 'partial_x'")
       end ;;
  partial_pred <- forward x ;;
  y <- match partial_y self with
       | Some y => ret y
       | None =>
           raise (AttributeError
                    "'ClassificationModel' object has no attribute 'partial_y'")
       end ;;
  loss <- loss_fn partial_pred y ;;
  t <- the_trainer ;;
  emit (OptimizerZeroGrad (current_epoch t) 0) ;;
  emit (Backward loss).

(** [getattr(self, name)] for the names [shared_step] asks for. *)
Definition getattr_metrics (name : string) : Eff Model (PyDict.t Metric) :=
  self <- get ;;
  if (name =? "train_metrics")%string then ret (train_metrics self)
  else if (name =? "val_metrics")%string then ret (val_metrics self)
  else if (name =? "test_metrics")%string then ret (test_metrics self)
  else raise (AttributeError
                ("'ClassificationModel' object has no attribute '" ++ name ++ "'")).

Definition metric_forward (m : Metric) (pred : Logits) (target : Labels)
  : MetricValue :=
  match m with
  | Accuracy num_classes _ top_k =>
      Scalar (accuracy_value num_classes top_k pred target)
  | StatScores _ num_classes =>
      Stats (stat_scores_value num_classes pred target)
  end.

(** Calling a [MetricCollection]; the call is taken to return. *)
Definition metrics_call (c : PyDict.t Metric) (pred : Logits) (target : Labels)
  : Eff Model (PyDict.t MetricValue) :=
  emit (MetricsCall c pred target) ;;
  ret (map (fun '(k, m) => (k, metric_forward m pred target)) c).

(** [self.controller.iterate(self.gact_backward)]: the controller runs
    the callback, and the event carries the calls the callback makes; what
    the callback or the controller raises is not described. *)
Definition controller_iterate : Eff Model unit :=
  self <- get ;;
  match controller self with
  | Some _ => emit (ControllerIterate (trace_of (gact_backward self)))
  | None =>
      raise (AttributeError
               "'ClassificationModel' object has no attribute 'controller'")
  end.

(** [self.train_step if mode == "train" else self.val_step] *)
Definition step_of (self : Model) (mode : string) : Z :=
  if (mode =? "train")%string then train_step self else val_step self.

(** Lines 292-334. [len(v.size()) == 0] holds of a [Scalar] and of nothing
    else. [w] is what Mixup draws from the random generator, if it is
    called. *)
Definition shared_step (w : Draw) (batch : Batch) (mode : string)
  : Eff Model Float :=
  let '(x, y) := batch in
  modify (fun self =>
            set_train_step
              (train_step self + (if (mode =? "train")%string then 1 else 0))
              self) ;;
  modify (fun self =>
            set_val_step
              (val_step self + (if (mode =? "val")%string then 1 else 0))
              self) ;;
  self <- get ;;
  '(x, y) <- (if (mode =? "train")%string then
                emit (MixupCall x y) ;;
                ret (mixup_call (mixup self) w x y)
              else
                emit (OneHot y (n_classes (hparams self))) ;;
                h <- lift (Torch.one_hot y (n_classes (hparams self))) ;;
                ret (x, map (map float_of_int) h)) ;;
  when (open_gact (hparams self) && (mode =? "train")%string
        && negb (train_step self =? 1))
    controller_iterate ;;
  pred <- forward x ;;
  loss <- loss_fn pred y ;;
  when (open_gact (hparams self))
    (modify (set_partial (Torch.take 8 x) (Torch.take 8 y))) ;;
  collection <- getattr_metrics (mode ++ "_metrics") ;;
  metrics <- metrics_call collection pred (argmax1 y) ;;
  emit (Log (mode ++ "_loss") loss (Some true) false) ;;
  self <- get ;;
  emit (WandbLog (mode ++ "_loss") loss (mode ++ "_step") (step_of self mode)) ;;
  for_each (PyDict.items metrics)
    (fun '(k, v) =>
       match v with
       | Scalar f =>
           emit (Log (mode ++ "_" ++ PyStr.lower k) f (Some true) false) ;;
           self <- get ;;
           emit (WandbLog (mode ++ "_" ++ PyStr.lower k) f
                   (mode ++ "_step") (step_of self mode))
       | Stats _ => ret tt
       end) ;;
  when (mode =? "test")%string
    (match PyDict.get metrics "stats" with
     | Some stats =>
         modify (fun self =>
                   set_test_metric_outputs
                     (test_metric_outputs self ++ [stats])%list self)
     | None => raise (KeyError "stats")
     end) ;;
  ret loss.

Definition training_step (w : Draw) (batch : Batch) : Eff Model Float :=
  t <- the_trainer ;;
  emit (Log "lr" (optimizer_lr t) None true) ;;
  shared_step w batch "train".

Definition validation_step (w : Draw) (batch : Batch) : Eff Model Float :=
  shared_step w batch "val".

Definition test_step (w : Draw) (batch : Batch) : Eff Model Float :=
  shared_step w batch "test".

(** Lines 346-362: the per-class accuracies of the test epoch. *)
Definition per_class_acc (combined_stats : list StatRow) : list (Float * Z) :=
  map (fun '(tp, _, _, _, sup) => (true_div tp sup, sup)) combined_stats.

Definition on_test_epoch_end : Eff Model unit :=
  self <- get ;;
  combined_stats <- lift (Torch.stack_sum (test_metric_outputs self)) ;;
  let df := {| columns := ["acc"; "n"];
               rows := per_class_acc combined_stats |} in
  emit (ToCsv df "per-class-acc-test.csv") ;;
  emit (Print "Saved per-class results in per-class-acc-test.csv").



(** A call of a library constructor: the object, or the exception the
    library raises on these arguments. *)
Definition construct {S A : Type} (refused : A -> option exn) (a : A)
  : Eff S A :=
  match refused a with
  | Some e => raise e
  | None => ret a
  end.

(** Lines 364-419. *)
Definition configure_optimizers : Eff Model OptimizerConfig :=
  self <- get ;;
  let hp := hparams self in
  opt <- (if (optimizer hp =? "adam")%string then
            construct optimizer_init
              (Adam (parameters (net self)) (lr hp) (betas hp)
                 (weight_decay hp))
          else if (optimizer hp =? "adamw")%string then
            construct optimizer_init
              (AdamW (parameters (net self)) (lr hp) (betas hp)
                 (weight_decay hp))
          else if (optimizer hp =? "sgd")%string then
            construct optimizer_init
              (SGD (parameters (net self)) (lr hp) (momentum hp)
                 (weight_decay hp))
          else if (optimizer hp =? "adamw4bit")%string then
            construct optimizer_init
              (Lpmm_AdamW (parameters (net self)) (lr hp) (betas hp)
                 (weight_decay hp))
          else
            raise (ValueError
                     (optimizer hp ++
                      " is not an available optimizer. Should be one of ['adam', 'adamw', 'sgd']"))) ;;
  sch <- (if (scheduler hp =? "cosine")%string then
            t <- the_trainer ;;
            construct scheduler_init
              (CosineScheduleWithWarmup opt (estimated_stepping_batches t)
                 (warmup_steps hp))
          else if (scheduler hp =? "none")%string then
            construct scheduler_init (LambdaLR opt (fun _ => 1))
          else
            raise (ValueError
                     (scheduler hp ++
                      " is not an available optimizer. Should be one of ['cosine', 'none']"))) ;;
  ret {| cfg_optimizer := opt;
         cfg_lr_scheduler := {| sched := sch; interval := "step" |} |}.

(** *** The training-loop driver

    The driver owns the loop: it attaches itself to the module and runs one
    callback after another, until one of them raises. *)
Inductive Call : Type :=
| TrainingStep (w : Draw) (batch : Batch)
| ValidationStep (w : Draw) (batch : Batch)
| TestStep (w : Draw) (batch : Batch)
| OnTestEpochEnd
| ConfigureOptimizers.

Definition dispatch (c : Call) : Eff Model unit :=
  match c with
  | TrainingStep w batch => training_step w batch ;; ret tt
  | ValidationStep w batch => validation_step w batch ;; ret tt
  | TestStep w batch => test_step w batch ;; ret tt
  | OnTestEpochEnd => on_test_epoch_end
  | ConfigureOptimizers => configure_optimizers ;; ret tt
  end.

Definition is_training_step (c : Call) : bool :=
  match c with TrainingStep _ _ => true | _ => false end.

(** A trace in which the controller's [iterate] is called. *)
Definition invokes_iterate (evs : list Event) : bool :=
  existsb is_iterate evs.

(** The trace of every callback that ran, the final state and the exception
    that stopped the loop, if one did. *)
Fixpoint drive (calls : list (Trainer * Call)) (self : Model)
  : list (list Event) * Model * option exn :=
  match calls with
  | [] => ([], self, None)
  | (t, c) :: rest =>
      let '(self', evs, r) := dispatch c (attach t self) in
      match r with
      | inl e => ([evs], self', Some e)
      | inr _ =>
          let '(traces, final, e) := drive rest self' in
          (evs :: traces, final, e)
      end
  end.

Definition traces_of (r : list (list Event) * Model * option exn)
  : list (list Event) := fst (fst r).

End ClassificationModel.

(** ** Reading results

    What an optimizer was given, and how many callbacks of a kind a
    schedule holds. *)

Section Reading.
Context `{Framework}.

(** The parameters handed to an optimizer. *)
Definition optimizer_params (o : Optimizer) : list Param :=
  match o with
  | Adam ps _ _ _ | AdamW ps _ _ _ | SGD ps _ _ _ | Lpmm_AdamW ps _ _ _ => ps
  end.

Definition is_validation_step (c : Call) : bool :=
  match c with ValidationStep _ _ => true | _ => false end.

Definition is_test_step (c : Call) : bool :=
  match c with TestStep _ _ => true | _ => false end.

(** How many of the callbacks satisfy [p]. *)
Definition count_calls (p : Call -> bool) (calls : list (Trainer * Call))
  : Z :=
  Z.of_nat (length (filter p (map snd calls))).

(** The module a run of the driver leaves behind, the exception that
    stopped it, and the callbacks it got to start. *)
Definition final_of (r : list (list Event) * Model * option exn) : Model :=
  snd (fst r).

Definition stopped_by (r : list (list Event) * Model * option exn)
  : option exn := snd r.

Definition started (calls : list (Trainer * Call))
    (r : list (list Event) * Model * option exn) : list (Trainer * Call) :=
  firstn (length (traces_of r)) calls.

(** The calls that read a checkpoint into the network. *)
Definition is_checkpoint_load (e : Event) : bool :=
  match e with
  | TorchLoad _ | LoadStateDict _ _ => true
  | _ => false
  end.

(** The adapter configuration of lines 195-202. *)
Definition lora_config_of (hp : HParams) : LoraConfig :=
  {| cfg_r := lora_r hp;
     cfg_lora_alpha := lora_alpha hp;
     cfg_target_modules := lora_target_modules hp;
     cfg_lora_dropout := lora_dropout hp;
     cfg_bias := lora_bias hp;
     cfg_modules_to_save := ["classifier"] |}.

(** A state-dict key as the module's own checkpoints spell it. *)
Definition with_net_prefix (kv : string * Weight) : string * Weight :=
  let '(k, v) := kv in ("net." ++ k, v).

(** What the constructor establishes and no callback changes: the
    arguments, the three metric collections, and a controller on the
    network exactly when activation compression is on. *)
Definition constructed (hp : HParams) (self : Model) : Prop :=
  hparams self = hp
  /\ train_metrics self = accuracy_metrics hp
  /\ val_metrics self = accuracy_metrics hp
  /\ test_metrics self = test_metrics_of hp
  /\ controller self = (if open_gact hp then Some (net self) else None).

(** What holds of the stored slices along a run with activation
    compression on: once a training step has run, both exist and hold at
    most eight samples. *)
Definition slices_ready (s : Model) : Prop :=
  0 <= train_step s
  /\ (train_step s = 0
      \/ exists px py,
           partial_x s = Some px /\ partial_y s = Some py
           /\ (length px <= 8)%nat /\ (length py <= 8)%nat).

(** The optimizer a scheduler steps. *)
Definition scheduler_optimizer (s : Scheduler) : Optimizer :=
  match s with
  | CosineScheduleWithWarmup opt _ _ | LambdaLR opt _ => opt
  end.

(** The calls into the experiment logger made by the constructor, and the
    calls that set up activation compression. *)
Definition is_logger_setup (e : Event) : bool :=
  match e with
  | WandbInit _ _ | WandbDefineMetric _ _ => true
  | _ => false
  end.

Definition is_gact_setup (e : Event) : bool :=
  match e with
  | GactSetOptimizationLevel _ | NewController _ | InstallHook => true
  | _ => false
  end.

(** What a step logs for the loss and for the two accuracies of a
    collection, each value once through [self.log] and once through
    [wandb.log] against the step axis [mode ++ "_step"]. *)
Definition logged (mode : string) (name : string) (v : Float) (step : Z)
  : list Event :=
  [ Log (mode ++ "_" ++ name) v (Some true) false;
    WandbLog (mode ++ "_" ++ name) v (mode ++ "_step") step ].

(** The replay the controller is handed: [gact_backward] on the slices
    [px], [py] for the network [n] under the driver [t]. *)
Definition replay (n : Net) (t : Trainer) (px : list Image) (py : Targets)
  : list Event :=
  [ Optimizers;
    Forward px;
    LossFn (net_forward n px) py;
    OptimizerZeroGrad (current_epoch t) 0;
    Backward (soft_target_cross_entropy (net_forward n px) py) ].

End Reading.

(** ** What a computation leaves alone

    [keeps I c]: the computation [c] never changes the part [I] of the
    state, whether it returns or raises. [emits P c]: every library call
    of [c] satisfies [P]. *)

Section Invariants.
Context `{Carriers}.

Definition keeps {S A X : Type} (I : S -> X) (c : Eff S A) : Prop :=
  forall s, I (state_of (c s)) = I s.

Definition emits {S A : Type} (P : Event -> Prop) (c : Eff S A) : Prop :=
  forall s, Forall P (trace_of (c s)).

End Invariants.

(** ** A small framework to run the module on

    Floats are kept as unevaluated ratios of integers, images and weights
    are integers, and the hub hands out a three-parameter network. *)

Module Toy.

#[local] Instance carriers : Carriers :=
  {| Float := Z * Z; Image := Z; Weight := Z; Draw := Z; HubConfig := Z |}.

Definition param (w : Z) (g : bool) : Param :=
  {| data := w; requires_grad := g |}.

Definition hub_net : Net :=
  [ ("vit.embeddings.cls_token", param 1 true);
    ("classifier.weight", param 2 true);
    ("classifier.bias", param 3 true) ].

(** Strict loading: the keys must be the parameter names, in order. *)
Definition load (n : Net) (sd : PyDict.t Z) (strict : bool) : option Net :=
  if list_eq_dec string_dec (map fst n) (PyDict.keys sd)
  then Some (map (fun '(k, p, w) => (k, param w (requires_grad p)))
               (combine n (map snd sd)))
  else None.

Definition checkpoint : PyDict.t Z :=
  [ ("net.vit.embeddings.cls_token", 10);
    ("loss_fn.weight", 20);
    ("net.classifier.weight", 30);
    ("net.classifier.bias", 40) ].

(** The learning rate an optimizer is built with. *)
Definition optimizer_lr_of (o : Optimizer) : Z * Z :=
  match o with
  | Adam _ l _ _ | AdamW _ l _ _ | SGD _ l _ _ | Lpmm_AdamW _ l _ _ => l
  end.

(** The optimizers refuse a negative learning rate, as torch's do. *)
Definition refuse_negative (l : Z * Z) : option exn :=
  if fst l <? 0
  then Some (ValueError
               ("Invalid learning rate: " ++ PyStr.of_int (fst l) ++ "/"
                ++ PyStr.of_int (snd l)))
  else None.

#[local] Instance framework : Framework :=
  {| float_of_int := fun z => (z, 1);
     true_div := fun a b => (a, b);
     float_str := fun _ => "0.01";
     auto_config := fun _ => 768;
     config_with_image_size := fun c _ => c;
     config_hidden_size := fun c => c;
     from_config := fun _ => hub_net;
     with_classifier := fun n _ _ => n;
     from_pretrained := fun _ _ _ _ _ => hub_net;
     torch_load := fun _ => Some checkpoint;
     load_state_dict := load;
     get_peft_model := fun n _ => n;
     net_forward := fun _ x => map (fun i => [(i, 1); (0, 1)]) x;
     soft_target_cross_entropy := fun _ _ => (0, 1);
     mixup_call := fun _ _ x y =>
                     (x, map (fun c => [(1 - c, 1); (c, 1)]) y);
     argmax1 := fun t => map (fun _ => 0) t;
     accuracy_value := fun _ _ _ _ => (1, 1);
     stat_scores_value := fun n _ y =>
                            map (fun _ => (1, 0, 0, 0, 1))
                              (seq 0 (Z.to_nat n));
     optimizer_init := fun o => refuse_negative (optimizer_lr_of o);
     scheduler_init := fun _ => None |}.

Definition make_with_lr (rate : Z * Z) (name mode : string)
    (ckpt : option string) (scratch four_bit gact : bool) (opt sch : string)
  : HParams :=
  {| model_name := name;
     optimizer := opt;
     lr := rate;
     betas := ((9, 10), (999, 1000));
     momentum := (9, 10);
     weight_decay := (0, 1);
     scheduler := sch;
     warmup_steps := 0;
     n_classes := 2;
     mixup_alpha := (0, 1);
     cutmix_alpha := (0, 1);
     mix_prob := (1, 1);
     label_smoothing := (0, 1);
     image_size := 224;
     weights := ckpt;
     training_mode := mode;
     lora_r := 16;
     lora_alpha := 16;
     lora_target_modules := ["query"; "value"];
     lora_dropout := (0, 1);
     lora_bias := "none";
     from_scratch := scratch;
     batch_size := 32;
     filename := "none";
     open_gact := gact;
     gact_level := "L0";
     use_4bit := four_bit |}.

Definition make : string -> string -> option string -> bool -> bool -> bool
                  -> string -> string -> HParams :=
  make_with_lr (1, 100).

(** The default arguments of the constructor, for a two-class problem. *)
Definition hp : HParams :=
  make "vit-b16-224-in21k" "full" None false false false "sgd" "cosine".

(** Linear probing on top of a checkpoint. *)
Definition linear_hp : HParams :=
  make "vit-b16-224-in21k" "linear" (Some "last.ckpt") false false false
    "sgd" "cosine".

Definition unknown_model_hp : HParams :=
  make "resnet50" "full" None false false false "sgd" "cosine".

Definition unknown_mode_hp : HParams :=
  make "vit-b16-224-in21k" "prefix" None false false false "sgd" "cosine".

Definition four_bit_full_hp : HParams :=
  make "vit-b16-224-in21k" "full" None false true false "sgd" "cosine".

Definition four_bit_lora_hp : HParams :=
  make "vit-b16-224-in21k" "lora" None false true false "sgd" "cosine".

Definition scratch_hp : HParams :=
  make "vit-b16-224-in21k" "full" None true true false "sgd" "cosine".

Definition gact_hp : HParams :=
  make "vit-b16-224-in21k" "full" None false false true "adamw4bit" "none".



(** A batch of three samples, and the driver at some moment. *)
Definition batch : Batch := ([11; 12; 13], [0; 1; 1]).

Definition driver : Trainer :=
  {| optimizer_lr := (1, 100);
     current_epoch := 0;
     estimated_stepping_batches := 100 |}.

(** Train, validate, train, test, train. *)
Definition schedule : list (Trainer * Call) :=
  [ (driver, TrainingStep 0 batch);
    (driver, ValidationStep 0 batch);
    (driver, TrainingStep 1 batch);
    (driver, TestStep 0 batch);
    (driver, TrainingStep 2 batch) ].

End Toy.

(** * Properties *)

(** ** Strings and dictionaries *)

Lemma append_assoc (a b c : string) : (a ++ b) ++ c = a ++ (b ++ c).
Proof.
  induction a as [|x a IH]; simpl; [reflexivity | now rewrite IH].
Qed.

Lemma length_append (a b : string) :
  String.length (a ++ b) = (String.length a + String.length b)%nat.
Proof.
  induction a as [|x a IH]; simpl; [reflexivity | now rewrite IH].
Qed.

(** Two texts that end in tails of one length end in the same tail. *)
Lemma append_tail_eq (a b s t : string) :
  a ++ s = b ++ t -> String.length s = String.length t -> s = t.
Proof.
  intros E L.
  assert (La : String.length a = String.length b).
  { apply (f_equal String.length) in E. rewrite !length_append in E. lia. }
  clear L. revert b E La.
  induction a as [|x a IH]; intros [|y b] E La; simpl in *;
    try discriminate; [assumption|].
  injection E as _ E. apply (IH b); [assumption | lia].
Qed.

Lemma get_Some_In {V : Type} (d : PyDict.t V) (k : string) (v : V) :
  PyDict.get d k = Some v -> In (k, v) d.
Proof.
  induction d as [|[k' v'] d IH]; simpl; [discriminate|].
  destruct (String.eqb_spec k' k) as [->|N]; intros E.
  - injection E as ->. now left.
  - right. now apply IH.
Qed.

Lemma get_None_iff {V : Type} (d : PyDict.t V) (k : string) :
  PyDict.get d k = None <-> ~ In k (PyDict.keys d).
Proof.
  induction d as [|[k' v'] d IH]; simpl.
  - tauto.
  - destruct (String.eqb_spec k' k) as [->|N].
    + split; [discriminate | intros C; exfalso; apply C; now left].
    + rewrite IH. tauto.
Qed.

Lemma get_key_iff {V : Type} (d : PyDict.t V) (k : string) :
  In k (PyDict.keys d) <-> exists v, PyDict.get d k = Some v.
Proof.
  destruct (PyDict.get d k) as [v|] eqn:E.
  - split; [intros _; now exists v|intros _].
    apply get_Some_In in E. apply (in_map fst) in E. exact E.
  - apply get_None_iff in E. split; [tauto | intros [v D]; discriminate].
Qed.

(** ** The constructor *)

Section Constructor.
Context `{Framework}.

Ltac run_eff :=
  unfold bind, ret, raise, emit, get, modify, lift, library, when in *;
  simpl in *.

(** The network phase returns a network, unless four-bit loading meets
    full fine-tuning. *)
Lemma initialize_network_cases {S : Type} (hp : HParams) (path : string)
    (s : S) :
  (exists evs n0, initialize_network hp path s = (s, evs, inr n0)
     /\ (from_scratch hp = true \/ use_4bit hp = false
         \/ training_mode hp <> "full"))
  \/ (from_scratch hp = false /\ use_4bit hp = true
      /\ training_mode hp = "full"
      /\ initialize_network hp path s = (s, [], inl four_bit_error)).
Proof.
  unfold initialize_network.
  destruct (from_scratch hp) eqn:Fs;
    [left; run_eff; do 2 eexists; split; [reflexivity | auto]|].
  destruct (use_4bit hp) eqn:U4;
    [|left; run_eff; do 2 eexists; split; [reflexivity | auto]].
  destruct (String.eqb_spec (training_mode hp) "full") as [E|N].
  - right. run_eff. rewrite E. simpl. auto.
  - left. run_eff.
    destruct (String.eqb_spec (training_mode hp) "full"); [contradiction|].
    simpl. do 2 eexists; split; [reflexivity | auto].
Qed.

Lemma load_checkpoint_weights_cases {S : Type} (hp : HParams) (n0 : Net)
    (s : S) :
  exists evs,
    (exists n1, load_checkpoint_weights hp n0 s = (s, evs, inr n1))
    \/ (exists call, load_checkpoint_weights hp n0 s
                     = (s, evs, inl (LibraryError call))).
Proof.
  unfold load_checkpoint_weights.
  destruct (PyStr.truthy (weights hp)); [|run_eff; eauto].
  run_eff.
  destruct (torch_load _) as [ckpt|]; simpl; [|eauto].
  destruct (load_state_dict _ _ _) as [n1|]; simpl; eauto.
Qed.

Lemma prepare_for_training_mode_cases {S : Type} (hp : HParams) (n1 : Net)
    (s : S) :
  (known_mode (training_mode hp)
   /\ exists evs n2, prepare_for_training_mode hp n1 s = (s, evs, inr n2))
  \/ (~ known_mode (training_mode hp)
      /\ prepare_for_training_mode hp n1 s
         = (s, [], inl (mode_error (training_mode hp)))).
Proof.
  unfold prepare_for_training_mode, known_mode.
  destruct (String.eqb_spec (training_mode hp) "linear") as [E|N1];
    [left; run_eff; eauto 6|].
  destruct (String.eqb_spec (training_mode hp) "lora") as [E|N2];
    [left; run_eff; eauto 6|].
  destruct (String.eqb_spec (training_mode hp) "full") as [E|N3];
    [left; run_eff; eauto 6|].
  right. run_eff. split; [tauto | reflexivity].
Qed.

(** The construction, phase by phase. *)
Lemma new_unknown_model (hp : HParams) :
  PyDict.get MODEL_DICT (model_name hp) = None ->
  new hp = ([SaveHyperparameters], inl (model_error (model_name hp))).
Proof.
  intros G. unfold new, __init__, lookup_model_path. run_eff.
  rewrite G. reflexivity.
Qed.

Lemma new_fails_in_network (hp : HParams) (path : string) (e : exn) :
  PyDict.get MODEL_DICT (model_name hp) = Some path ->
  outcome_of (initialize_network hp path tt) = inl e ->
  new hp
  = ((SaveHyperparameters :: trace_of (initialize_network hp path tt))%list,
     inl e).
Proof.
  intros G I. unfold new, __init__, lookup_model_path. run_eff.
  rewrite G. simpl.
  destruct (initialize_network hp path tt) as [[[] e0] [x|n0]];
    unfold outcome_of, trace_of in *; simpl in *; [|discriminate].
  injection I as ->. reflexivity.
Qed.

Lemma new_fails_in_checkpoint (hp : HParams) (path : string) (n0 : Net)
    (e : exn) :
  PyDict.get MODEL_DICT (model_name hp) = Some path ->
  outcome_of (initialize_network hp path tt) = inr n0 ->
  outcome_of (load_checkpoint_weights hp n0 tt) = inl e ->
  new hp
  = ((SaveHyperparameters :: trace_of (initialize_network hp path tt)
        ++ trace_of (load_checkpoint_weights hp n0 tt))%list,
     inl e).
Proof.
  intros G I L. unfold new, __init__, lookup_model_path. run_eff.
  rewrite G. simpl.
  destruct (initialize_network hp path tt) as [[[] e0] [x|n0']];
    unfold outcome_of, trace_of in *; simpl in *; [discriminate|].
  injection I as ->.
  destruct (load_checkpoint_weights hp n0 tt) as [[[] e1] [x|n1]];
    simpl in *; [|discriminate].
  injection L as ->. reflexivity.
Qed.

Lemma new_fails_in_mode (hp : HParams) (path : string) (n0 n1 : Net)
    (e : exn) :
  PyDict.get MODEL_DICT (model_name hp) = Some path ->
  outcome_of (initialize_network hp path tt) = inr n0 ->
  outcome_of (load_checkpoint_weights hp n0 tt) = inr n1 ->
  outcome_of (prepare_for_training_mode hp n1 tt) = inl e ->
  new hp
  = ((SaveHyperparameters :: trace_of (initialize_network hp path tt)
        ++ trace_of (load_checkpoint_weights hp n0 tt)
        ++ trace_of (prepare_for_training_mode hp n1 tt))%list,
     inl e).
Proof.
  intros G I L P. unfold new, __init__, lookup_model_path. run_eff.
  rewrite G. simpl.
  destruct (initialize_network hp path tt) as [[[] e0] [x|n0']];
    unfold outcome_of, trace_of in *; simpl in *; [discriminate|].
  injection I as ->.
  destruct (load_checkpoint_weights hp n0 tt) as [[[] e1] [x|n1']];
    simpl in *; [discriminate|].
  injection L as ->.
  destruct (prepare_for_training_mode hp n1 tt) as [[[] e2] [x|n2]];
    simpl in *; [|discriminate].
  injection P as ->. reflexivity.
Qed.

Lemma new_succeeds (hp : HParams) (path : string) (n0 n1 n2 : Net) :
  PyDict.get MODEL_DICT (model_name hp) = Some path ->
  outcome_of (initialize_network hp path tt) = inr n0 ->
  outcome_of (load_checkpoint_weights hp n0 tt) = inr n1 ->
  outcome_of (prepare_for_training_mode hp n1 tt) = inr n2 ->
  exists m,
    new hp
    = ((SaveHyperparameters :: trace_of (initialize_network hp path tt)
          ++ trace_of (load_checkpoint_weights hp n0 tt)
          ++ trace_of (prepare_for_training_mode hp n1 tt)
          ++ trace_of (init_wandb hp tt)
          ++ trace_of (enable_gact hp n2 tt))%list,
       inr m)
    /\ hparams m = hp /\ net m = n2
    /\ train_step m = 0 /\ val_step m = 0
    /\ test_metric_outputs m = []
    /\ controller m = (if open_gact hp then Some n2 else None)
    /\ partial_x m = None /\ partial_y m = None /\ trainer m = None
    /\ train_metrics m = accuracy_metrics hp
    /\ val_metrics m = accuracy_metrics hp
    /\ test_metrics m = test_metrics_of hp.
Proof.
  intros G I L P. unfold new, __init__, lookup_model_path. run_eff.
  rewrite G. simpl.
  destruct (initialize_network hp path tt) as [[[] e0] [x|n0']];
    unfold outcome_of, trace_of in *; simpl in *; [discriminate|].
  injection I as ->.
  destruct (load_checkpoint_weights hp n0 tt) as [[[] e1] [x|n1']];
    simpl in *; [discriminate|].
  injection L as ->.
  destruct (prepare_for_training_mode hp n1 tt) as [[[] e2] [x|n2']];
    simpl in *; [discriminate|].
  injection P as ->.
  unfold enable_gact. run_eff.
  destruct (open_gact hp); simpl;
    eexists; (split; [reflexivity|]); simpl; repeat split; reflexivity.
Qed.

(** The two [ValueError]s of the constructor never carry the same text:
    they end differently. *)
Lemma mode_error_is_not_model_error (mode name : string) :
  mode_error mode <> model_error name.
Proof.
  unfold mode_error, model_error. intros E. injection E as E.
  match type of E with
  | _ ++ ?M = _ ++ ?K =>
      assert (EK : K = substring 0 (String.length K - String.length M) K
                       ++ substring (String.length K - String.length M)
                            (String.length M) K)
        by (vm_compute; reflexivity);
      rewrite EK in E
  end.
  rewrite <- append_assoc in E.
  apply append_tail_eq in E; [|vm_compute; reflexivity].
  vm_compute in E. discriminate.
Qed.

(** What a construction that got past the model table can end with. *)
Lemma new_outcome_cases (hp : HParams) (path : string) :
  PyDict.get MODEL_DICT (model_name hp) = Some path ->
  snd (new hp) = inl four_bit_error
  \/ (exists call, snd (new hp) = inl (LibraryError call))
  \/ (~ known_mode (training_mode hp)
      /\ snd (new hp) = inl (mode_error (training_mode hp)))
  \/ exists m, snd (new hp) = inr m.
Proof.
  intros G.
  destruct (initialize_network_cases hp path tt)
    as [(e0 & n0 & I & _)|(_ & _ & _ & I)].
  2:{ left. erewrite new_fails_in_network by (eassumption || now rewrite I).
      reflexivity. }
  destruct (load_checkpoint_weights_cases hp n0 tt) as (e1 & [[n1 L]|[c L]]).
  2:{ right; left. exists c.
      erewrite new_fails_in_checkpoint
        by (eassumption || now rewrite I || now rewrite L).
      reflexivity. }
  destruct (prepare_for_training_mode_cases hp n1 tt)
    as [(_ & e2 & n2 & P)|(NK & P)].
  - do 3 right.
    destruct (new_succeeds hp (path:=path) (n0:=n0) (n1:=n1) (n2:=n2))
      as (m & E & _);
      try assumption; try (now rewrite I); try (now rewrite L);
      try (now rewrite P).
    exists m. now rewrite E.
  - right; right; left. split; [assumption|].
    erewrite new_fails_in_mode
      by (eassumption || now rewrite I || now rewrite L || now rewrite P).
    reflexivity.
Qed.

(** A construction that returns went through every phase. *)
Lemma new_returns_inv (hp : HParams) (m : Model) :
  snd (new hp) = inr m ->
  exists path n0 n1,
    PyDict.get MODEL_DICT (model_name hp) = Some path
    /\ outcome_of (initialize_network hp path tt) = inr n0
    /\ outcome_of (load_checkpoint_weights hp n0 tt) = inr n1
    /\ outcome_of (prepare_for_training_mode hp n1 tt) = inr (net m)
    /\ hparams m = hp
    /\ train_step m = 0 /\ val_step m = 0
    /\ test_metric_outputs m = []
    /\ controller m = (if open_gact hp then Some (net m) else None)
    /\ test_metrics m = test_metrics_of hp.
Proof.
  intros R.
  destruct (PyDict.get MODEL_DICT (model_name hp)) as [path|] eqn:G.
  2:{ rewrite (new_unknown_model hp G) in R. discriminate. }
  destruct (outcome_of (initialize_network hp path tt)) as [e|n0] eqn:I.
  { rewrite (new_fails_in_network hp G I) in R. discriminate. }
  destruct (outcome_of (load_checkpoint_weights hp n0 tt)) as [e|n1] eqn:L.
  { rewrite (new_fails_in_checkpoint hp G I L) in R. discriminate. }
  destruct (outcome_of (prepare_for_training_mode hp n1 tt))
    as [e|n2] eqn:P.
  { rewrite (new_fails_in_mode hp G I L P) in R. discriminate. }
  destruct (new_succeeds hp G I L P)
    as (m' & E & Hh & Hn & Ht & Hv & Ho & Hc & _ & _ & _ & _ & _ & Htm).
  rewrite E in R. simpl in R. injection R as <-.
  exists path, n0, n1. rewrite Hn. repeat split; assumption.
Qed.

(** C7. For every model name that is not a key of [MODEL_DICT] the
    constructor raises, before it does anything else, the [ValueError]
    that lists the available model names; for every key of [MODEL_DICT]
    the lookup returns the checkpoint path the table gives for it and the
    construction does not raise that error. *)
Theorem model_name_lookup (hp : HParams) :
  (~ In (model_name hp) (PyDict.keys MODEL_DICT) ->
   new hp
   = ([SaveHyperparameters],
      inl (ValueError
             (model_name hp ++
              " is not an available model. Should be one of ['vit-b16-224-in21k', 'vit-b32-224-in21k', 'vit-l32-224-in21k', 'vit-l15-224-in21k', 'vit-h14-224-in21k', 'vit-b16-224', 'vit-l16-224', 'vit-b16-384', 'vit-b32-384', 'vit-l16-384', 'vit-l32-384', 'vit-b16-224-dino', 'vit-b8-224-dino', 'vit-s16-224-dino', 'vit-s8-224-dino', 'beit-b16-224-in21k', 'beit-l16-224-in21k']"))))
  /\ (In (model_name hp) (PyDict.keys MODEL_DICT) ->
      exists model_path,
        In (model_name hp, model_path) MODEL_DICT
        /\ lookup_model_path hp tt = (tt, [], inr model_path)
        /\ snd (new hp) <> inl (model_error (model_name hp))).
Proof.
  split.
  - intros N. apply get_None_iff in N.
    rewrite (new_unknown_model hp N). reflexivity.
  - intros K. apply get_key_iff in K. destruct K as [path G].
    exists path. split; [now apply get_Some_In|]. split.
    + unfold lookup_model_path. now rewrite G.
    + destruct (new_outcome_cases hp G) as [E|[[c E]|[[_ E]|[m E]]]];
        rewrite E; try discriminate.
      intros C.
      assert (D : mode_error (training_mode hp) = model_error (model_name hp))
        by congruence.
      exact (mode_error_is_not_model_error D).
Qed.

(** C2. With a model name of the table and a network and checkpoint that
    load, every fine-tuning mode other than "full", "linear" and "lora"
    makes the constructor raise the [ValueError] that names the three
    modes, and each of the three lets the construction return; whatever
    the other arguments are, none of the three raises that error; and
    "full" hands over the loaded network as it is, every [requires_grad]
    included. *)
Theorem training_mode_is_checked (hp : HParams) :
  (forall path n0 n1,
      PyDict.get MODEL_DICT (model_name hp) = Some path ->
      outcome_of (initialize_network hp path tt) = inr n0 ->
      outcome_of (load_checkpoint_weights hp n0 tt) = inr n1 ->
      (~ known_mode (training_mode hp) ->
       snd (new hp)
       = inl (ValueError
                (training_mode hp ++
                 " is not an available fine-tuning mode. Should be one of ['full', 'linear', 'lora']")))
      /\ (known_mode (training_mode hp) -> exists m, snd (new hp) = inr m))
  /\ (known_mode (training_mode hp) ->
      snd (new hp) <> inl (mode_error (training_mode hp)))
  /\ (training_mode hp = "full" ->
      forall m, snd (new hp) = inr m ->
        exists path n0 n1,
          PyDict.get MODEL_DICT (model_name hp) = Some path
          /\ outcome_of (initialize_network hp path tt) = inr n0
          /\ outcome_of (load_checkpoint_weights hp n0 tt) = inr n1
          /\ net m = n1
          /\ map (fun '(name, p) => (name, requires_grad p)) (net m)
             = map (fun '(name, p) => (name, requires_grad p)) n1).
Proof.
  split; [|split].
  - intros path n0 n1 G I L.
    destruct (prepare_for_training_mode_cases hp n1 tt)
      as [(K & e2 & n2 & P)|(NK & P)]; split; intros K'; try contradiction.
    + destruct (new_succeeds hp (path:=path) (n0:=n0) (n1:=n1) (n2:=n2))
        as (m & E & _); try assumption; try (now rewrite P).
      exists m. now rewrite E.
    + erewrite new_fails_in_mode by (eassumption || now rewrite P).
      reflexivity.
  - intros K.
    destruct (PyDict.get MODEL_DICT (model_name hp)) as [path|] eqn:G.
    + destruct (new_outcome_cases hp G) as [E|[[c E]|[[NK E]|[m E]]]];
        try contradiction; rewrite E; discriminate.
    + rewrite (new_unknown_model hp G). simpl. intros C.
      assert (D : mode_error (training_mode hp) = model_error (model_name hp))
        by congruence.
      exact (mode_error_is_not_model_error D).
  - intros F m R.
    destruct (new_returns_inv hp R) as (path & n0 & n1 & G & I & L & P & _).
    exists path, n0, n1. repeat (split; [assumption|]).
    assert (N : net m = n1).
    { unfold prepare_for_training_mode, outcome_of in P. rewrite F in P.
      simpl in P. now injection P. }
    split; [assumption | now rewrite N].
Qed.

Lemma freeze_backbone_nth (n : Net) (i : nat) (name : string) (p : Param) :
  nth_error (freeze_backbone n) i = Some (name, p) ->
  exists p0,
    nth_error n i = Some (name, p0)
    /\ data p = data p0
    /\ (PyStr.contains "classifier" name = false -> requires_grad p = false)
    /\ (PyStr.contains "classifier" name = true -> p = p0).
Proof.
  unfold freeze_backbone. rewrite nth_error_map.
  destruct (nth_error n i) as [[name0 p0]|]; simpl; [|discriminate].
  destruct (PyStr.contains "classifier" name0) eqn:C; simpl;
    intros E; injection E as <- <-; exists p0; simpl;
    repeat split; congruence.
Qed.

(** C1. In "linear" mode, with a model name of the table and a network
    and checkpoint that load, the construction returns; and after any
    construction in "linear" mode the network has the parameters of the
    loaded network, under the same names and with the same data: every
    parameter whose name does not contain "classifier" has [requires_grad]
    false, and every parameter whose name contains it is the loaded one,
    so one that required a gradient still does. *)
Theorem linear_probing_freezes_backbone (hp : HParams) :
  training_mode hp = "linear" ->
  (forall path n0 n1,
      PyDict.get MODEL_DICT (model_name hp) = Some path ->
      outcome_of (initialize_network hp path tt) = inr n0 ->
      outcome_of (load_checkpoint_weights hp n0 tt) = inr n1 ->
      exists m, snd (new hp) = inr m /\ net m = freeze_backbone n1)
  /\ (forall m,
         snd (new hp) = inr m ->
         exists path n0 n1,
           PyDict.get MODEL_DICT (model_name hp) = Some path
           /\ outcome_of (initialize_network hp path tt) = inr n0
           /\ outcome_of (load_checkpoint_weights hp n0 tt) = inr n1
           /\ map fst (net m) = map fst n1
           /\ forall i name p,
                nth_error (net m) i = Some (name, p) ->
                exists p0,
                  nth_error n1 i = Some (name, p0)
                  /\ data p = data p0
                  /\ (PyStr.contains "classifier" name = false ->
                      requires_grad p = false)
                  /\ (PyStr.contains "classifier" name = true ->
                      p = p0
                      /\ (requires_grad p0 = true ->
                          requires_grad p = true))).
Proof.
  intros Lin.
  assert (P : forall n1,
             outcome_of (prepare_for_training_mode hp n1 tt)
             = inr (freeze_backbone n1)).
  { intros n1. unfold prepare_for_training_mode, outcome_of.
    now rewrite Lin. }
  split.
  - intros path n0 n1 G I L.
    destruct (new_succeeds hp G I L (P n1)) as (m & E & _ & N & _).
    exists m. rewrite E. now split.
  - intros m R.
    destruct (new_returns_inv hp R) as (path & n0 & n1 & G & I & L & Pm & _).
    exists path, n0, n1. repeat (split; [assumption|]).
    assert (N : net m = freeze_backbone n1).
    { rewrite P in Pm. now injection Pm. }
    rewrite N. split.
    + unfold freeze_backbone. rewrite map_map. apply map_ext.
      intros [name p]. now destruct (PyStr.contains "classifier" name).
    + intros i name p E.
      destruct (freeze_backbone_nth n1 i E) as (p0 & E0 & D & A & B).
      exists p0. repeat (split; [assumption|]).
      intros C. specialize (B C). split; [assumption | congruence].
Qed.

(** From here on the table is looked up, not unfolded. *)
Opaque MODEL_DICT.

Ltac split_flags :=
  repeat (simpl;
          match goal with
          | |- context [PyStr.truthy ?w] => destruct (PyStr.truthy w)
          | |- context [torch_load ?p] => destruct (torch_load p)
          | |- context [load_state_dict ?a ?b ?c] =>
              destruct (load_state_dict a b c)
          | |- context [String.eqb ?a ?b] => destruct (String.eqb a b)
          | |- context [open_gact ?h] => destruct (open_gact h)
          | |- context [from_scratch ?h] => destruct (from_scratch h)
          | |- context [use_4bit ?h] => destruct (use_4bit h)
          end);
  simpl.

Ltac unfold_new :=
  unfold network_of, new, __init__, lookup_model_path, initialize_network,
    load_checkpoint_weights, prepare_for_training_mode, init_wandb,
    enable_gact;
  run_eff.

(** C4. With a model name of the table, four-bit loading of pretrained
    weights in "full" mode ends the construction with an assertion error
    before any library call that loads weights, while in "linear" and
    "lora" mode the first library call after the hyperparameters are saved
    loads the pretrained weights with the four-bit configuration; when the
    network starts from random weights, [use_4bit] changes neither the
    calls that build the network nor the network the construction ends
    with, and no assertion fails; and in "full" mode no construction ever
    asks for quantized pretrained weights. *)
Theorem four_bit_excludes_full (hp : HParams) :
  (forall path,
      PyDict.get MODEL_DICT (model_name hp) = Some path ->
      use_4bit hp = true -> from_scratch hp = false ->
      (training_mode hp = "full" ->
       new hp
       = ([SaveHyperparameters],
          inl (AssertionError
                 "4-bit quantization can not work with full fine-tuning mode")))
      /\ (training_mode hp = "linear" \/ training_mode hp = "lora" ->
          load_in_4bit nf4_config = true
          /\ outcome_of (initialize_network hp path tt)
             = inr (from_pretrained path (n_classes hp) true (image_size hp)
                      (Some nf4_config))
          /\ exists rest,
               fst (new hp)
               = SaveHyperparameters
                 :: AutoModelFromPretrained path (n_classes hp) true
                      (image_size hp) (Some nf4_config)
                 :: rest))
  /\ (from_scratch hp = true ->
      (forall b path,
          initialize_network (with_use_4bit b hp) path tt
          = initialize_network hp path tt)
      /\ (forall b, network_of (new (with_use_4bit b hp)) = network_of (new hp))
      /\ forall msg, snd (new hp) <> inl (AssertionError msg))
  /\ (training_mode hp = "full" ->
      forall p nl ig img q,
        ~ In (AutoModelFromPretrained p nl ig img (Some q)) (fst (new hp))).
Proof.
  split; [|split].
  - intros path G U4 Fs. split.
    + intros Full. unfold_new. rewrite G, Fs, U4, Full. reflexivity.
    + intros Mode. split; [reflexivity|].
      assert (NF : (training_mode hp =? "full")%string = false)
        by (destruct Mode as [-> | ->]; reflexivity).
      split.
      * unfold initialize_network, outcome_of. run_eff.
        rewrite Fs, U4, NF. reflexivity.
      * unfold_new. rewrite G, Fs, U4, NF.
        split_flags; eexists; reflexivity.
  - intros Fs. split; [|split].
    + intros b path. unfold initialize_network. run_eff. now rewrite Fs.
    + intros b. unfold_new. rewrite Fs.
      destruct (PyDict.get MODEL_DICT (model_name hp)); simpl;
        [|reflexivity].
      split_flags; reflexivity.
    + intros msg. unfold_new. rewrite Fs.
      destruct (PyDict.get MODEL_DICT (model_name hp)); simpl;
        [|discriminate].
      split_flags; discriminate.
  - intros Full p nl ig img q. unfold_new. rewrite Full.
    destruct (PyDict.get MODEL_DICT (model_name hp)); simpl;
      [|intros [C|[]]; discriminate].
    split_flags; intuition discriminate.
Qed.

(** *** Which arguments the constructor accepts *)

Lemma load_checkpoint_weights_returns (hp : HParams) (n0 n1 : Net) :
  outcome_of (load_checkpoint_weights hp n0 tt) = inr n1
  <-> (PyStr.truthy (weights hp) = false /\ n1 = n0)
      \/ exists p ckpt,
           weights hp = Some p /\ p <> ""
           /\ torch_load p = Some ckpt
           /\ load_state_dict n0 (strip_prefix ckpt) true = Some n1.
Proof.
  unfold load_checkpoint_weights, outcome_of.
  destruct (weights hp) as [[|c p]|] eqn:W; cbn [PyStr.truthy].
  - run_eff. split.
    + intros E. injection E as <-. now left.
    + intros [[_ ->]|(p & ckpt & E & NE & _)]; [reflexivity|].
      injection E as <-. contradiction.
  - run_eff. destruct (torch_load (String c p)) as [ckpt|] eqn:T; simpl.
    + destruct (load_state_dict n0 (strip_prefix ckpt) true) as [n|] eqn:L;
        simpl; split.
      * intros E. injection E as <-. right.
        exists (String c p), ckpt. repeat split; try assumption; discriminate.
      * intros [[D _]|(p' & ckpt' & E & _ & T' & L')]; [discriminate|].
        injection E as <-. rewrite T in T'. injection T' as <-.
        rewrite L in L'. now injection L' as <-.
      * discriminate.
      * intros [[D _]|(p' & ckpt' & E & _ & T' & L')]; [discriminate|].
        injection E as <-. rewrite T in T'. injection T' as <-.
        rewrite L in L'. discriminate.
    + split; [discriminate|].
      intros [[D _]|(p' & ckpt' & E & _ & T' & _)]; [discriminate|].
      injection E as <-. rewrite T in T'. discriminate.
  - run_eff. split.
    + intros E. injection E as <-. now left.
    + intros [[_ ->]|(p & ckpt & E & _)]; [reflexivity | discriminate].
Qed.

(** X1. A construction that returns has passed every check of the
    constructor: the model name is in the table, four-bit loading of
    pretrained weights was not asked for together with "full" mode, the
    checkpoint (if a non-empty path is given) was read and its stripped
    state dict loaded strictly into the network, and the fine-tuning mode
    is one of the three. *)
Theorem constructor_passes_every_check (hp : HParams) (m : Model) :
  snd (new hp) = inr m ->
  exists path n0 n1,
    PyDict.get MODEL_DICT (model_name hp) = Some path
    /\ (from_scratch hp = true \/ use_4bit hp = false
        \/ training_mode hp <> "full")
    /\ outcome_of (initialize_network hp path tt) = inr n0
    /\ ((PyStr.truthy (weights hp) = false /\ n1 = n0)
        \/ exists p ckpt,
             weights hp = Some p /\ p <> ""
             /\ torch_load p = Some ckpt
             /\ load_state_dict n0 (strip_prefix ckpt) true = Some n1)
    /\ known_mode (training_mode hp).
Proof.
  intros R.
  destruct (new_returns_inv hp R) as (path & n0 & n1 & G & I & L & P & _).
  exists path, n0, n1. split; [exact G|]. split.
  - destruct (initialize_network_cases hp path tt)
      as [(_ & _ & _ & D)|(_ & _ & _ & E)]; [exact D|].
    rewrite E in I. discriminate.
  - split; [exact I|]. split; [now apply load_checkpoint_weights_returns|].
    destruct (prepare_for_training_mode_cases hp n1 tt)
      as [(K & _)|(_ & E)]; [exact K|].
    rewrite E in P. discriminate.
Qed.

Lemma initialize_network_trace {S : Type} (hp : HParams) (path : string)
    (s : S) (n0 : Net) :
  outcome_of (initialize_network hp path s) = inr n0 ->
  In (PrintNet n0) (trace_of (initialize_network hp path s))
  /\ (from_scratch hp = false ->
      In (AutoModelFromPretrained path (n_classes hp) true (image_size hp)
            (if use_4bit hp then Some nf4_config else None))
        (trace_of (initialize_network hp path s))).
Proof.
  unfold initialize_network, outcome_of, trace_of. run_eff.
  destruct (from_scratch hp); simpl.
  - intros E. injection E as <-. split; [auto 6 | discriminate].
  - destruct (use_4bit hp); simpl.
    + destruct (negb (training_mode hp =? "full")%string); simpl;
        [|discriminate].
      intros E. injection E as <-. split; [auto | intros _; now left].
    + intros E. injection E as <-. split; [auto | intros _; now left].
Qed.

(** X2. The fine-tuning mode is looked at last: with a model name of the
    table, an unknown mode always ends the construction with an error, but
    only after the network has been built (pretrained weights, four-bit or
    not, have been asked for) and printed. *)
Theorem unknown_mode_fails_late (hp : HParams) (path : string) :
  ~ known_mode (training_mode hp) ->
  PyDict.get MODEL_DICT (model_name hp) = Some path ->
  exists n0,
    outcome_of (initialize_network hp path tt) = inr n0
    /\ In (PrintNet n0) (fst (new hp))
    /\ (from_scratch hp = false ->
        In (AutoModelFromPretrained path (n_classes hp) true (image_size hp)
              (if use_4bit hp then Some nf4_config else None))
          (fst (new hp)))
    /\ (snd (new hp) = inl (mode_error (training_mode hp))
        \/ exists call, snd (new hp) = inl (LibraryError call)).
Proof.
  intros NK G.
  destruct (initialize_network_cases hp path tt)
    as [(e0 & n0 & I & _)|(_ & _ & Full & _)].
  2:{ exfalso. apply NK. now left. }
  assert (Io : outcome_of (initialize_network hp path tt) = inr n0)
    by now rewrite I.
  destruct (initialize_network_trace hp path tt Io) as [Pn Am].
  exists n0. split; [exact Io|].
  destruct (load_checkpoint_weights_cases hp n0 tt) as (e1 & [[n1 L]|[c L]]).
  - assert (Lo : outcome_of (load_checkpoint_weights hp n0 tt) = inr n1)
      by now rewrite L.
    destruct (prepare_for_training_mode_cases hp n1 tt)
      as [(K & _)|(_ & P)]; [contradiction|].
    assert (Po : outcome_of (prepare_for_training_mode hp n1 tt)
                 = inl (mode_error (training_mode hp))) by now rewrite P.
    rewrite (new_fails_in_mode hp G Io Lo Po). cbn [fst snd].
    split; [right; apply in_or_app; now left|].
    split; [intros Fs; right; apply in_or_app; left; now apply Am|].
    now left.
  - assert (Lo : outcome_of (load_checkpoint_weights hp n0 tt)
                 = inl (LibraryError c)) by now rewrite L.
    rewrite (new_fails_in_checkpoint hp G Io Lo). cbn [fst snd].
    split; [right; apply in_or_app; now left|].
    split; [intros Fs; right; apply in_or_app; left; now apply Am|].
    right. now exists c.
Qed.

(** X3. In "lora" mode the adapter is put on the network after the
    checkpoint has been loaded into it: every checkpoint call comes before
    the [get_peft_model] call, whose configuration takes rank, scaling,
    target modules, dropout and bias from the arguments and always saves
    the classifier; the module ends with the wrapped network, and the
    activation-compression controller, when there is one, holds that
    wrapped network. *)
Theorem lora_wraps_loaded_network (hp : HParams) (m : Model) :
  training_mode hp = "lora" ->
  snd (new hp) = inr m ->
  exists path n0 n1 before after,
    PyDict.get MODEL_DICT (model_name hp) = Some path
    /\ outcome_of (initialize_network hp path tt) = inr n0
    /\ outcome_of (load_checkpoint_weights hp n0 tt) = inr n1
    /\ net m = get_peft_model n1 (lora_config_of hp)
    /\ fst (new hp)
       = (before ++ GetPeftModel (lora_config_of hp) :: after)%list
    /\ Forall (fun e => is_checkpoint_load e = false) after
    /\ controller m = (if open_gact hp then Some (net m) else None).
Proof.
  intros Lo R.
  destruct (new_returns_inv hp R)
    as (path & n0 & n1 & G & I & L & P & _ & _ & _ & _ & Ctl & _).
  assert (P' : prepare_for_training_mode hp n1 tt
               = (tt, [GetPeftModel (lora_config_of hp)],
                  inr (get_peft_model n1 (lora_config_of hp)))).
  { unfold prepare_for_training_mode. rewrite Lo. reflexivity. }
  assert (N : net m = get_peft_model n1 (lora_config_of hp)).
  { rewrite P' in P. now injection P. }
  destruct (new_succeeds hp (path:=path) (n0:=n0) (n1:=n1)
              (n2:=get_peft_model n1 (lora_config_of hp)))
    as (m' & E & _); try assumption; try (now rewrite P').
  exists path, n0, n1,
    (SaveHyperparameters :: trace_of (initialize_network hp path tt)
       ++ trace_of (load_checkpoint_weights hp n0 tt))%list,
    (trace_of (init_wandb hp tt)
       ++ trace_of (enable_gact hp (get_peft_model n1 (lora_config_of hp)) tt))%list.
  repeat (split; [assumption|]).
  split; [|split; [|exact Ctl]].
  - rewrite E, P'. cbn [fst trace_of snd]. cbn [app].
    now rewrite <- !app_assoc.
  - unfold init_wandb, enable_gact, trace_of. run_eff.
    destruct (open_gact hp); simpl; repeat constructor.
Qed.

End Constructor.

Transparent MODEL_DICT.

(** ** The checkpoint keys *)

Section CheckpointKeys.

Lemma prefix_app (p s t : string) :
  String.prefix p s = true -> String.prefix p (s ++ t) = true.
Proof.
  revert s. induction p as [|c p IH]; intros [|d s]; simpl; try easy.
  - now destruct t.
  - destruct (ascii_dec c d); [apply IH | discriminate].
Qed.

Lemma prefix_length (p s : string) :
  String.prefix p s = true -> (String.length p <= String.length s)%nat.
Proof.
  revert s. induction p as [|c p IH]; intros [|d s]; simpl; try easy; try lia.
  destruct (ascii_dec c d); [|discriminate].
  intros E. apply IH in E. lia.
Qed.

(** An occurrence of "net." cannot begin inside a text and end inside an
    occurrence that follows the text: "net." overlaps itself nowhere. *)
Lemma net_dot_no_straddle (x b : string) :
  String.prefix "net." (x ++ "net." ++ b) = true ->
  x = "" \/ String.prefix "net." x = true.
Proof.
  intros P.
  destruct x as [|c1 [|c2 [|c3 [|c4 x]]]]; [now left|..]; right;
    cbn [String.prefix String.append] in P |- *;
    repeat match type of P with
           | context [ascii_dec ?a ?b] => destruct (ascii_dec a b)
           end; try discriminate.
  now destruct x.
Qed.

Lemma replace_from_net_dot_app (a b : string) (k : nat) :
  (k <= String.length a)%nat ->
  PyStr.replace_from "net." "" k (a ++ "net." ++ b)
  = PyStr.replace_from "net." "" k a ++ PyStr.replace_from "net." "" 0 b.
Proof.
  revert k. induction a as [|c a IH]; intros k Hk.
  - assert (k = 0%nat) by (simpl in Hk; lia). subst k.
    now destruct b.
  - destruct k as [|k].
    + change (String c a ++ "net." ++ b) with (String c (a ++ "net." ++ b)).
      cbn [PyStr.replace_from].
      change (String c (a ++ "net." ++ b)) with (String c a ++ "net." ++ b).
      destruct (String.prefix "net." (String c a)) eqn:P.
      * rewrite (prefix_app _ _ ("net." ++ b) P).
        apply prefix_length in P. simpl in P.
        simpl. apply IH. lia.
      * destruct (String.prefix "net." (String c a ++ "net." ++ b)) eqn:Q.
        { apply net_dot_no_straddle in Q. destruct Q; congruence. }
        simpl. f_equal. apply IH. lia.
    + simpl. apply IH. simpl in Hk. lia.
Qed.

Lemma replace_without_occurrence (old s : string) :
  PyStr.contains old s = false -> PyStr.replace s old "" = s.
Proof.
  unfold PyStr.replace. induction s as [|c s IH]; [reflexivity|].
  cbn [PyStr.contains PyStr.replace_from].
  destruct (String.prefix old (String c s)); [discriminate|].
  simpl. intros C. now rewrite IH.
Qed.

Lemma get_app {V : Type} (d e : PyDict.t V) (k : string) :
  PyDict.get (d ++ e)%list k
  = match PyDict.get d k with
    | Some v => Some v
    | None => PyDict.get e k
    end.
Proof.
  induction d as [|[k' v'] d IH]; simpl; [reflexivity|].
  now destruct (String.eqb k' k).
Qed.

Lemma get_set {V : Type} (d : PyDict.t V) (k k' : string) (v : V) :
  PyDict.get (PyDict.set d k v) k'
  = if String.eqb k k' then Some v else PyDict.get d k'.
Proof.
  induction d as [|[k0 v0] d IH]; simpl; [reflexivity|].
  destruct (String.eqb_spec k0 k) as [->|N]; simpl.
  - now destruct (String.eqb k k').
  - rewrite IH. destruct (String.eqb_spec k0 k') as [->|N'];
      [|reflexivity].
    destruct (String.eqb_spec k k'); [congruence | reflexivity].
Qed.

Lemma In_set {V : Type} (d : PyDict.t V) (k k' : string) (v v' : V) :
  In (k', v') (PyDict.set d k v) -> (k' = k /\ v' = v) \/ In (k', v') d.
Proof.
  induction d as [|[k0 v0] d IH]; simpl.
  - intros [E|[]]. injection E as <- <-. now left.
  - destruct (String.eqb_spec k0 k) as [->|N]; simpl.
    + intros [E|I]; [injection E as <- <-; now left | right; now right].
    + intros [E|I]; [right; now left|].
      destruct (IH I) as [?|?]; [now left | right; now right].
Qed.

Context {C : Carriers} {F : @Framework C}.

Lemma strip_fold_In (l : list (string * Weight)) (acc : PyDict.t Weight)
    (k' : string) (v : Weight) :
  In (k', v) (fold_left strip_step l acc) ->
  In (k', v) acc
  \/ exists k, In (k, v) l /\ PyStr.startswith k "net" = true
               /\ k' = PyStr.replace k "net." "".
Proof.
  revert acc. induction l as [|[k0 v0] l IH]; intros acc; simpl;
    [now left|].
  intros I. destruct (IH _ I) as [A|(k & Il & S & E)].
  - destruct (PyStr.startswith k0 "net") eqn:S; [|now left].
    apply In_set in A. destruct A as [[-> ->]|A]; [|now left].
    right. exists k0. repeat split; [now left | assumption].
  - right. exists k. repeat split; [now right | assumption | assumption].
Qed.

Lemma strip_fold_get (l : list (string * Weight)) (acc : PyDict.t Weight)
    (k' : string) :
  PyDict.get (fold_left strip_step l acc) k'
  = match PyDict.get (rev (kept_entries l)) k' with
    | Some v => Some v
    | None => PyDict.get acc k'
    end.
Proof.
  revert acc. induction l as [|[k0 v0] l IH]; intros acc; [reflexivity|].
  cbn [fold_left]. rewrite IH. unfold kept_entries, strip_step.
  cbn [filter]. destruct (PyStr.startswith k0 "net"); [|reflexivity].
  cbn [map rev]. rewrite get_app, get_set.
  destruct (PyDict.get (rev _) k'); [reflexivity|].
  cbn [PyDict.get]. change ("net" ++ ".") with "net.".
  now destruct (String.eqb _ k').
Qed.

(** C9. When a checkpoint path is given, the dictionary handed to
    [load_state_dict], with [strict=True], holds an entry only for
    checkpoint entries whose key starts with "net"; its keys are those keys
    with every occurrence of "net." removed, wherever it stands, and
    nothing else changed; each kept key carries the value of the last
    checkpoint entry that maps to it, and an entry whose key does not start
    with "net" leaves no trace. *)
Theorem checkpoint_keys_are_stripped (hp : HParams) (path : string)
    (ckpt : PyDict.t Weight) (n : Net) :
  weights hp = Some path -> path <> "" -> torch_load path = Some ckpt ->
  (trace_of (load_checkpoint_weights hp n tt)
   = [ Print ("Loaded weights from " ++ path);
       TorchLoad path;
       LoadStateDict (strip_prefix ckpt) true ]
   /\ outcome_of (load_checkpoint_weights hp n tt)
      = match load_state_dict n (strip_prefix ckpt) true with
        | Some n' => inr n'
        | None => inl (LibraryError "load_state_dict")
        end)
  /\ (forall k' v,
         In (k', v) (strip_prefix ckpt) ->
         exists k, In (k, v) ckpt /\ PyStr.startswith k "net" = true
                   /\ k' = PyStr.replace k "net." "")
  /\ (forall k v,
         In (k, v) ckpt -> PyStr.startswith k "net" = true ->
         In (PyStr.replace k "net." "") (PyDict.keys (strip_prefix ckpt)))
  /\ (forall k',
         PyDict.get (strip_prefix ckpt) k'
         = PyDict.get (rev (kept_entries ckpt)) k')
  /\ (forall a b,
         PyStr.replace (a ++ "net." ++ b) "net." ""
         = PyStr.replace a "net." "" ++ PyStr.replace b "net." "")
  /\ (forall s,
         PyStr.contains "net." s = false -> PyStr.replace s "net." "" = s).
Proof.
  intros W NE T.
  assert (G : forall k',
             PyDict.get (strip_prefix ckpt) k'
             = PyDict.get (rev (kept_entries ckpt)) k').
  { intros k'. unfold strip_prefix, PyDict.items. rewrite strip_fold_get.
    now destruct (PyDict.get (rev (kept_entries ckpt)) k'). }
  repeat split.
  - unfold load_checkpoint_weights, trace_of. rewrite W.
    destruct path as [|c path]; [contradiction|].
    unfold bind, emit, library, ret, raise. simpl. rewrite T. simpl.
    now destruct (load_state_dict _ _ _).
  - unfold load_checkpoint_weights, outcome_of. rewrite W.
    destruct path as [|c path]; [contradiction|].
    unfold bind, emit, library, ret, raise. simpl. rewrite T. simpl.
    now destruct (load_state_dict _ _ _).
  - intros k' v I. unfold strip_prefix, PyDict.items in I.
    apply strip_fold_In in I. destruct I as [[]|I]. exact I.
  - intros k v I S. apply get_key_iff. rewrite G.
    apply get_key_iff. unfold PyDict.keys. rewrite map_rev.
    apply -> in_rev.
    unfold kept_entries. rewrite map_map.
    apply in_map_iff. exists (k, v). split; [reflexivity|].
    apply filter_In. split; assumption.
  - exact G.
  - intros a b. unfold PyStr.replace.
    apply replace_from_net_dot_app. lia.
  - intros s. apply replace_without_occurrence.
Qed.

(** *** The new state dict as a whole *)

Lemma set_fresh {V : Type} (d : PyDict.t V) (k : string) (v : V) :
  ~ In k (PyDict.keys d) -> PyDict.set d k v = (d ++ [(k, v)])%list.
Proof.
  induction d as [|[k0 v0] d IH]; simpl; [reflexivity|].
  intros N. destruct (String.eqb_spec k0 k) as [->|_]; [tauto|].
  rewrite IH; [reflexivity | tauto].
Qed.

Lemma keys_set {V : Type} (d : PyDict.t V) (k : string) (v : V) :
  PyDict.keys (PyDict.set d k v)
  = if in_dec string_dec k (PyDict.keys d)
    then PyDict.keys d
    else (PyDict.keys d ++ [k])%list.
Proof.
  induction d as [|[k0 v0] d IH]; simpl; [reflexivity|].
  destruct (String.eqb_spec k0 k) as [->|N]; simpl.
  - destruct (string_dec k k); [reflexivity | contradiction].
  - rewrite IH. destruct (string_dec k0 k); [contradiction|].
    now destruct (in_dec string_dec k (PyDict.keys d)).
Qed.

Lemma strip_fold_distinct (l : list (string * Weight)) :
  forall acc : PyDict.t Weight,
    NoDup (PyDict.keys acc ++ map fst (kept_entries l)) ->
    fold_left strip_step l acc = (acc ++ kept_entries l)%list.
Proof.
  induction l as [|[k v] l IH]; intros acc ND.
  - simpl. now rewrite app_nil_r.
  - cbn [fold_left]. unfold strip_step at 2. unfold kept_entries in *.
    cbn [filter] in *.
    destruct (PyStr.startswith k "net"); [|now apply IH].
    cbn [map fst] in ND. change ("net" ++ ".") with "net.".
    assert (Fresh : ~ In (PyStr.replace k "net." "") (PyDict.keys acc)).
    { intros I. apply NoDup_remove_2 in ND. apply ND.
      apply in_or_app. now left. }
    rewrite (@set_fresh _ acc _ v Fresh), IH.
    + now rewrite <- app_assoc.
    + unfold PyDict.keys in *. rewrite map_app, <- app_assoc. exact ND.
Qed.

Lemma kept_entries_app (a b : list (string * Weight)) :
  kept_entries (a ++ b)%list = (kept_entries a ++ kept_entries b)%list.
Proof. unfold kept_entries. now rewrite filter_app, map_app. Qed.

Lemma kept_entries_none (l : list (string * Weight)) :
  Forall (fun kv => PyStr.startswith (fst kv) "net" = false) l ->
  kept_entries l = [].
Proof.
  unfold kept_entries. induction 1 as [|[k v] l Hk _ IH]; [reflexivity|].
  simpl in *. now rewrite Hk.
Qed.

Lemma prefix_self_app (p s : string) : String.prefix p (p ++ s) = true.
Proof.
  induction p as [|c p IH]; simpl; [now destruct s|].
  destruct (ascii_dec c c); [exact IH | contradiction].
Qed.

Lemma kept_entries_cons (k : string) (v : Weight)
    (l : list (string * Weight)) :
  kept_entries ((k, v) :: l)
  = if PyStr.startswith k "net"
    then (PyStr.replace k "net." "", v) :: kept_entries l
    else kept_entries l.
Proof.
  unfold kept_entries. cbn [filter].
  now destruct (PyStr.startswith k "net").
Qed.

Lemma kept_entries_prefixed (sd : list (string * Weight)) :
  Forall (fun kv => PyStr.contains "net." (fst kv) = false) sd ->
  kept_entries (map with_net_prefix sd) = sd.
Proof.
  induction 1 as [|[k v] sd Hk _ IH]; [reflexivity|].
  cbn [map with_net_prefix]. rewrite kept_entries_cons, IH.
  unfold PyStr.startswith.
  rewrite (prefix_app "net" "net." k eq_refl).
  f_equal. f_equal.
  change ("net." ++ k) with ("" ++ "net." ++ k).
  unfold PyStr.replace. rewrite replace_from_net_dot_app by (simpl; lia).
  simpl in Hk. exact (replace_without_occurrence "net." k Hk).
Qed.

(** X4. When no two kept keys become equal, the new state dict is the list
    of kept entries, in the order of the checkpoint. *)
Theorem strip_prefix_distinct_keys (ckpt : PyDict.t Weight) :
  NoDup (map fst (kept_entries ckpt)) ->
  strip_prefix ckpt = kept_entries ckpt.
Proof.
  intros ND. unfold strip_prefix, PyDict.items.
  now rewrite strip_fold_distinct.
Qed.

(** X5. Round trip: a state dict with distinct keys, none of which
    contains "net.", saved under the prefix "net." among entries whose key
    does not start with "net", is read back exactly. *)
Theorem strip_prefix_round_trip
    (sd before after : list (string * Weight)) :
  NoDup (map fst sd) ->
  Forall (fun kv => PyStr.contains "net." (fst kv) = false) sd ->
  Forall (fun kv => PyStr.startswith (fst kv) "net" = false) before ->
  Forall (fun kv => PyStr.startswith (fst kv) "net" = false) after ->
  strip_prefix (before ++ map with_net_prefix sd ++ after)%list = sd.
Proof.
  intros ND Free B A.
  assert (K : kept_entries (before ++ map with_net_prefix sd ++ after)%list
              = sd).
  { rewrite !kept_entries_app, (kept_entries_none B), (kept_entries_none A),
      (kept_entries_prefixed Free).
    simpl. now rewrite app_nil_r. }
  unfold strip_prefix, PyDict.items.
  rewrite strip_fold_distinct; rewrite K; [reflexivity | exact ND].
Qed.

Lemma strip_fold_keys (l : list (string * Weight)) :
  forall acc : PyDict.t Weight,
    NoDup (PyDict.keys acc) ->
    NoDup (PyDict.keys (fold_left strip_step l acc))
    /\ (length (fold_left strip_step l acc)
        <= length acc + length (kept_entries l))%nat.
Proof.
  induction l as [|[k v] l IH]; intros acc ND; [simpl; split; [assumption|lia]|].
  cbn [fold_left]. unfold strip_step at 2 4. unfold kept_entries.
  cbn [filter]. destruct (PyStr.startswith k "net").
  - destruct (IH (PyDict.set acc (PyStr.replace k ("net" ++ ".") "") v))
      as [N L].
    + rewrite keys_set. destruct (in_dec _ _ _); [assumption|].
      apply NoDup_app; [assumption | repeat constructor; intros [] | ].
      intros a Ia [<-|[]]. contradiction.
    + split; [exact N|]. cbn [map length]. fold (kept_entries l).
      assert (length (PyDict.set acc (PyStr.replace k ("net" ++ ".") "") v)
              <= S (length acc))%nat.
      { rewrite <- (length_map fst (PyDict.set _ _ _)).
        fold (PyDict.keys (PyDict.set acc (PyStr.replace k ("net" ++ ".") "") v)).
        rewrite keys_set. destruct (in_dec _ _ _); unfold PyDict.keys;
          rewrite ?length_app, length_map; simpl; lia. }
      lia.
  - apply IH. exact ND.
Qed.

(** Whatever the checkpoint holds, the new state dict has no key twice,
    and never more entries than the checkpoint has keys that start with
    "net". *)
Lemma strip_prefix_keys_distinct (ckpt : PyDict.t Weight) :
  NoDup (PyDict.keys (strip_prefix ckpt))
  /\ (length (strip_prefix ckpt) <= length (kept_entries ckpt))%nat
  /\ (length (kept_entries ckpt) <= length ckpt)%nat.
Proof.
  destruct (@strip_fold_keys ckpt [] (NoDup_nil _)) as [N L].
  repeat split; [exact N | exact L |].
  unfold kept_entries. rewrite length_map. apply filter_length_le.
Qed.

End CheckpointKeys.

(** ** The optimizer and the scheduler *)

Section Optimizers.
Context `{Framework}.

Ltac run_eff :=
  unfold bind, ret, raise, emit, get, modify, lift, library, when,
    construct in *;
  simpl in *.





End Optimizers.

(** ** The callbacks *)

Section Callbacks.
Context `{Framework}.

Lemma keeps_ret {S A X : Type} (I : S -> X) (a : A) : keeps I (ret a).
Proof. intros s. reflexivity. Qed.

Lemma keeps_raise {S A X : Type} (I : S -> X) (e : exn) :
  keeps I (@raise _ S A e).
Proof. intros s. reflexivity. Qed.

Lemma keeps_emit {S X : Type} (I : S -> X) (ev : Event) :
  keeps I (@emit _ S ev).
Proof. intros s. reflexivity. Qed.

Lemma keeps_get {S X : Type} (I : S -> X) : keeps I (@get _ S).
Proof. intros s. reflexivity. Qed.

Lemma keeps_lift {S A X : Type} (I : S -> X) (r : exn + A) :
  keeps I (@lift _ S A r).
Proof. intros s. reflexivity. Qed.

Lemma keeps_modify {S X : Type} (I : S -> X) (f : S -> S) :
  (forall s, I (f s) = I s) -> keeps I (modify f).
Proof. intros E s. apply E. Qed.

Lemma keeps_bind {S A B X : Type} (I : S -> X) (m : Eff S A)
    (f : A -> Eff S B) :
  keeps I m -> (forall a, keeps I (f a)) -> keeps I (bind m f).
Proof.
  intros Hm Hf s. unfold bind, state_of. specialize (Hm s).
  unfold state_of in Hm.
  destruct (m s) as [[s1 l1] [e|a]]; simpl in *; [assumption|].
  specialize (Hf a s1). unfold state_of in Hf.
  destruct (f a s1) as [[s2 l2] r2]; simpl in *. congruence.
Qed.

Lemma keeps_when {S X : Type} (I : S -> X) (c : bool) (m : Eff S unit) :
  keeps I m -> keeps I (when c m).
Proof. destruct c; [trivial | intros _; apply keeps_ret]. Qed.

Lemma keeps_for_each {S A X : Type} (I : S -> X) (xs : list A)
    (body : A -> Eff S unit) :
  (forall x, keeps I (body x)) -> keeps I (for_each xs body).
Proof.
  intros Hb. induction xs as [|x xs IH]; simpl.
  - apply keeps_ret.
  - apply keeps_bind; [apply Hb | intros _; exact IH].
Qed.

Ltac keeps_tac :=
  repeat first
    [ apply keeps_bind; [|intros ?]
    | apply keeps_ret
    | apply keeps_raise
    | apply keeps_emit
    | apply keeps_get
    | apply keeps_lift
    | apply keeps_when
    | apply keeps_for_each; intros ?
    | apply keeps_modify; intros ?; reflexivity
    | match goal with
      | |- keeps _ (match ?x with _ => _ end) => destruct x
      end ].

Lemma state_of_bind_modify {S A : Type} (f : S -> S) (k : unit -> Eff S A)
    (s : S) :
  state_of (bind (modify f) k s) = state_of (k tt (f s)).
Proof.
  unfold bind, modify, state_of. now destruct (k tt (f s)) as [[s2 l2] r2].
Qed.

Ltac unfold_callbacks :=
  unfold training_step, validation_step, test_step, on_test_epoch_end,
    configure_optimizers, gact_backward, controller_iterate, metrics_call,
    getattr_metrics, forward, loss_fn, the_trainer, library, construct.

(** What [shared_step] does after it has counted the step leaves the
    counters alone. *)
Lemma shared_step_counters (w : Draw) (batch : Batch) (mode : string)
    (self : Model) :
  train_step (state_of (shared_step w batch mode self))
  = train_step self + (if (mode =? "train")%string then 1 else 0)
  /\ val_step (state_of (shared_step w batch mode self))
     = val_step self + (if (mode =? "val")%string then 1 else 0).
Proof.
  destruct batch as [x y]. unfold shared_step.
  rewrite !state_of_bind_modify.
  match goal with
  | |- _ (state_of (?c ?s)) = _ /\ _ =>
      assert (Kt : keeps train_step c) by (unfold_callbacks; keeps_tac);
      assert (Kv : keeps val_step c) by (unfold_callbacks; keeps_tac);
      rewrite (Kt s), (Kv s)
  end.
  split; reflexivity.
Qed.

(** C8. The constructor sets both counters to zero. A call of
    [shared_step], whether it returns or raises, adds exactly one to
    [train_step] when the mode is "train" and leaves it alone otherwise,
    adds exactly one to [val_step] when the mode is "val" and leaves it
    alone otherwise, so a "test" call changes neither. No other method
    touches them: [forward], the loss, [gact_backward],
    [on_test_epoch_end] and [configure_optimizers] leave both as they are,
    and the three step callbacks change the state only through
    [shared_step]. *)
Theorem step_counters :
  (forall hp m, snd (new hp) = inr m -> train_step m = 0 /\ val_step m = 0)
  /\ (forall w batch mode self,
         let self' := state_of (shared_step w batch mode self) in
         (mode = "train" -> train_step self' = train_step self + 1)
         /\ (mode <> "train" -> train_step self' = train_step self)
         /\ (mode = "val" -> val_step self' = val_step self + 1)
         /\ (mode <> "val" -> val_step self' = val_step self))
  /\ (forall w batch self,
         counters (state_of (shared_step w batch "test" self))
         = counters self)
  /\ ((forall x, keeps counters (forward x))
      /\ (forall pred target, keeps counters (loss_fn pred target))
      /\ keeps counters gact_backward
      /\ keeps counters on_test_epoch_end
      /\ keeps counters configure_optimizers)
  /\ (forall w batch self,
         (forall t, trainer self = Some t ->
                    state_of (training_step w batch self)
                    = state_of (shared_step w batch "train" self))
         /\ (trainer self = None ->
             state_of (training_step w batch self) = self)
         /\ validation_step w batch self = shared_step w batch "val" self
         /\ test_step w batch self = shared_step w batch "test" self).
Proof.
  split; [|split; [|split; [|split]]].
  - intros hp m R.
    destruct (new_returns_inv hp R) as (_ & _ & _ & _ & _ & _ & _ & _ & T & V & _).
    now split.
  - intros w batch mode self self'. subst self'.
    destruct (shared_step_counters w batch mode self) as [T V].
    rewrite T, V.
    destruct (String.eqb_spec mode "train"), (String.eqb_spec mode "val");
      repeat split; intros; try congruence; lia.
  - intros w batch self. unfold counters.
    destruct (shared_step_counters w batch "test" self) as [T V].
    rewrite T, V. simpl. f_equal; lia.
  - repeat split; intros; unfold_callbacks; keeps_tac.
  - intros w batch self. repeat split.
    + intros t T. unfold training_step, the_trainer, bind, get, ret, emit,
        state_of. simpl. rewrite T. simpl.
      now destruct (shared_step w batch "train" self) as [[s l] r].
    + intros T. unfold training_step, the_trainer, bind, get, ret, raise,
        state_of. simpl. now rewrite T.
Qed.

(** *** Traces *)

Lemma emits_ret {S A : Type} (P : Event -> Prop) (a : A) :
  emits P (@ret _ S A a).
Proof. intros s. constructor. Qed.

Lemma emits_raise {S A : Type} (P : Event -> Prop) (e : exn) :
  emits P (@raise _ S A e).
Proof. intros s. constructor. Qed.

Lemma emits_emit {S : Type} (P : Event -> Prop) (ev : Event) :
  P ev -> emits P (@emit _ S ev).
Proof. intros Pe s. repeat constructor. exact Pe. Qed.

Lemma emits_get {S : Type} (P : Event -> Prop) : emits P (@get _ S).
Proof. intros s. constructor. Qed.

Lemma emits_lift {S A : Type} (P : Event -> Prop) (r : exn + A) :
  emits P (@lift _ S A r).
Proof. intros s. constructor. Qed.

Lemma emits_modify {S : Type} (P : Event -> Prop) (f : S -> S) :
  emits P (modify f).
Proof. intros s. constructor. Qed.

Lemma emits_bind {S A B : Type} (P : Event -> Prop) (m : Eff S A)
    (f : A -> Eff S B) :
  emits P m -> (forall a, emits P (f a)) -> emits P (bind m f).
Proof.
  intros Hm Hf s. unfold bind, trace_of. specialize (Hm s).
  unfold trace_of in Hm.
  destruct (m s) as [[s1 l1] [e|a]]; simpl in *; [assumption|].
  specialize (Hf a s1). unfold trace_of in Hf.
  destruct (f a s1) as [[s2 l2] r2]; simpl in *.
  apply Forall_app. now split.
Qed.

Lemma emits_for_each {S A : Type} (P : Event -> Prop) (xs : list A)
    (body : A -> Eff S unit) :
  (forall x, emits P (body x)) -> emits P (for_each xs body).
Proof.
  intros Hb. induction xs as [|x xs IH]; simpl.
  - apply emits_ret.
  - apply emits_bind; [apply Hb | intros _; exact IH].
Qed.

Ltac emits_tac :=
  repeat first
    [ apply emits_bind; [|intros ?]
    | apply emits_ret
    | apply emits_raise
    | apply emits_emit; reflexivity
    | apply emits_get
    | apply emits_lift
    | apply emits_modify
    | apply emits_for_each; intros ?
    | match goal with
      | |- emits _ (match ?x with _ => _ end) => destruct x
      end ].

Lemma existsb_false_of_Forall {A : Type} (f : A -> bool) (l : list A) :
  Forall (fun a => f a = false) l -> existsb f l = false.
Proof.
  induction 1 as [|a l Fa _ IH]; simpl; [reflexivity | now rewrite Fa, IH].
Qed.

(** Running a sequence one step at a time. *)
Lemma bind_assoc {S A B D : Type} (m : Eff S A) (f : A -> Eff S B)
    (g : B -> Eff S D) (s : S) :
  bind (bind m f) g s = bind m (fun a => bind (f a) g) s.
Proof.
  unfold bind. destruct (m s) as [[s1 l1] [e|a]]; [reflexivity|].
  destruct (f a s1) as [[s2 l2] [e|b]]; [reflexivity|].
  destruct (g b s2) as [[s3 l3] r3]. now rewrite app_assoc.
Qed.

Lemma bind_ret {S A B : Type} (a : A) (k : A -> Eff S B) (s : S) :
  bind (ret a) k s = k a s.
Proof. unfold bind, ret. now destruct (k a s) as [[s2 l2] r2]. Qed.

Lemma bind_get {S B : Type} (k : S -> Eff S B) (s : S) :
  bind get k s = k s s.
Proof. unfold bind, get. now destruct (k s s) as [[s2 l2] r2]. Qed.

Lemma bind_modify {S B : Type} (f : S -> S) (k : unit -> Eff S B) (s : S) :
  bind (modify f) k s = k tt (f s).
Proof. unfold bind, modify. now destruct (k tt (f s)) as [[s2 l2] r2]. Qed.

Lemma bind_raise {S A B : Type} (e : exn) (k : A -> Eff S B) (s : S) :
  bind (raise e) k s = (s, [], inl e).
Proof. reflexivity. Qed.

Lemma trace_of_bind_emit {S B : Type} (ev : Event) (k : unit -> Eff S B)
    (s : S) :
  trace_of (bind (emit ev) k s) = ev :: trace_of (k tt s).
Proof.
  unfold bind, emit, trace_of. now destruct (k tt s) as [[s2 l2] r2].
Qed.

Lemma state_of_bind_emit {S B : Type} (ev : Event) (k : unit -> Eff S B)
    (s : S) :
  state_of (bind (emit ev) k s) = state_of (k tt s).
Proof.
  unfold bind, emit, state_of. now destruct (k tt s) as [[s2 l2] r2].
Qed.

Lemma outcome_of_bind_emit {S B : Type} (ev : Event) (k : unit -> Eff S B)
    (s : S) :
  outcome_of (bind (emit ev) k s) = outcome_of (k tt s).
Proof.
  unfold bind, emit, outcome_of. now destruct (k tt s) as [[s2 l2] r2].
Qed.


Lemma bind_lift_inr {S A B : Type} (a : A) (k : A -> Eff S B) (s : S) :
  bind (lift (inr a)) k s = k a s.
Proof. exact (bind_ret a k s). Qed.

(** *** One-hot targets *)

Lemma fold_min_lower (cs : list Z) (c lo : Z) :
  lo <= c -> Forall (fun d => lo <= d) cs -> lo <= fold_left Z.min cs c.
Proof.
  intros Hc Hcs. revert c Hc.
  induction Hcs as [|d cs Hd _ IH]; intros c Hc; simpl; [assumption|].
  apply IH. lia.
Qed.

Lemma fold_max_upper (cs : list Z) (c hi : Z) :
  c < hi -> Forall (fun d => d < hi) cs -> fold_left Z.max cs c < hi.
Proof.
  intros Hc Hcs. revert c Hc.
  induction Hcs as [|d cs Hd _ IH]; intros c Hc; simpl; [assumption|].
  apply IH. lia.
Qed.

Lemma one_hot_in_range (y : Labels) (n : Z) :
  0 < n -> Forall (fun c => 0 <= c < n) y ->
  Torch.one_hot y n = inr (map (Torch.one_hot_row n) y).
Proof.
  intros Hn Hy. destruct y as [|c cs]; simpl.
  - destruct (Z.leb_spec n 0); [lia | reflexivity].
  - inversion Hy as [|? ? Hc Hcs]; subst.
    assert (Lo : 0 <= fold_left Z.min cs c).
    { apply fold_min_lower; [lia|].
      eapply Forall_impl; [|exact Hcs]. simpl. intros; lia. }
    assert (Hi : fold_left Z.max cs c < n).
    { apply fold_max_upper; [lia|].
      eapply Forall_impl; [|exact Hcs]. simpl. intros; lia. }
    destruct (Z.ltb_spec (fold_left Z.min cs c) 0); [lia|].
    destruct (Z.eqb_spec n (-1)); [lia|].
    destruct (Z.ltb_spec (fold_left Z.max cs c) n); [reflexivity | lia].
Qed.

Lemma one_hot_row_spec (n c : Z) (j : nat) :
  (j < Z.to_nat n)%nat ->
  length (Torch.one_hot_row n c) = Z.to_nat n
  /\ nth_error (Torch.one_hot_row n c) j
     = Some (if Z.of_nat j =? c then 1 else 0).
Proof.
  intros Hj. unfold Torch.one_hot_row. split.
  - now rewrite length_map, length_seq.
  - rewrite nth_error_map, nth_error_seq.
    destruct (Nat.ltb_spec j (Z.to_nat n)); [reflexivity | lia].
Qed.

Ltac step :=
  repeat first
    [ rewrite bind_assoc
    | rewrite bind_ret
    | rewrite bind_get
    | rewrite bind_modify
    | rewrite bind_raise
    | rewrite bind_lift_inr
    | rewrite trace_of_bind_emit
    | rewrite state_of_bind_emit
    | rewrite outcome_of_bind_emit ].

Ltac fields :=
  cbn [hparams net train_metrics val_metrics test_metrics mixup
       test_metric_outputs train_step val_step controller partial_x
       partial_y trainer set_train_step set_val_step set_partial
       set_test_metric_outputs attach] in *.

(** Outside "train" mode no step calls Mixup. *)
Lemma shared_step_without_mixup (w : Draw) (batch : Batch) (mode : string) :
  mode <> "train" ->
  emits (fun e => is_mixup e = false) (shared_step w batch mode).
Proof.
  intros N. apply String.eqb_neq in N. destruct batch as [x y].
  unfold shared_step. rewrite N. unfold_callbacks. unfold when.
  emits_tac.
Qed.

(** C3. [shared_step] calls Mixup, on the inputs and the targets of the
    batch, exactly when the mode is "train", and then feeds the network
    and the loss with what Mixup returns. In "val" and "test" mode, with
    labels below [n_classes], the first calls are the one-hot conversion of
    the labels, the network on the unchanged inputs and the loss on the
    one-hot rows as floats; a one-hot row has [n_classes] entries, 1 at the
    label and 0 elsewhere. *)
Theorem mixup_only_in_training (w : Draw) (x : list Image) (y : Labels)
    (mode : string) (self : Model) :
  let n := n_classes (hparams self) in
  let tr := trace_of (shared_step w (x, y) mode self) in
  (existsb is_mixup tr = true <-> mode = "train")
  /\ (mode = "train" ->
      (open_gact (hparams self) = true -> controller self <> None) ->
      exists called rest,
        tr = (MixupCall x y :: called
              ++ Forward (fst (mixup_call (mixup self) w x y))
              :: LossFn
                   (net_forward (net self)
                      (fst (mixup_call (mixup self) w x y)))
                   (snd (mixup_call (mixup self) w x y))
              :: rest)%list
        /\ Forall (fun e => is_iterate e = true) called)
  /\ (mode = "val" \/ mode = "test" ->
      0 < n -> Forall (fun c => 0 <= c < n) y ->
      exists rest,
        tr = OneHot y n
             :: Forward x
             :: LossFn (net_forward (net self) x)
                  (map (map float_of_int) (map (Torch.one_hot_row n) y))
             :: rest)
  /\ (forall c j,
         (j < Z.to_nat n)%nat ->
         length (Torch.one_hot_row n c) = Z.to_nat n
         /\ nth_error (Torch.one_hot_row n c) j
            = Some (if Z.of_nat j =? c then 1 else 0)).
Proof.
  intros n tr. subst tr.
  assert (Train :
            mode = "train" ->
            (open_gact (hparams self) = true -> controller self <> None) ->
            exists called rest,
              trace_of (shared_step w (x, y) mode self)
              = (MixupCall x y :: called
                 ++ Forward (fst (mixup_call (mixup self) w x y))
                 :: LossFn
                      (net_forward (net self)
                         (fst (mixup_call (mixup self) w x y)))
                      (snd (mixup_call (mixup self) w x y))
                 :: rest)%list
              /\ Forall (fun e => is_iterate e = true) called).
  { intros -> Ctl. unfold shared_step. step.
    change ("train" =? "train")%string with true. cbv beta iota. step.
    fields. destruct (mixup_call (mixup self) w x y) as [x' y'] eqn:Mx.
    step.
    match goal with
    | |- context [when ?c _] => destruct c eqn:Cond
    end; unfold when.
    - apply andb_prop in Cond. destruct Cond as [Cond _].
      apply andb_prop in Cond. destruct Cond as [Og _].
      specialize (Ctl Og). unfold controller_iterate. step. fields.
      destruct (controller self) as [c|]; [|contradiction].
      unfold forward, loss_fn. step.
      eexists (cons _ nil). eexists. split; [reflexivity|].
      now repeat constructor.
    - unfold forward, loss_fn. step.
      exists nil. eexists. split; [reflexivity | constructor]. }
  split; [|split; [exact Train|split]].
  - split.
    + intros E. destruct (String.eqb_spec mode "train") as [|N];
        [assumption|]. exfalso.
      pose proof (shared_step_without_mixup w (x, y) N self) as F.
      apply existsb_false_of_Forall in F. congruence.
    + intros ->. unfold shared_step. step.
      change ("train" =? "train")%string with true. cbv beta iota. step.
      reflexivity.
  - intros M Hn Hy. fold n. unfold shared_step. step.
    assert (NT : (mode =? "train")%string = false)
      by (destruct M as [-> | ->]; reflexivity).
    rewrite NT. cbv beta iota. step. fields. fold n.
    rewrite (one_hot_in_range Hn Hy). step.
    rewrite Bool.andb_false_r. unfold when. cbn [andb]. cbv beta iota.
    step. unfold forward, loss_fn. step.
    eexists. reflexivity.
  - intros c j Hj. apply one_hot_row_spec. exact Hj.
Qed.

(** *** Activation compression *)

Lemma bind_lift_inl {S A B : Type} (e : exn) (k : A -> Eff S B) (s : S) :
  bind (lift (inl e)) k s = (s, [], inl e).
Proof. reflexivity. Qed.

Lemma no_iterate_of_emits {A : Type} (c : Eff Model A) (s : Model) :
  emits (fun e => is_iterate e = false) c ->
  invokes_iterate (trace_of (c s)) = false.
Proof. intros E. apply existsb_false_of_Forall. apply E. Qed.

(** In one step: the controller iterates exactly when activation
    compression is on, the mode is "train" and the counter was not zero
    before the step, that is, is not one after it. *)
Lemma shared_step_iterate (w : Draw) (batch : Batch) (mode : string)
    (self : Model) :
  controller self <> None ->
  invokes_iterate (trace_of (shared_step w batch mode self)) = true
  <-> open_gact (hparams self) = true /\ mode = "train"
      /\ train_step self <> 0.
Proof.
  intros Ctl. destruct batch as [x y]. unfold shared_step. step.
  assert (Tail :
            forall (c : bool) (K : unit -> Eff Model Float) (s : Model),
              controller s <> None ->
              (forall u, emits (fun e => is_iterate e = false) (K u)) ->
              existsb is_iterate
                (trace_of (bind (when c controller_iterate) K s))
              = c).
  { intros c K s Cs EK. destruct c; unfold when.
    - unfold controller_iterate. step.
      destruct (controller s); [|contradiction]. step. reflexivity.
    - step. exact (no_iterate_of_emits s (EK tt)). }
  unfold invokes_iterate.
  destruct (String.eqb_spec mode "train") as [->|N]; cbv beta iota.
  - step. fields. destruct (mixup_call _ w x y) as [x' y']. step.
    cbn [existsb is_iterate orb].
    rewrite Tail;
      [|assumption|intros; unfold_callbacks; unfold when; emits_tac].
    change ("train" =? "train")%string with true.
    rewrite Bool.andb_true_r, Bool.andb_true_iff, Bool.negb_true_iff,
      Z.eqb_neq.
    intuition lia.
  - step. fields.
    split; [|intros (_ & E & _); contradiction].
    intros I. exfalso. revert I.
    destruct (Torch.one_hot y _) as [e|h].
    + rewrite bind_lift_inl. discriminate.
    + step. cbn [existsb is_iterate orb].
      rewrite Tail;
        [|assumption|intros; unfold_callbacks; unfold when; emits_tac].
      rewrite Bool.andb_false_r. discriminate.
Qed.

Lemma bind_ret_tail {S A : Type} (m : Eff S A) (s : S) :
  state_of (bind m (fun _ => ret tt) s) = state_of (m s)
  /\ trace_of (bind m (fun _ => ret tt) s) = trace_of (m s).
Proof.
  unfold bind, ret, state_of, trace_of.
  destruct (m s) as [[s1 l1] [e|a]]; simpl; [auto|].
  now rewrite app_nil_r.
Qed.

Lemma training_step_attached (w : Draw) (batch : Batch) (self : Model)
    (t : Trainer) :
  trainer self = Some t ->
  state_of (training_step w batch self)
  = state_of (shared_step w batch "train" self)
  /\ trace_of (training_step w batch self)
     = Log "lr" (optimizer_lr t) None true
       :: trace_of (shared_step w batch "train" self).
Proof.
  intros T. unfold training_step, the_trainer. step. rewrite T. step.
  auto.
Qed.

Lemma dispatch_iterate (t : Trainer) (c : Call) (self : Model) :
  controller self <> None ->
  invokes_iterate (trace_of (dispatch c (attach t self))) = true
  <-> open_gact (hparams self) = true /\ is_training_step c = true
      /\ train_step self <> 0.
Proof.
  intros Ctl. destruct c as [w b|w b|w b| |]; unfold dispatch;
    try rewrite (proj2 (bind_ret_tail _ _)); cbn [is_training_step].
  - rewrite (proj2 (training_step_attached w b (attach t self) eq_refl)).
    unfold invokes_iterate. cbn [existsb is_iterate orb].
    fold (invokes_iterate (trace_of (shared_step w b "train" (attach t self)))).
    rewrite shared_step_iterate by exact Ctl. fields. tauto.
  - unfold validation_step. rewrite shared_step_iterate by exact Ctl.
    split; [intros (_ & E & _) | intros (_ & E & _)]; discriminate.
  - unfold test_step. rewrite shared_step_iterate by exact Ctl.
    split; [intros (_ & E & _) | intros (_ & E & _)]; discriminate.
  - rewrite no_iterate_of_emits
      by (unfold_callbacks; unfold lift; emits_tac).
    split; [discriminate | intros (_ & E & _); discriminate].
  - rewrite no_iterate_of_emits by (unfold_callbacks; emits_tac).
    split; [discriminate | intros (_ & E & _); discriminate].
Qed.

Lemma dispatch_keeps (c : Call) :
  keeps hparams (dispatch c) /\ keeps controller (dispatch c)
  /\ keeps net (dispatch c).
Proof.
  repeat split;
    (destruct c as [w [x y]|w [x y]|w [x y]| |]; unfold dispatch;
     unfold_callbacks; unfold shared_step; unfold_callbacks; keeps_tac).
Qed.

Lemma dispatch_train_step (t : Trainer) (c : Call) (self : Model) :
  train_step (state_of (dispatch c (attach t self)))
  = train_step self + (if is_training_step c then 1 else 0).
Proof.
  destruct c as [w b|w b|w b| |]; unfold dispatch;
    try rewrite (proj1 (bind_ret_tail _ _)); cbn [is_training_step].
  - rewrite (proj1 (training_step_attached w b (attach t self) eq_refl)).
    now rewrite (proj1 (shared_step_counters w b "train" (attach t self))).
  - unfold validation_step.
    rewrite (proj1 (shared_step_counters w b "val" (attach t self))).
    reflexivity.
  - unfold test_step.
    rewrite (proj1 (shared_step_counters w b "test" (attach t self))).
    reflexivity.
  - assert (K : keeps train_step on_test_epoch_end)
      by (unfold_callbacks; keeps_tac).
    rewrite (K (attach t self)). fields. lia.
  - assert (K : keeps train_step configure_optimizers)
      by (unfold_callbacks; keeps_tac).
    rewrite (K (attach t self)). fields. lia.
Qed.

(** Along a run of the driver: the controller iterates in a callback
    exactly when it is a training step and the counter was not zero before
    it. *)
Lemma drive_iterate (calls : list (Trainer * Call)) :
  forall self,
    open_gact (hparams self) = true -> controller self <> None ->
    0 <= train_step self ->
    forall i t c evs,
      nth_error calls i = Some (t, c) ->
      nth_error (traces_of (drive calls self)) i = Some evs ->
      (invokes_iterate evs = true
       <-> is_training_step c = true
           /\ (train_step self <> 0
               \/ existsb is_training_step (map snd (firstn i calls)) = true)).
Proof.
  induction calls as [|[t0 c0] calls IH]; intros self Og Ctl T0 i t c evs Hc He.
  - destruct i; discriminate.
  - cbn [drive] in He.
    pose proof (@dispatch_iterate t0 c0 self Ctl) as D0.
    pose proof (dispatch_train_step t0 c0 self) as T1.
    destruct (dispatch_keeps c0) as (Kh & Kc & _).
    specialize (Kh (attach t0 self)). specialize (Kc (attach t0 self)).
    unfold state_of, trace_of in *.
    destruct (dispatch c0 (attach t0 self)) as [[self' evs0] r].
    cbn [fst snd] in *. fields.
    destruct i as [|i].
    + cbn [nth_error] in Hc. injection Hc as -> ->.
      assert (evs = evs0).
      { destruct r as [e|u]; [now injection He|].
        destruct (drive calls self') as [[traces final] e].
        cbn in He. now injection He. }
      subst evs. rewrite D0. cbn [firstn map existsb].
      intuition congruence.
    + cbn [nth_error] in Hc. destruct r as [e|u].
      { unfold traces_of in He. cbn in He. destruct i; discriminate. }
      specialize (IH self').
      destruct (drive calls self') as [[traces final] e].
      unfold traces_of in *. cbn [fst snd nth_error] in *.
      rewrite (IH ltac:(congruence) ltac:(congruence)
                 ltac:(rewrite T1; destruct (is_training_step c0); lia)
                 i t c evs Hc He).
      cbn [firstn map existsb snd]. rewrite T1, Bool.orb_true_iff.
      destruct (is_training_step c0); intuition (try congruence; try lia).
Qed.

(** What the callback handed to the controller replays. *)
Lemma gact_backward_trace (self : Model) (t : Trainer) (px : list Image)
    (py : Targets) :
  trainer self = Some t -> partial_x self = Some px ->
  partial_y self = Some py ->
  trace_of (gact_backward self)
  = [ Optimizers;
      Forward px;
      LossFn (net_forward (net self) px) py;
      OptimizerZeroGrad (current_epoch t) 0;
      Backward (soft_target_cross_entropy (net_forward (net self) px) py) ].
Proof.
  intros T X Y. unfold gact_backward, the_trainer, forward, loss_fn.
  step. rewrite T. step. rewrite X. step. rewrite Y. step.
  rewrite T. step. reflexivity.
Qed.

Lemma gact_backward_reads (s s' : Model) :
  trainer s = trainer s' -> partial_x s = partial_x s' ->
  partial_y s = partial_y s' -> net s = net s' ->
  trace_of (gact_backward s) = trace_of (gact_backward s').
Proof.
  intros T X Y N. unfold gact_backward, the_trainer, forward, loss_fn.
  destruct (trainer s') as [t|] eqn:T';
    destruct (partial_x s') as [px|] eqn:X';
    destruct (partial_y s') as [py|] eqn:Y';
    repeat (step; rewrite ?T, ?X, ?Y, ?N, ?T', ?X', ?Y');
    reflexivity.
Qed.

(** The training step that iterates hands the controller the callback as
    it stands before the step. *)
Lemma shared_step_iterate_payload (w : Draw) (x : list Image) (y : Labels)
    (self : Model) :
  controller self <> None -> open_gact (hparams self) = true ->
  train_step self <> 0 ->
  exists rest,
    trace_of (shared_step w (x, y) "train" self)
    = MixupCall x y :: ControllerIterate (trace_of (gact_backward self))
      :: rest.
Proof.
  intros Ctl Og T. unfold shared_step. step.
  change ("train" =? "train")%string with true. cbv beta iota. step.
  fields. destruct (mixup_call _ w x y) as [x' y']. step.
  rewrite Og. cbn [andb].
  destruct (Z.eqb_spec (train_step self + 1) 1); [lia|]. cbn [negb].
  unfold when, controller_iterate. step. fields.
  destruct (controller self); [|contradiction]. step.
  eexists. f_equal. f_equal. f_equal. now apply gact_backward_reads.
Qed.

(** With activation compression on, a step that gets to the loss stores
    the first eight samples of what it fed to the network and to the
    loss. *)
Lemma shared_step_partial (w : Draw) (x : list Image) (y : Labels)
    (mode : string) (self : Model) :
  controller self <> None -> open_gact (hparams self) = true ->
  let self' := state_of (shared_step w (x, y) mode self) in
  (mode = "train" ->
   partial_x self' = Some (Torch.take 8 (fst (mixup_call (mixup self) w x y)))
   /\ partial_y self'
      = Some (Torch.take 8 (snd (mixup_call (mixup self) w x y))))
  /\ (mode <> "train" ->
      forall h,
        Torch.one_hot y (n_classes (hparams self)) = inr h ->
        partial_x self' = Some (Torch.take 8 x)
        /\ partial_y self'
           = Some (Torch.take 8 (map (map float_of_int) h))).
Proof.
  intros Ctl Og self'. subst self'.
  assert (Tail :
            forall (c : bool) (x' : list Image) (y' : Targets)
                   (K : Logits -> Float -> unit -> Eff Model Float)
                   (s : Model),
              controller s <> None ->
              (forall p l, keeps partial_x (K p l tt)) ->
              (forall p l, keeps partial_y (K p l tt)) ->
              let s' :=
                state_of
                  (bind (when c controller_iterate)
                     (fun _ =>
                        bind (forward x')
                          (fun pred =>
                             bind (loss_fn pred y')
                               (fun loss =>
                                  bind (when (open_gact (hparams self))
                                          (modify
                                             (set_partial (Torch.take 8 x')
                                                (Torch.take 8 y'))))
                                    (K pred loss)))) s) in
              partial_x s' = Some (Torch.take 8 x')
              /\ partial_y s' = Some (Torch.take 8 y')).
  { intros c x' y' K s Cs Kx Ky. cbv zeta.
    destruct c; unfold when.
    - unfold controller_iterate. step.
      destruct (controller s); [|contradiction]. step.
      unfold forward, loss_fn. step. rewrite Og. step.
      rewrite (Kx _ _ _), (Ky _ _ _). now split.
    - step. unfold forward, loss_fn. step. rewrite Og. step.
      rewrite (Kx _ _ _), (Ky _ _ _). now split. }
  unfold shared_step. step.
  destruct (String.eqb_spec mode "train") as [->|N]; cbv beta iota;
    (split; [intros M|intros M]); try congruence.
  - step. fields.
    destruct (mixup_call (mixup self) w x y) as [x' y']. step.
    apply (Tail _ x' y'
             (fun pred loss _ => bind _ (fun collection => _)));
      [assumption|intros; unfold_callbacks; keeps_tac..].
  - intros h Hh. step. fields. rewrite Hh. step.
    apply (Tail _ x (map (map float_of_int) h)
             (fun pred loss _ => bind _ (fun collection => _)));
      [assumption|intros; unfold_callbacks; keeps_tac..].
Qed.

Lemma shared_step_keeps (w : Draw) (batch : Batch) (mode : string) :
  keeps hparams (shared_step w batch mode)
  /\ keeps controller (shared_step w batch mode)
  /\ keeps net (shared_step w batch mode)
  /\ keeps trainer (shared_step w batch mode).
Proof.
  destruct batch as [x y].
  repeat split; unfold shared_step; unfold_callbacks; keeps_tac.
Qed.

(** Two training steps in a row: the second hands the controller a replay
    over the first eight samples the first one fed to the network. *)
Lemma iterate_replays_previous_batch (w1 w2 : Draw) (x1 x2 : list Image)
    (y1 y2 : Labels) (self : Model) (t : Trainer) :
  controller self <> None -> open_gact (hparams self) = true ->
  0 <= train_step self -> trainer self = Some t ->
  exists rest,
    trace_of
      (shared_step w2 (x2, y2) "train"
         (state_of (shared_step w1 (x1, y1) "train" self)))
    = MixupCall x2 y2
      :: ControllerIterate
           [ Optimizers;
             Forward (Torch.take 8 (fst (mixup_call (mixup self) w1 x1 y1)));
             LossFn
               (net_forward (net self)
                  (Torch.take 8 (fst (mixup_call (mixup self) w1 x1 y1))))
               (Torch.take 8 (snd (mixup_call (mixup self) w1 x1 y1)));
             OptimizerZeroGrad (current_epoch t) 0;
             Backward
               (soft_target_cross_entropy
                  (net_forward (net self)
                     (Torch.take 8 (fst (mixup_call (mixup self) w1 x1 y1))))
                  (Torch.take 8 (snd (mixup_call (mixup self) w1 x1 y1)))) ]
      :: rest.
Proof.
  intros Ctl Og T0 Tr.
  destruct (shared_step_keeps w1 (x1, y1) "train") as (Kh & Kc & Kn & Kt).
  specialize (Kh self). specialize (Kc self). specialize (Kn self).
  specialize (Kt self).
  destruct (@shared_step_partial w1 x1 y1 "train" self Ctl Og)
    as [[Px Py] _]; [reflexivity|].
  pose proof (proj1 (shared_step_counters w1 (x1, y1) "train" self)) as Ts.
  change (if ("train" =? "train")%string then 1 else 0) with 1 in Ts.
  set (s1 := state_of (shared_step w1 (x1, y1) "train" self)) in *.
  destruct (@shared_step_iterate_payload w2 x2 y2 s1) as [rest E].
  - now rewrite Kc.
  - now rewrite Kh.
  - lia.
  - exists rest. rewrite E.
    rewrite (@gact_backward_trace s1 t _ _ ltac:(now rewrite Kt) Px Py).
    now rewrite Kn.
Qed.

(** C5. With activation compression on, along any run of the driver on a
    freshly constructed module, the controller's [iterate] is called in a
    callback exactly when that callback is a training step and an earlier
    training step has run: never in the first training step, never in a
    validation or test step, in every later training step. In terms of one
    step: it is called exactly when the mode is "train" and [train_step] is
    not 1 after the count. The callback it is handed replays, on the stored
    slices, a forward pass, the loss, the clearing of the gradients and a
    backward pass, and the slices are the first eight samples of what the
    previous step fed to the network and to the loss; so the second of two
    training steps in a row replays the first eight samples of the first. *)
Theorem gact_iterate_schedule :
  (forall hp self0 calls,
      snd (new hp) = inr self0 -> open_gact hp = true ->
      forall i t c evs,
        nth_error calls i = Some (t, c) ->
        nth_error (traces_of (drive calls self0)) i = Some evs ->
        (invokes_iterate evs = true
         <-> is_training_step c = true
             /\ existsb is_training_step (map snd (firstn i calls)) = true))
  /\ (forall w batch mode self,
         controller self <> None ->
         (invokes_iterate (trace_of (shared_step w batch mode self)) = true
          <-> open_gact (hparams self) = true /\ mode = "train"
              /\ train_step (state_of (shared_step w batch mode self)) <> 1))
  /\ (forall w x y self,
         controller self <> None -> open_gact (hparams self) = true ->
         train_step self <> 0 ->
         exists rest,
           trace_of (shared_step w (x, y) "train" self)
           = MixupCall x y
             :: ControllerIterate (trace_of (gact_backward self)) :: rest)
  /\ (forall self t px py,
         trainer self = Some t -> partial_x self = Some px ->
         partial_y self = Some py ->
         trace_of (gact_backward self)
         = [ Optimizers;
             Forward px;
             LossFn (net_forward (net self) px) py;
             OptimizerZeroGrad (current_epoch t) 0;
             Backward
               (soft_target_cross_entropy (net_forward (net self) px) py) ])
  /\ (forall w x y mode self,
         controller self <> None -> open_gact (hparams self) = true ->
         let self' := state_of (shared_step w (x, y) mode self) in
         (mode = "train" ->
          partial_x self'
          = Some (Torch.take 8 (fst (mixup_call (mixup self) w x y)))
          /\ partial_y self'
             = Some (Torch.take 8 (snd (mixup_call (mixup self) w x y))))
         /\ (mode <> "train" ->
             forall h,
               Torch.one_hot y (n_classes (hparams self)) = inr h ->
               partial_x self' = Some (Torch.take 8 x)
               /\ partial_y self'
                  = Some (Torch.take 8 (map (map float_of_int) h))))
  /\ (forall w1 w2 x1 x2 y1 y2 self t,
         controller self <> None -> open_gact (hparams self) = true ->
         0 <= train_step self -> trainer self = Some t ->
         let fed := mixup_call (mixup self) w1 x1 y1 in
         exists rest,
           trace_of
             (shared_step w2 (x2, y2) "train"
                (state_of (shared_step w1 (x1, y1) "train" self)))
           = MixupCall x2 y2
             :: ControllerIterate
                  [ Optimizers;
                    Forward (Torch.take 8 (fst fed));
                    LossFn (net_forward (net self) (Torch.take 8 (fst fed)))
                      (Torch.take 8 (snd fed));
                    OptimizerZeroGrad (current_epoch t) 0;
                    Backward
                      (soft_target_cross_entropy
                         (net_forward (net self) (Torch.take 8 (fst fed)))
                         (Torch.take 8 (snd fed))) ]
             :: rest).
Proof.
  split; [|split; [|split; [|split; [|split]]]].
  - intros hp self0 calls R Og i t c evs Hc He.
    destruct (new_returns_inv hp R)
      as (_ & _ & _ & _ & _ & _ & _ & Hh & T & _ & _ & Ctl & _).
    rewrite Og in Ctl.
    rewrite (@drive_iterate calls self0
               ltac:(now rewrite Hh) ltac:(now rewrite Ctl) ltac:(lia)
               i t c evs Hc He).
    rewrite T. intuition congruence.
  - intros w batch mode self Ctl.
    rewrite (@shared_step_iterate w batch mode self Ctl).
    rewrite (proj1 (shared_step_counters w batch mode self)).
    destruct (String.eqb_spec mode "train"); intuition (try congruence; lia).
  - intros w x y self. apply shared_step_iterate_payload.
  - intros self t px py. apply gact_backward_trace.
  - intros w x y mode self. apply shared_step_partial.
  - intros w1 w2 x1 x2 y1 y2 self t Ctl Og T0 Tr fed. subst fed.
    now apply iterate_replays_previous_batch.
Qed.

(** *** The test statistics *)

(** A test step that returns has appended the [StatScores] tensor of its
    batch. *)
Lemma test_step_appends_stats (w : Draw) (x : list Image) (y : Labels)
    (self : Model) (loss : Float) :
  test_metrics self = test_metrics_of (hparams self) ->
  outcome_of (shared_step w (x, y) "test" self) = inr loss ->
  exists h,
    Torch.one_hot y (n_classes (hparams self)) = inr h
    /\ test_metric_outputs (state_of (shared_step w (x, y) "test" self))
       = (test_metric_outputs self
          ++ [Stats (stat_scores_value (n_classes (hparams self))
                       (net_forward (net self) x)
                       (argmax1 (map (map float_of_int) h)))])%list.
Proof.
  intros TM R.
  destruct (Torch.one_hot y (n_classes (hparams self))) as [e|h] eqn:OH.
  - exfalso. revert R. unfold shared_step. step.
    change ("test" =? "train")%string with false. cbv beta iota. step.
    fields. rewrite OH, bind_lift_inl. discriminate.
  - exists h. split; [reflexivity|]. clear R.
    unfold shared_step. step.
    change ("test" =? "train")%string with false. cbv beta iota. step.
    fields. rewrite OH. step.
    rewrite Bool.andb_false_r. unfold when at 1. cbn [andb].
    cbv beta iota. step. unfold forward, loss_fn. step.
    destruct (open_gact (hparams self)); unfold when at 1; step;
      unfold getattr_metrics, metrics_call; step;
      cbn [String.append String.eqb Ascii.eqb Bool.eqb]; cbv beta iota;
      step; fields; rewrite TM; simpl; reflexivity.
Qed.

Lemma other_steps_keep_stats (w : Draw) (batch : Batch) (mode : string) :
  mode <> "test" -> keeps test_metric_outputs (shared_step w batch mode).
Proof.
  intros N. apply String.eqb_neq in N. destruct batch as [x y].
  unfold shared_step. rewrite N. unfold when. cbv beta iota.
  unfold_callbacks. keeps_tac.
Qed.


(** *** What a step logs *)

Lemma append_inv_tail (a b s : string) : a ++ s = b ++ s -> a = b.
Proof.
  intros E.
  assert (L : String.length a = String.length b).
  { apply (f_equal String.length) in E. rewrite !length_append in E. lia. }
  revert b E L.
  induction a as [|c a IH]; intros [|d b] E L; simpl in *;
    try discriminate; [reflexivity|].
  injection E as -> E. f_equal. apply IH; [assumption | lia].
Qed.

Lemma evaluation_step_run (w : Draw) (x : list Image) (y : Labels)
    (mode : string) (self : Model) :
  mode = "val" \/ mode = "test" ->
  val_metrics self = accuracy_metrics (hparams self) ->
  test_metrics self = test_metrics_of (hparams self) ->
  0 < n_classes (hparams self) ->
  Forall (fun c => 0 <= c < n_classes (hparams self)) y ->
  let n := n_classes (hparams self) in
  let target := map (map float_of_int) (map (Torch.one_hot_row n) y) in
  let pred := net_forward (net self) x in
  let loss := soft_target_cross_entropy pred target in
  let step :=
    if (mode =? "val")%string then val_step self + 1 else val_step self in
  outcome_of (shared_step w (x, y) mode self) = inr loss
  /\ trace_of (shared_step w (x, y) mode self)
     = ([ OneHot y n;
          Forward x;
          LossFn pred target;
          MetricsCall
            (if (mode =? "val")%string then accuracy_metrics (hparams self)
             else test_metrics_of (hparams self))
            pred (argmax1 target) ]
        ++ logged mode "loss" loss step
        ++ logged mode "acc" (accuracy_value n 1 pred (argmax1 target)) step
        ++ logged mode "acc_top5"
             (accuracy_value n (Z.min 5 n) pred (argmax1 target)) step)%list.
Proof.
  intros M VM TM Hn Hy n target pred loss step.
  subst n target pred loss step.
  destruct M as [-> | ->]; unfold shared_step;
    (split; step;
     match goal with
     | |- context [(?m =? "train")%string] =>
         change (m =? "train")%string with false
     end; cbv beta iota; step; fields;
     rewrite (one_hot_in_range Hn Hy); step;
     rewrite Bool.andb_false_r; unfold when at 1; cbn [andb];
     cbv beta iota; step; unfold forward, loss_fn; step;
     destruct (open_gact (hparams self)); unfold when at 1; step;
     unfold getattr_metrics, metrics_call; step;
     cbn [String.append String.eqb Ascii.eqb Bool.eqb]; cbv beta iota;
     step; fields; rewrite ?VM, ?TM; rewrite ?Z.add_0_r; reflexivity).
Qed.

(** *** Labels the one-hot conversion refuses *)

Lemma fold_min_le (cs : list Z) :
  forall c,
    fold_left Z.min cs c <= c
    /\ Forall (fun d => fold_left Z.min cs c <= d) cs.
Proof.
  induction cs as [|d cs IH]; intros c; cbn [fold_left].
  - split; [lia | constructor].
  - destruct (IH (Z.min c d)) as [A B]. split; [lia|].
    constructor; [lia | exact B].
Qed.

Lemma fold_max_ge (cs : list Z) :
  forall c,
    c <= fold_left Z.max cs c
    /\ Forall (fun d => d <= fold_left Z.max cs c) cs.
Proof.
  induction cs as [|d cs IH]; intros c; cbn [fold_left].
  - split; [lia | constructor].
  - destruct (IH (Z.max c d)) as [A B]. split; [lia|].
    constructor; [lia | exact B].
Qed.

Lemma one_hot_out_of_range (y : Labels) (n c : Z) :
  0 < n -> In c y -> c < 0 \/ n <= c ->
  exists msg, Torch.one_hot y n = inl (RuntimeError msg).
Proof.
  intros Hn Hin Bad. destruct y as [|c0 cs]; [contradiction|].
  cbn [Torch.one_hot].
  destruct (fold_min_le cs c0) as [M0 Ms].
  destruct (fold_max_ge cs c0) as [X0 Xs].
  rewrite Forall_forall in Ms, Xs.
  assert (Lo : fold_left Z.min cs c0 <= c)
    by (destruct Hin as [<-|Hin]; [exact M0 | now apply Ms]).
  assert (Hi : c <= fold_left Z.max cs c0)
    by (destruct Hin as [<-|Hin]; [exact X0 | now apply Xs]).
  destruct (Z.ltb_spec (fold_left Z.min cs c0) 0); [eauto|].
  destruct (Z.eqb_spec n (-1)); [lia|].
  destruct (Z.ltb_spec (fold_left Z.max cs c0) n); [lia | eauto].
Qed.

(** A step in an evaluation mode whose labels the one-hot conversion
    refuses stops there. *)
Lemma shared_step_one_hot_fails (w : Draw) (x : list Image) (y : Labels)
    (mode : string) (self : Model) (e : exn) :
  mode <> "train" ->
  Torch.one_hot y (n_classes (hparams self)) = inl e ->
  outcome_of (shared_step w (x, y) mode self) = inl e
  /\ trace_of (shared_step w (x, y) mode self)
     = [OneHot y (n_classes (hparams self))]
  /\ partial_x (state_of (shared_step w (x, y) mode self)) = partial_x self
  /\ partial_y (state_of (shared_step w (x, y) mode self)) = partial_y self
  /\ test_metric_outputs (state_of (shared_step w (x, y) mode self))
     = test_metric_outputs self.
Proof.
  intros NT OH. apply String.eqb_neq in NT.
  unfold shared_step.
  repeat split; step; rewrite NT; cbv beta iota; step; fields;
    rewrite OH, bind_lift_inl; reflexivity.
Qed.

(** A step in an evaluation mode that returns had every label in range. *)
Lemma returned_labels_in_range (w : Draw) (x : list Image) (y : Labels)
    (mode : string) (self : Model) :
  mode <> "train" -> 0 < n_classes (hparams self) ->
  (exists loss, outcome_of (shared_step w (x, y) mode self) = inr loss) ->
  Forall (fun c => 0 <= c < n_classes (hparams self)) y.
Proof.
  intros NT Hn [loss O]. apply Forall_forall. intros c Hin.
  destruct (Z.ltb_spec c 0) as [Neg|];
    [|destruct (Z.ltb_spec c (n_classes (hparams self))) as [|Big];
      [lia|]].
  - destruct (one_hot_out_of_range y Hn Hin (or_introl Neg)) as [msg OH].
    destruct (@shared_step_one_hot_fails w x y mode self _ NT OH)
      as (O' & _). congruence.
  - destruct (one_hot_out_of_range y Hn Hin (or_intror Big)) as [msg OH].
    destruct (@shared_step_one_hot_fails w x y mode self _ NT OH)
      as (O' & _). congruence.
Qed.

(** X6. A validation or test step that returns has made exactly these
    calls: the one-hot conversion, the network, the loss, the metric
    collection of the mode, and then one [self.log] and one [wandb.log]
    for each of the loss, the accuracy and the top-5 accuracy; and what it
    returns is that loss. The [StatScores] tensor of a test step is never
    logged, and the step axis of a test step, though named "test_step",
    carries the validation counter. *)
Theorem evaluation_step_logs (w : Draw) (x : list Image) (y : Labels)
    (mode : string) (self : Model) (returned : Float) :
  mode = "val" \/ mode = "test" ->
  val_metrics self = accuracy_metrics (hparams self) ->
  test_metrics self = test_metrics_of (hparams self) ->
  0 < n_classes (hparams self) ->
  outcome_of (shared_step w (x, y) mode self) = inr returned ->
  let n := n_classes (hparams self) in
  let target := map (map float_of_int) (map (Torch.one_hot_row n) y) in
  let pred := net_forward (net self) x in
  let loss := soft_target_cross_entropy pred target in
  let step :=
    if (mode =? "val")%string then val_step self + 1 else val_step self in
  returned = loss
  /\ trace_of (shared_step w (x, y) mode self)
     = ([ OneHot y n;
          Forward x;
          LossFn pred target;
          MetricsCall
            (if (mode =? "val")%string then accuracy_metrics (hparams self)
             else test_metrics_of (hparams self))
            pred (argmax1 target) ]
        ++ logged mode "loss" loss step
        ++ logged mode "acc" (accuracy_value n 1 pred (argmax1 target)) step
        ++ logged mode "acc_top5"
             (accuracy_value n (Z.min 5 n) pred (argmax1 target)) step)%list.
Proof.
  intros M VM TM Hn O.
  assert (NT : mode <> "train") by (destruct M as [-> | ->]; discriminate).
  pose proof (@returned_labels_in_range w x y mode self NT Hn
                (ex_intro _ returned O)) as Hy.
  destruct (@evaluation_step_run w x y mode self M VM TM Hn Hy) as [O' T].
  cbv zeta in *. split; [congruence | exact T].
Qed.

Lemma metrics_name_neq (mode known : string) :
  mode <> known ->
  (mode ++ "_metrics" =? known ++ "_metrics")%string = false.
Proof.
  intros N. apply String.eqb_neq. intros E. apply N.
  exact (append_inv_tail _ _ _ E).
Qed.

(** X7. [shared_step] looks the metric collection up by name only after the
    forward pass and the loss: a mode other than "train", "val" and "test"
    is treated as an evaluation mode up to there (one-hot targets, no
    Mixup) and then ends in the [AttributeError] for the attribute
    [<mode>_metrics]. Nothing is logged, and neither the counters nor the
    test statistics change. *)
Theorem unknown_step_mode_fails (w : Draw) (x : list Image) (y : Labels)
    (mode : string) (self : Model) :
  mode <> "train" -> mode <> "val" -> mode <> "test" ->
  0 < n_classes (hparams self) ->
  Forall (fun c => 0 <= c < n_classes (hparams self)) y ->
  let n := n_classes (hparams self) in
  let target := map (map float_of_int) (map (Torch.one_hot_row n) y) in
  outcome_of (shared_step w (x, y) mode self)
  = inl (AttributeError
           ("'ClassificationModel' object has no attribute '"
            ++ (mode ++ "_metrics") ++ "'"))
  /\ trace_of (shared_step w (x, y) mode self)
     = [ OneHot y n; Forward x; LossFn (net_forward (net self) x) target ]
  /\ counters (state_of (shared_step w (x, y) mode self)) = counters self
  /\ test_metric_outputs (state_of (shared_step w (x, y) mode self))
     = test_metric_outputs self.
Proof.
  intros N1 N2 N3 Hn Hy n target. subst n target.
  pose proof (metrics_name_neq N1) as E1.
  pose proof (metrics_name_neq N2) as E2.
  pose proof (metrics_name_neq N3) as E3.
  change ("train" ++ "_metrics") with "train_metrics" in E1.
  change ("val" ++ "_metrics") with "val_metrics" in E2.
  change ("test" ++ "_metrics") with "test_metrics" in E3.
  assert (NT : (mode =? "train")%string = false) by now apply String.eqb_neq.
  assert (NV : (mode =? "val")%string = false) by now apply String.eqb_neq.
  split; [|split; [|split]].
  - unfold shared_step. step. rewrite NT. cbv beta iota. step. fields.
    rewrite (one_hot_in_range Hn Hy). step.
    rewrite Bool.andb_false_r. unfold when at 1. cbn [andb].
    cbv beta iota. step. unfold forward, loss_fn. step.
    destruct (open_gact (hparams self)); unfold when at 1; step;
      unfold getattr_metrics; step; rewrite E1, E2, E3; reflexivity.
  - unfold shared_step. step. rewrite NT. cbv beta iota. step. fields.
    rewrite (one_hot_in_range Hn Hy). step.
    rewrite Bool.andb_false_r. unfold when at 1. cbn [andb].
    cbv beta iota. step. unfold forward, loss_fn. step.
    destruct (open_gact (hparams self)); unfold when at 1; step;
      unfold getattr_metrics; step; rewrite E1, E2, E3; reflexivity.
  - unfold counters.
    destruct (shared_step_counters w (x, y) mode self) as [T V].
    rewrite T, V, NT, NV. f_equal; lia.
  - now apply other_steps_keep_stats.
Qed.

Lemma training_step_run (w : Draw) (x : list Image) (y : Labels)
    (self : Model) (t : Trainer) :
  trainer self = Some t ->
  (open_gact (hparams self) = true -> controller self <> None) ->
  train_metrics self = accuracy_metrics (hparams self) ->
  let n := n_classes (hparams self) in
  let fed := mixup_call (mixup self) w x y in
  let pred := net_forward (net self) (fst fed) in
  let loss := soft_target_cross_entropy pred (snd fed) in
  let step := train_step self + 1 in
  let iterate :=
    if open_gact (hparams self) && negb (train_step self =? 0)
    then [ControllerIterate (trace_of (gact_backward self))]
    else [] in
  outcome_of (training_step w (x, y) self) = inr loss
  /\ trace_of (training_step w (x, y) self)
     = (Log "lr" (optimizer_lr t) None true
        :: MixupCall x y
        :: iterate
        ++ [ Forward (fst fed);
             LossFn pred (snd fed);
             MetricsCall (accuracy_metrics (hparams self)) pred
               (argmax1 (snd fed)) ]
        ++ logged "train" "loss" loss step
        ++ logged "train" "acc" (accuracy_value n 1 pred (argmax1 (snd fed)))
             step
        ++ logged "train" "acc_top5"
             (accuracy_value n (Z.min 5 n) pred (argmax1 (snd fed))) step)%list.
Proof.
  intros T Ctl TM n fed pred loss step iterate.
  subst n fed pred loss step iterate.
  assert (Same :
            forall v,
              trace_of
                (gact_backward
                   (set_val_step v
                      (set_train_step (train_step self + 1) self)))
              = trace_of (gact_backward self))
    by (intros v; now apply gact_backward_reads).
  unfold training_step, the_trainer.
  split; step; rewrite T; step; unfold shared_step; step;
    change ("train" =? "train")%string with true;
    change ("train" =? "val")%string with false;
    change ("train" =? "test")%string with false;
    cbv beta iota; step; fields;
    destruct (mixup_call (mixup self) w x y) as [x' y']; step;
    rewrite Bool.andb_true_r;
    replace (train_step self + 1 =? 1) with (train_step self =? 0)
      by (destruct (Z.eqb_spec (train_step self) 0),
            (Z.eqb_spec (train_step self + 1) 1); lia || reflexivity);
    (destruct (open_gact (hparams self)) eqn:Og; cbn [andb];
     [destruct (train_step self =? 0); cbn [negb];
      [|unfold when at 1, controller_iterate; step; fields;
        destruct (controller self);
        [|exfalso; now apply Ctl]; step; rewrite ?Same]|]);
    unfold when; step; unfold forward, loss_fn; step;
    unfold getattr_metrics, metrics_call; step;
    cbn [String.append String.eqb Ascii.eqb Bool.eqb]; cbv beta iota;
    step; fields; rewrite ?TM; reflexivity.
Qed.

(** X8. A training step that returns, on an attached module whose
    controller and stored slices exist where the step needs them, has made
    exactly these calls: the learning rate to the progress bar, Mixup, the
    controller's [iterate] on a complete replay of the stored slices when
    compression is on and this is not the first training step, the
    network, the loss, the training metrics, and then one [self.log] and
    one [wandb.log] for each of the loss, the accuracy and the top-5
    accuracy, against the training counter after the count; and what it
    returns is the loss of the network on what Mixup made of the batch. *)
Theorem training_step_logs (w : Draw) (x : list Image) (y : Labels)
    (self : Model) (t : Trainer) (px : list Image) (py : Targets)
    (returned : Float) :
  trainer self = Some t ->
  (open_gact (hparams self) = true -> controller self <> None) ->
  (open_gact (hparams self) = true -> train_step self <> 0 ->
   partial_x self = Some px /\ partial_y self = Some py) ->
  train_metrics self = accuracy_metrics (hparams self) ->
  outcome_of (training_step w (x, y) self) = inr returned ->
  let n := n_classes (hparams self) in
  let fed := mixup_call (mixup self) w x y in
  let pred := net_forward (net self) (fst fed) in
  let loss := soft_target_cross_entropy pred (snd fed) in
  let step := train_step self + 1 in
  let iterate :=
    if open_gact (hparams self) && negb (train_step self =? 0)
    then [ControllerIterate (replay (net self) t px py)]
    else [] in
  returned = loss
  /\ trace_of (training_step w (x, y) self)
     = (Log "lr" (optimizer_lr t) None true
        :: MixupCall x y
        :: iterate
        ++ [ Forward (fst fed);
             LossFn pred (snd fed);
             MetricsCall (accuracy_metrics (hparams self)) pred
               (argmax1 (snd fed)) ]
        ++ logged "train" "loss" loss step
        ++ logged "train" "acc" (accuracy_value n 1 pred (argmax1 (snd fed)))
             step
        ++ logged "train" "acc_top5"
             (accuracy_value n (Z.min 5 n) pred (argmax1 (snd fed))) step)%list.
Proof.
  intros T Ctl Sl TM O.
  destruct (@training_step_run w x y self t T Ctl TM) as [O' E].
  cbv zeta in *. split; [congruence|]. rewrite E. do 2 f_equal.
  destruct (open_gact (hparams self)) eqn:Og; [|reflexivity].
  destruct (Z.eqb_spec (train_step self) 0) as [|N]; [reflexivity|].
  destruct (Sl eq_refl N) as [Px Py]. cbn [andb negb].
  now rewrite (@gact_backward_trace self t px py T Px Py).
Qed.

(** *** Along a run of the driver *)

Lemma dispatch_keeps_metrics (c : Call) :
  keeps train_metrics (dispatch c) /\ keeps val_metrics (dispatch c)
  /\ keeps test_metrics (dispatch c) /\ keeps mixup (dispatch c).
Proof.
  repeat split;
    (destruct c as [w [x y]|w [x y]|w [x y]| |]; unfold dispatch;
     unfold_callbacks; unfold shared_step; unfold_callbacks; keeps_tac).
Qed.

Lemma dispatch_val_step (t : Trainer) (c : Call) (self : Model) :
  val_step (state_of (dispatch c (attach t self)))
  = val_step self + (if is_validation_step c then 1 else 0).
Proof.
  destruct c as [w b|w b|w b| |]; unfold dispatch;
    try rewrite (proj1 (bind_ret_tail _ _)); cbn [is_validation_step].
  - rewrite (proj1 (training_step_attached w b (attach t self) eq_refl)).
    now rewrite (proj2 (shared_step_counters w b "train" (attach t self))).
  - unfold validation_step.
    rewrite (proj2 (shared_step_counters w b "val" (attach t self))).
    reflexivity.
  - unfold test_step.
    rewrite (proj2 (shared_step_counters w b "test" (attach t self))).
    reflexivity.
  - assert (K : keeps val_step on_test_epoch_end)
      by (unfold_callbacks; keeps_tac).
    rewrite (K (attach t self)). fields. lia.
  - assert (K : keeps val_step configure_optimizers)
      by (unfold_callbacks; keeps_tac).
    rewrite (K (attach t self)). fields. lia.
Qed.

Lemma count_calls_cons (p : Call -> bool) (t : Trainer) (c : Call)
    (calls : list (Trainer * Call)) :
  count_calls p ((t, c) :: calls)
  = (if p c then 1 else 0) + count_calls p calls.
Proof.
  unfold count_calls. cbn [map snd filter].
  destruct (p c); cbn [length]; lia.
Qed.

Lemma count_calls_nil (p : Call -> bool) : count_calls p [] = 0.
Proof. reflexivity. Qed.



(** The module a callback of a run starts from: it satisfies whatever every
    callback preserves, and its counters have counted the training and the
    validation steps before it. *)
Lemma drive_nth (P : Model -> Prop) :
  (forall t c s, P s -> P (state_of (dispatch c (attach t s)))) ->
  forall calls self i t c evs,
    P self ->
    nth_error calls i = Some (t, c) ->
    nth_error (traces_of (drive calls self)) i = Some evs ->
    exists s,
      P s /\ evs = trace_of (dispatch c (attach t s))
      /\ train_step s
         = train_step self + count_calls is_training_step (firstn i calls)
      /\ val_step s
         = val_step self + count_calls is_validation_step (firstn i calls).
Proof.
  intros Step.
  induction calls as [|[t0 c0] calls IH]; intros self i t c evs Ps Hc He.
  - destruct i; discriminate.
  - cbn [drive] in He.
    pose proof (dispatch_train_step t0 c0 self) as T1.
    pose proof (dispatch_val_step t0 c0 self) as V1.
    pose proof (Step t0 c0 self Ps) as P1.
    unfold state_of in T1, V1, P1.
    destruct i as [|i].
    + cbn [nth_error] in Hc. injection Hc as -> ->.
      exists self. cbn [firstn]. rewrite !count_calls_nil.
      repeat split; [assumption| |lia|lia].
      unfold trace_of.
      destruct (dispatch c (attach t self)) as [[self' evs0] [e|u]].
      * unfold traces_of in He. cbn in He. now injection He.
      * destruct (drive calls self') as [[traces final] e].
        unfold traces_of in He. cbn in He. now injection He.
    + cbn [nth_error] in Hc.
      destruct (dispatch c0 (attach t0 self)) as [[self' evs0] [e|u]].
      { unfold traces_of in He. cbn in He. destruct i; discriminate. }
      cbn [fst snd] in *.
      destruct (IH self' i t c evs P1 Hc) as (s & Pss & E & Ts & Vs).
      { destruct (drive calls self') as [[traces final] e].
        unfold traces_of in *. cbn in He |- *. exact He. }
      exists s.
      change (firstn (S i) ((t0, c0) :: calls))
        with ((t0, c0) :: firstn i calls).
      rewrite !count_calls_cons.
      repeat split; [assumption|assumption|lia|lia].
Qed.

(** X9. The counters count the steps that were started, not the steps that
    returned: whatever a run of the driver does, when it ends [train_step]
    has grown by the number of training steps among the callbacks the
    driver got to, and [val_step] by the number of validation steps among
    them, the one that raised included; test steps, the end of a test
    epoch and [configure_optimizers] count for nothing. A run that no
    exception stopped got to every callback. *)
Theorem counters_count_started_steps (calls : list (Trainer * Call))
    (self : Model) :
  let r := drive calls self in
  train_step (final_of r)
  = train_step self + count_calls is_training_step (started calls r)
  /\ val_step (final_of r)
     = val_step self + count_calls is_validation_step (started calls r)
  /\ (stopped_by r = None -> started calls r = calls)
  /\ (forall e, stopped_by r = Some e -> started calls r <> []).
Proof.
  cbv zeta. revert self.
  induction calls as [|[t0 c0] calls IH]; intros self.
  - cbn. unfold count_calls. cbn. repeat split; try lia. discriminate.
  - cbn [drive].
    pose proof (dispatch_train_step t0 c0 self) as T1.
    pose proof (dispatch_val_step t0 c0 self) as V1.
    unfold state_of in T1, V1.
    destruct (dispatch c0 (attach t0 self)) as [[self' evs0] [e|u]].
    + unfold final_of, stopped_by, started, traces_of. cbn [fst snd length firstn].
      rewrite !count_calls_cons, !count_calls_nil. cbn [fst snd] in *.
      repeat split; try lia; discriminate.
    + specialize (IH self').
      destruct (drive calls self') as [[traces final] e].
      unfold final_of, stopped_by, started, traces_of in *.
      cbn [fst snd length firstn] in *.
      rewrite !count_calls_cons.
      destruct IH as (T & V & N & _).
      repeat split; try lia; [|discriminate].
      intros En. now rewrite (N En).
Qed.


Lemma new_constructed (hp : HParams) (m : Model) :
  snd (new hp) = inr m ->
  constructed hp m /\ train_step m = 0 /\ val_step m = 0
  /\ test_metric_outputs m = [] /\ partial_x m = None /\ partial_y m = None
  /\ trainer m = None.
Proof.
  intros R.
  destruct (new_returns_inv hp R) as (path & n0 & n1 & G & I & L & P & _).
  destruct (new_succeeds hp G I L P)
    as (m' & E & Hh & Hn & Ht & Hv & Ho & Hc & Hx & Hy & Hr & Htr & Hva & Hte).
  rewrite E in R. cbn [snd] in R. injection R as <-.
  unfold constructed. repeat split; assumption.
Qed.

Lemma dispatch_constructed (hp : HParams) (t : Trainer) (c : Call)
    (s : Model) :
  constructed hp s -> constructed hp (state_of (dispatch c (attach t s))).
Proof.
  intros (Hh & Htr & Hva & Hte & Hc).
  destruct (dispatch_keeps c) as (Kh & Kc & Kn).
  destruct (dispatch_keeps_metrics c) as (Ktr & Kva & Kte & _).
  unfold constructed.
  rewrite (Kh (attach t s)), (Kc (attach t s)), (Kn (attach t s)),
    (Ktr (attach t s)), (Kva (attach t s)), (Kte (attach t s)).
  fields. repeat split; assumption.
Qed.

Lemma constructed_controller (hp : HParams) (s : Model) :
  constructed hp s ->
  open_gact (hparams s) = true -> controller s <> None.
Proof.
  intros (Hh & _ & _ & _ & Hc) Og. rewrite Hh in Og. rewrite Hc, Og.
  discriminate.
Qed.



(** *** What the controller replays *)

Lemma replay_after_evaluation (w1 w2 : Draw) (x1 x2 : list Image)
    (y1 y2 : Labels) (mode : string) (self : Model) (t : Trainer)
    (h : list (list Z)) :
  mode <> "train" ->
  controller self <> None -> open_gact (hparams self) = true ->
  train_step self <> 0 -> trainer self = Some t ->
  Torch.one_hot y1 (n_classes (hparams self)) = inr h ->
  exists rest,
    trace_of
      (shared_step w2 (x2, y2) "train"
         (state_of (shared_step w1 (x1, y1) mode self)))
    = MixupCall x2 y2
      :: ControllerIterate
           (replay (net self) t (Torch.take 8 x1)
              (Torch.take 8 (map (map float_of_int) h)))
      :: rest.
Proof.
  intros NT Ctl Og T0 Tr OH.
  destruct (shared_step_keeps w1 (x1, y1) mode) as (Kh & Kc & Kn & Kt).
  specialize (Kh self). specialize (Kc self). specialize (Kn self).
  specialize (Kt self).
  destruct (@shared_step_partial w1 x1 y1 mode self Ctl Og)
    as [_ P]. destruct (P NT h OH) as [Px Py]. clear P.
  pose proof (proj1 (shared_step_counters w1 (x1, y1) mode self)) as Ts.
  apply String.eqb_neq in NT. rewrite NT in Ts.
  set (s1 := state_of (shared_step w1 (x1, y1) mode self)) in *.
  destruct (@shared_step_iterate_payload w2 x2 y2 s1) as [rest E].
  - now rewrite Kc.
  - now rewrite Kh.
  - lia.
  - exists rest. rewrite E.
    rewrite (@gact_backward_trace s1 t _ _ ltac:(now rewrite Kt) Px Py).
    unfold replay. now rewrite Kn.
Qed.

(** X11. The slices the controller replays are overwritten by every step
    that gets to the loss, in whatever mode: with activation compression
    on, a training step that follows a validation or test step hands the
    controller a replay, gradients included, over the first eight samples
    of that validation or test batch and their one-hot labels. *)
Theorem training_replays_evaluation_batch (w1 w2 : Draw)
    (x1 x2 : list Image) (y1 y2 : Labels) (mode : string) (self : Model)
    (t : Trainer) (h : list (list Z)) :
  mode = "val" \/ mode = "test" ->
  controller self <> None -> open_gact (hparams self) = true ->
  train_step self <> 0 -> trainer self = Some t ->
  Torch.one_hot y1 (n_classes (hparams self)) = inr h ->
  exists rest,
    trace_of
      (shared_step w2 (x2, y2) "train"
         (state_of (shared_step w1 (x1, y1) mode self)))
    = MixupCall x2 y2
      :: ControllerIterate
           [ Optimizers;
             Forward (Torch.take 8 x1);
             LossFn (net_forward (net self) (Torch.take 8 x1))
               (Torch.take 8 (map (map float_of_int) h));
             OptimizerZeroGrad (current_epoch t) 0;
             Backward
               (soft_target_cross_entropy
                  (net_forward (net self) (Torch.take 8 x1))
                  (Torch.take 8 (map (map float_of_int) h))) ]
      :: rest.
Proof.
  intros M. apply replay_after_evaluation.
  destruct M as [-> | ->]; discriminate.
Qed.

Lemma take_length {A : Type} (n : nat) (l : list A) :
  (length (Torch.take n l) <= n)%nat.
Proof. unfold Torch.take. rewrite length_firstn. lia. Qed.

Lemma dispatch_slices_ready (hp : HParams) (t : Trainer) (c : Call)
    (s : Model) :
  open_gact hp = true ->
  constructed hp s /\ slices_ready s ->
  constructed hp (state_of (dispatch c (attach t s)))
  /\ slices_ready (state_of (dispatch c (attach t s))).
Proof.
  intros Og [Cs [T0 Sl]]. split; [now apply dispatch_constructed|].
  pose proof (dispatch_train_step t c s) as T1.
  assert (Ctl : controller (attach t s) <> None).
  { fields. apply (constructed_controller Cs).
    destruct Cs as (-> & _). exact Og. }
  assert (Og' : open_gact (hparams (attach t s)) = true).
  { fields. destruct Cs as (-> & _). exact Og. }
  split; [destruct (is_training_step c); lia|].
  destruct c as [w [x y]|w [x y]|w [x y]| |]; cbn [is_training_step] in T1.
  - right. unfold dispatch. rewrite (proj1 (bind_ret_tail _ _)).
    rewrite (proj1 (training_step_attached w (x, y) (attach t s) eq_refl)).
    destruct (@shared_step_partial w x y "train" (attach t s) Ctl Og')
      as [[Px Py] _]; [reflexivity|].
    do 2 eexists. repeat split; [exact Px|exact Py|apply take_length..].
  - destruct Sl as [Z0|(px & py & Px & Py & Lx & Ly)]; [left; lia|right].
    unfold dispatch, validation_step. rewrite (proj1 (bind_ret_tail _ _)).
    destruct (Torch.one_hot y (n_classes (hparams (attach t s))))
      as [e|h] eqn:OH.
    + destruct (@shared_step_one_hot_fails w x y "val" (attach t s) e
                  ltac:(discriminate) OH) as (_ & _ & Ex & Ey & _).
      rewrite Ex, Ey. fields. eauto 8.
    + destruct (@shared_step_partial w x y "val" (attach t s) Ctl Og')
        as [_ P]. destruct (P ltac:(discriminate) h OH) as [Ex Ey].
      do 2 eexists. repeat split; [exact Ex|exact Ey|apply take_length..].
  - destruct Sl as [Z0|(px & py & Px & Py & Lx & Ly)]; [left; lia|right].
    unfold dispatch, test_step. rewrite (proj1 (bind_ret_tail _ _)).
    destruct (Torch.one_hot y (n_classes (hparams (attach t s))))
      as [e|h] eqn:OH.
    + destruct (@shared_step_one_hot_fails w x y "test" (attach t s) e
                  ltac:(discriminate) OH) as (_ & _ & Ex & Ey & _).
      rewrite Ex, Ey. fields. eauto 8.
    + destruct (@shared_step_partial w x y "test" (attach t s) Ctl Og')
        as [_ P]. destruct (P ltac:(discriminate) h OH) as [Ex Ey].
      do 2 eexists. repeat split; [exact Ex|exact Ey|apply take_length..].
  - destruct Sl as [Z0|(px & py & Px & Py & Lx & Ly)]; [left; lia|right].
    assert (Kx : keeps partial_x (dispatch OnTestEpochEnd))
      by (unfold dispatch; unfold_callbacks; keeps_tac).
    assert (Ky : keeps partial_y (dispatch OnTestEpochEnd))
      by (unfold dispatch; unfold_callbacks; keeps_tac).
    rewrite (Kx (attach t s)), (Ky (attach t s)). fields. eauto 8.
  - destruct Sl as [Z0|(px & py & Px & Py & Lx & Ly)]; [left; lia|right].
    assert (Kx : keeps partial_x (dispatch ConfigureOptimizers))
      by (unfold dispatch; unfold_callbacks; keeps_tac).
    assert (Ky : keeps partial_y (dispatch ConfigureOptimizers))
      by (unfold dispatch; unfold_callbacks; keeps_tac).
    rewrite (Kx (attach t s)), (Ky (attach t s)). fields. eauto 8.
Qed.

(** X12. The guard [train_step != 1] is enough: along any run of the driver
    on a module freshly constructed with activation compression on,
    whenever the controller's [iterate] is called the slices [partial_x]
    and [partial_y] exist, so the callback it is handed runs to its end: a
    forward pass on at most eight stored samples through the network of
    the module, the loss, the clearing of the gradients under the driver
    of that step and the backward pass. *)
Theorem iterate_replay_is_complete (hp : HParams) (self0 : Model)
    (calls : list (Trainer * Call)) (i : nat) (t : Trainer) (c : Call)
    (evs payload : list Event) :
  snd (new hp) = inr self0 -> open_gact hp = true ->
  nth_error calls i = Some (t, c) ->
  nth_error (traces_of (drive calls self0)) i = Some evs ->
  In (ControllerIterate payload) evs ->
  exists px py,
    payload
    = [ Optimizers;
        Forward px;
        LossFn (net_forward (net self0) px) py;
        OptimizerZeroGrad (current_epoch t) 0;
        Backward (soft_target_cross_entropy (net_forward (net self0) px) py) ]
    /\ (length px <= 8)%nat /\ (length py <= 8)%nat
    /\ is_training_step c = true.
Proof.
  intros R Og Hc He Hin.
  destruct (new_constructed hp R) as (C0 & T0 & V0 & _).
  set (Q := fun s => (constructed hp s /\ slices_ready s)
                     /\ net s = net self0).
  assert (Step : forall t c s, Q s -> Q (state_of (dispatch c (attach t s)))).
  { intros t' c' s [CS N]. split.
    - now apply (dispatch_slices_ready t' c' Og).
    - destruct (dispatch_keeps c') as (_ & _ & Kn).
      now rewrite (Kn (attach t' s)). }
  assert (Q0 : Q self0).
  { repeat split; [apply C0..| |]; [lia | left; exact T0]. }
  destruct (@drive_nth Q Step calls self0 i t c evs Q0 Hc He)
    as (s & [[Cs [Tp Sl]] Ns] & E & Ts & _).
  assert (Ctl : controller (attach t s) <> None).
  { fields. apply (constructed_controller Cs).
    destruct Cs as (-> & _). exact Og. }
  assert (Inv : invokes_iterate evs = true).
  { unfold invokes_iterate. apply existsb_exists.
    exists (ControllerIterate payload). split; [assumption | reflexivity]. }
  rewrite E in Inv.
  assert (Ctl' : controller s <> None) by exact Ctl.
  apply (@dispatch_iterate t c s Ctl') in Inv.
  destruct Inv as (Og' & Tc & Tn).
  destruct c as [w [x y]|w b|w b| |]; try discriminate Tc.
  destruct Sl as [Z0|(px & py & Px & Py & Lx & Ly)]; [contradiction|].
  exists px, py. repeat split; try assumption.
  subst evs. unfold dispatch in Hin. rewrite (proj2 (bind_ret_tail _ _)) in Hin.
  assert (TM : train_metrics (attach t s)
               = accuracy_metrics (hparams (attach t s)))
    by (fields; destruct Cs as (-> & -> & _); reflexivity).
  destruct (@training_step_run w x y (attach t s) t eq_refl
              (fun _ => Ctl) TM) as [_ E].
  rewrite E in Hin. clear E. fields. rewrite Og' in Hin.
  destruct (Z.eqb_spec (train_step s) 0) as [|_]; [contradiction|].
  cbn [andb negb app logged In] in Hin.
  rewrite (@gact_backward_trace (attach t s) t px py eq_refl Px Py) in Hin.
  fields. rewrite Ns in Hin.
  repeat (destruct Hin as [Hin|Hin]; try discriminate Hin);
    [|contradiction].
  now injection Hin as <-.
Qed.


(** *** The test statistics over several epochs *)

(** A test step with labels the one-hot conversion accepts returns and
    appends one tensor. *)
Lemma test_step_returns (w : Draw) (x : list Image) (y : Labels)
    (self : Model) (h : list (list Z)) :
  test_metrics self = test_metrics_of (hparams self) ->
  Torch.one_hot y (n_classes (hparams self)) = inr h ->
  (exists loss, outcome_of (shared_step w (x, y) "test" self) = inr loss)
  /\ exists stats,
       test_metric_outputs (state_of (shared_step w (x, y) "test" self))
       = (test_metric_outputs self ++ [stats])%list.
Proof.
  intros TM OH. unfold shared_step.
  split; [eexists|eexists]; step;
    change ("test" =? "train")%string with false; cbv beta iota; step;
    fields; rewrite OH; step;
    rewrite Bool.andb_false_r; unfold when at 1; cbn [andb];
    cbv beta iota; step; unfold forward, loss_fn; step;
    destruct (open_gact (hparams self)); unfold when at 1; step;
    unfold getattr_metrics, metrics_call; step;
    cbn [String.append String.eqb Ascii.eqb Bool.eqb]; cbv beta iota;
    step; fields; rewrite TM; simpl; reflexivity.
Qed.

(** What one callback does to the list of test statistics. *)
Lemma dispatch_test_outputs (hp : HParams) (t : Trainer) (c : Call)
    (s : Model) :
  constructed hp s ->
  exists added,
    test_metric_outputs (state_of (dispatch c (attach t s)))
    = (test_metric_outputs s ++ added)%list
    /\ Z.of_nat (length added) <= (if is_test_step c then 1 else 0)
    /\ (forall u, outcome_of (dispatch c (attach t s)) = inr u ->
                  Z.of_nat (length added) = (if is_test_step c then 1 else 0)).
Proof.
  intros (Hh & _ & _ & Hte & _).
  destruct c as [w [x y]|w [x y]|w [x y]| |]; cbn [is_test_step].
  - exists nil. rewrite app_nil_r. unfold dispatch.
    rewrite (proj1 (bind_ret_tail _ _)).
    rewrite (proj1 (training_step_attached w (x, y) (attach t s) eq_refl)).
    rewrite (@other_steps_keep_stats w (x, y) "train" ltac:(discriminate)
               (attach t s)).
    repeat split; cbn [length]; lia.
  - exists nil. rewrite app_nil_r. unfold dispatch, validation_step.
    rewrite (proj1 (bind_ret_tail _ _)).
    rewrite (@other_steps_keep_stats w (x, y) "val" ltac:(discriminate)
               (attach t s)).
    repeat split; cbn [length]; lia.
  - assert (TM : test_metrics (attach t s)
                 = test_metrics_of (hparams (attach t s)))
      by (fields; now rewrite Hh).
    unfold dispatch, test_step. rewrite (proj1 (bind_ret_tail _ _)).
    destruct (Torch.one_hot y (n_classes (hparams (attach t s))))
      as [e|h] eqn:OH.
    + destruct (@shared_step_one_hot_fails w x y "test" (attach t s) e
                  ltac:(discriminate) OH) as (O & _ & _ & _ & Eo).
      exists nil. rewrite app_nil_r, Eo. fields.
      repeat split; cbn [length]; try lia.
      intros u. unfold outcome_of in *. unfold bind.
      destruct (shared_step w (x, y) "test" (attach t s)) as [[s1 l1] r1].
      cbn [snd] in O. subst r1. discriminate.
    + destruct (@test_step_returns w x y (attach t s) h TM OH)
        as [_ [stats Eo]].
      exists [stats]. rewrite Eo. fields.
      repeat split; cbn [length]; lia.
  - exists nil. rewrite app_nil_r.
    assert (K : keeps test_metric_outputs (dispatch OnTestEpochEnd))
      by (unfold dispatch; unfold_callbacks; keeps_tac).
    rewrite (K (attach t s)). fields. repeat split; cbn [length]; lia.
  - exists nil. rewrite app_nil_r.
    assert (K : keeps test_metric_outputs (dispatch ConfigureOptimizers))
      by (unfold dispatch; unfold_callbacks; keeps_tac).
    rewrite (K (attach t s)). fields. repeat split; cbn [length]; lia.
Qed.

(** X13. The list of test statistics only grows: nothing, [on_test_epoch_end]
    included, ever empties it. Along a run of the driver on a constructed
    module the tensors it held before stay at its head, at most one tensor
    is added for each test step the driver got to, and exactly one for
    each when no callback raised; so the file of a second test epoch sums
    the batches of both epochs. *)
Theorem test_statistics_accumulate (hp : HParams)
    (calls : list (Trainer * Call)) (self : Model) :
  constructed hp self ->
  exists added,
    test_metric_outputs (final_of (drive calls self))
    = (test_metric_outputs self ++ added)%list
    /\ Z.of_nat (length added)
       <= count_calls is_test_step (started calls (drive calls self))
    /\ (stopped_by (drive calls self) = None ->
        Z.of_nat (length added) = count_calls is_test_step calls).
Proof.
  revert self.
  induction calls as [|[t0 c0] calls IH]; intros self Cs.
  - exists nil. rewrite app_nil_r. cbn. unfold count_calls. cbn.
    repeat split; lia.
  - cbn [drive].
    destruct (@dispatch_test_outputs hp t0 c0 self Cs) as (a0 & E0 & L0 & R0).
    pose proof (@dispatch_constructed hp t0 c0 self Cs) as C1.
    unfold state_of, outcome_of in *.
    destruct (dispatch c0 (attach t0 self)) as [[self' evs0] [e|u]];
      cbn [fst snd] in *.
    + exists a0. unfold final_of, stopped_by, started, traces_of.
      cbn [fst snd length firstn].
      rewrite count_calls_cons, count_calls_nil.
      repeat split; [assumption|lia|discriminate].
    + specialize (IH self' C1). destruct IH as (a1 & E1 & L1 & R1).
      specialize (R0 u eq_refl).
      destruct (drive calls self') as [[traces final] e].
      unfold final_of, stopped_by, started, traces_of in *.
      cbn [fst snd length firstn] in *.
      exists (a0 ++ a1)%list. rewrite !count_calls_cons, length_app.
      repeat split.
      * rewrite E1, E0. now rewrite app_assoc.
      * lia.
      * intros En. specialize (R1 En). lia.
Qed.

Lemma same_size_stats_inv (t : list StatRow) (rest : list MetricValue) :
  forallb (Torch.same_size (Stats t)) rest = true
  <-> Forall (fun u => exists r, u = Stats r /\ length r = length t) rest.
Proof.
  rewrite forallb_forall, Forall_forall.
  split; intros A u Hu; specialize (A u Hu).
  - destruct u as [v|r]; cbn [Torch.same_size] in A; [discriminate|].
    exists r. split; [reflexivity|]. apply Nat.eqb_eq in A. congruence.
  - destruct A as (r & -> & L). cbn [Torch.same_size].
    apply Nat.eqb_eq. congruence.
Qed.

Lemma fold_add_rows_length (rest : list (list StatRow)) :
  forall t,
    Forall (fun r => length r = length t) rest ->
    length (fold_left Torch.add_rows rest t) = length t.
Proof.
  induction rest as [|r rest IH]; intros t Hl; [reflexivity|].
  inversion Hl as [|? ? Hr Hrest]; subst. cbn [fold_left].
  assert (L : length (Torch.add_rows t r) = length t).
  { clear - Hr. revert r Hr.
    induction t as [|a t IHt]; intros [|b r] Hr; cbn in *;
      try discriminate; [reflexivity|].
    f_equal. apply IHt. congruence. }
  rewrite IH; [exact L|].
  eapply Forall_impl; [|exact Hrest]. cbn. intros; congruence.
Qed.

(** X14. [on_test_epoch_end] never changes the module and either writes the
    whole file or nothing. It returns exactly when the list of test
    statistics is not empty, starts with a per-class tensor and holds
    tensors of that size only; it then writes one frame with the columns
    "acc" and "n" and one row per class, and says so. Otherwise it raises
    before any call: in particular on a module on which no test step has
    run, as straight after the construction, [torch.stack] refuses the
    empty list. *)
Theorem on_test_epoch_end_outcomes (self : Model) :
  state_of (on_test_epoch_end self) = self
  /\ (outcome_of (on_test_epoch_end self) = inr tt
      <-> exists t rest,
            test_metric_outputs self = Stats t :: rest
            /\ Forall (fun u => exists r, u = Stats r /\ length r = length t)
                 rest)
  /\ (forall e,
         outcome_of (on_test_epoch_end self) = inl e ->
         trace_of (on_test_epoch_end self) = [])
  /\ (forall t rest,
         outcome_of (on_test_epoch_end self) = inr tt ->
         test_metric_outputs self = Stats t :: rest ->
         exists df,
           trace_of (on_test_epoch_end self)
           = [ ToCsv df "per-class-acc-test.csv";
               Print "Saved per-class results in per-class-acc-test.csv" ]
           /\ columns df = ["acc"; "n"]
           /\ length (rows df) = length t)
  /\ (test_metric_outputs self = [] ->
      on_test_epoch_end self
      = (self, [],
         inl (RuntimeError "stack expects a non-empty TensorList")))
  /\ (forall hp, snd (new hp) = inr self ->
                 on_test_epoch_end self
                 = (self, [],
                    inl (RuntimeError "stack expects a non-empty TensorList"))).
Proof.
  assert (Empty :
            test_metric_outputs self = [] ->
            on_test_epoch_end self
            = (self, [],
               inl (RuntimeError "stack expects a non-empty TensorList"))).
  { intros E. unfold on_test_epoch_end. step. rewrite E. reflexivity. }
  split; [|split; [|split; [|split; [|split]]]].
  - assert (K : keeps (fun s => s) on_test_epoch_end)
      by (unfold_callbacks; keeps_tac).
    exact (K self).
  - unfold on_test_epoch_end, bind, get, lift, emit, outcome_of.
    cbn [fst snd]. unfold Torch.stack_sum.
    destruct (test_metric_outputs self) as [|[v|t] rest].
    + cbn. split; [discriminate | intros (t & rest & D & _); discriminate].
    + destruct (forallb _ rest); cbn;
        (split; [discriminate | intros (t & r & D & _); discriminate]).
    + destruct (forallb (Torch.same_size (Stats t)) rest) eqn:Fa; cbn.
      * split; [intros _|reflexivity]. exists t, rest.
        split; [reflexivity | now apply same_size_stats_inv].
      * split; [discriminate|]. intros (t' & rest' & D & Fr).
        injection D as <- <-. apply same_size_stats_inv in Fr. congruence.
  - intros e. unfold on_test_epoch_end, bind, get, lift, emit, outcome_of,
      trace_of. cbn [fst snd].
    destruct (Torch.stack_sum (test_metric_outputs self)); cbn;
      [reflexivity | discriminate].
  - intros t rest. unfold on_test_epoch_end, bind, get, lift, emit,
      outcome_of, trace_of. cbn [fst snd]. intros O D. rewrite D in *.
    unfold Torch.stack_sum in *.
    destruct (forallb (Torch.same_size (Stats t)) rest) eqn:Fa;
      cbn in O |- *; [|discriminate].
    eexists. split; [reflexivity|]. split; [reflexivity|].
    cbn [rows]. unfold per_class_acc. rewrite length_map.
    apply fold_add_rows_length.
    apply same_size_stats_inv in Fa. apply Forall_map.
    eapply Forall_impl; [|exact Fa]. cbn.
    intros u (r & -> & L). exact L.
  - exact Empty.
  - intros hp R. apply Empty.
    now destruct (new_constructed hp R) as (_ & _ & _ & E & _).
Qed.


(** *** The module as the constructor leaves it *)

Lemma configure_optimizers_returns (self : Model) (cfg : OptimizerConfig) :
  outcome_of (configure_optimizers self) = inr cfg ->
  optimizer_params (cfg_optimizer cfg) = parameters (net self)
  /\ scheduler_optimizer (sched (cfg_lr_scheduler cfg)) = cfg_optimizer cfg
  /\ interval (cfg_lr_scheduler cfg) = "step".
Proof.
  unfold configure_optimizers, the_trainer, construct, outcome_of, bind, get,
    ret, raise. cbn [fst snd].
  destruct (optimizer (hparams self) =? "adam")%string;
    [|destruct (optimizer (hparams self) =? "adamw")%string;
      [|destruct (optimizer (hparams self) =? "sgd")%string;
        [|destruct (optimizer (hparams self) =? "adamw4bit")%string]]];
    cbn; try discriminate;
    (destruct (optimizer_init _); cbn; [discriminate|]);
    (destruct (scheduler (hparams self) =? "cosine")%string;
     [destruct (trainer self); cbn; [destruct (scheduler_init _); cbn|]
     |destruct (scheduler (hparams self) =? "none")%string; cbn;
      [destruct (scheduler_init _); cbn|]]);
    try discriminate; intros E; injection E as <-; repeat split.
Qed.

(** X15. The optimizer is given every parameter of the network, in the
    network's order, whether it requires a gradient or not, and the
    scheduler steps that very optimizer. So after a construction in
    "linear" mode the optimizer also holds each frozen parameter of the
    backbone, with [requires_grad] false; [configure_optimizers] itself
    changes nothing in the module and calls no library. *)
Theorem optimizer_holds_frozen_parameters (hp : HParams) (m : Model)
    (t : Trainer) (cfg : OptimizerConfig) :
  snd (new hp) = inr m ->
  outcome_of (configure_optimizers (attach t m)) = inr cfg ->
  optimizer_params (cfg_optimizer cfg) = parameters (net m)
  /\ scheduler_optimizer (sched (cfg_lr_scheduler cfg)) = cfg_optimizer cfg
  /\ interval (cfg_lr_scheduler cfg) = "step"
  /\ state_of (configure_optimizers (attach t m)) = attach t m
  /\ trace_of (configure_optimizers (attach t m)) = []
  /\ (training_mode hp = "linear" ->
      forall name p,
        In (name, p) (net m) ->
        PyStr.contains "classifier" name = false ->
        In p (optimizer_params (cfg_optimizer cfg))
        /\ requires_grad p = false).
Proof.
  intros R O.
  destruct (@configure_optimizers_returns (attach t m) cfg O)
    as (Ep & Es & Ei).
  fields.
  split; [exact Ep|split; [exact Es|split; [exact Ei|split; [|split]]]].
  - assert (K : keeps (fun s => s) configure_optimizers)
      by (unfold_callbacks; keeps_tac).
    exact (K (attach t m)).
  - assert (E : emits (fun _ => False) configure_optimizers)
      by (unfold_callbacks; emits_tac).
    specialize (E (attach t m)).
    destruct (trace_of (configure_optimizers (attach t m))) as [|ev evs];
      [reflexivity|]. now inversion E.
  - intros Lin name p Hin Cl. split.
    + rewrite Ep. unfold parameters. exact (in_map snd _ _ Hin).
    + destruct (new_returns_inv hp R)
        as (path & n0 & n1 & _ & _ & _ & P & _).
      unfold prepare_for_training_mode, outcome_of in P. rewrite Lin in P.
      cbn in P. injection P as P. rewrite <- P in Hin.
      unfold freeze_backbone in Hin. apply in_map_iff in Hin.
      destruct Hin as ([name' p'] & E & _).
      destruct (PyStr.contains "classifier" name') eqn:Cn; cbn in E;
        injection E as <- <-; [congruence | reflexivity].
Qed.

Lemma before_logger_emits (hp : HParams) (path : string) (n0 n1 : Net) :
  let quiet := fun ev => is_logger_setup ev || is_gact_setup ev = false in
  emits quiet (@initialize_network _ _ unit hp path)
  /\ emits quiet (@load_checkpoint_weights _ _ unit hp n0)
  /\ emits quiet (@prepare_for_training_mode _ _ unit hp n1).
Proof.
  cbv zeta.
  repeat split;
    unfold initialize_network, load_checkpoint_weights,
      prepare_for_training_mode, library;
    emits_tac.
Qed.

(** X17. Every check of the constructor comes before the experiment
    logger and the activation-compression controller are set up: a
    construction that ends in one of the constructor's own errors (unknown
    model name, four-bit with "full" mode, unknown fine-tuning mode) or in
    an error of [torch.load] or [load_state_dict] has neither started a
    wandb run nor defined a metric nor touched the controller. A
    construction that returns has started exactly one run, in the project
    [<model_name>_<training_mode>] and under the name built from the
    learning rate, the batch size, the optimizer, the scheduler, the
    compression level and the four-bit flag, has made [train_step] the
    axis of the "train_*" metrics and [val_step] the axis of the "val_*"
    metrics, and then, if compression is on, has put the controller on the
    network as the fine-tuning mode left it. *)
Theorem logger_starts_after_checks (hp : HParams) :
  let quiet :=
    fun ev => is_logger_setup ev = false /\ is_gact_setup ev = false in
  (forall e,
      e = model_error (model_name hp) \/ e = four_bit_error
      \/ e = mode_error (training_mode hp)
      \/ e = LibraryError "torch.load" \/ e = LibraryError "load_state_dict" ->
      snd (new hp) = inl e -> Forall quiet (fst (new hp)))
  /\ (forall m,
         snd (new hp) = inr m ->
         exists before,
           fst (new hp)
           = (before
              ++ [ WandbInit
                     (model_name hp ++ "_" ++ training_mode hp)
                     ("lr_" ++ float_str (lr hp) ++
                      "_bs_" ++ PyStr.of_int (batch_size hp) ++
                      "_optim_" ++ optimizer hp ++
                      "_scheduler_" ++ scheduler hp ++
                      "_gact_" ++ gact_level hp ++
                      "_4bit_" ++ PyStr.of_bool (use_4bit hp));
                   WandbDefineMetric "train_step" None;
                   WandbDefineMetric "val_step" None;
                   WandbDefineMetric "train_*" (Some "train_step");
                   WandbDefineMetric "val_*" (Some "val_step") ]
              ++ (if open_gact hp
                  then [ GactSetOptimizationLevel (gact_level hp);
                         NewController (net m);
                         InstallHook;
                         Print "GACT is enabled" ]
                  else []))%list
           /\ Forall quiet before).
Proof.
  cbv zeta.
  assert (Q : forall l,
             Forall (fun ev => is_logger_setup ev || is_gact_setup ev = false)
               l ->
             Forall (fun ev => is_logger_setup ev = false
                               /\ is_gact_setup ev = false) l).
  { intros l. apply Forall_impl. intros ev. apply Bool.orb_false_elim. }
  destruct (PyDict.get MODEL_DICT (model_name hp)) as [path|] eqn:G.
  2:{ rewrite (new_unknown_model hp G). split.
      - intros _ _ _. repeat constructor.
      - intros m D. discriminate. }
  destruct (outcome_of (initialize_network hp path tt)) as [e0|n0] eqn:I.
  { rewrite (new_fails_in_network hp G I). split.
    - intros _ _ _. apply Q. constructor; [reflexivity|].
      apply (before_logger_emits hp path [] []).
    - intros m D. discriminate. }
  destruct (outcome_of (load_checkpoint_weights hp n0 tt)) as [e1|n1] eqn:L.
  { rewrite (new_fails_in_checkpoint hp G I L). split.
    - intros _ _ _. apply Q. constructor; [reflexivity|].
      apply Forall_app. split; apply (before_logger_emits hp path n0 []).
    - intros m D. discriminate. }
  destruct (outcome_of (prepare_for_training_mode hp n1 tt))
    as [e2|n2] eqn:P.
  { rewrite (new_fails_in_mode hp G I L P). split.
    - intros _ _ _. apply Q. constructor; [reflexivity|].
      repeat (apply Forall_app; split);
        apply (before_logger_emits hp path n0 n1).
    - intros m D. discriminate. }
  destruct (new_succeeds hp G I L P) as (m' & E & _ & Hn & _).
  rewrite E. cbn [fst snd]. split; [intros e _ D; discriminate|].
  intros m D. injection D as <-.
  exists (SaveHyperparameters
            :: trace_of (initialize_network hp path tt)
            ++ trace_of (load_checkpoint_weights hp n0 tt)
            ++ trace_of (prepare_for_training_mode hp n1 tt))%list.
  split.
  - cbn [app]. f_equal. rewrite <- !app_assoc. do 3 f_equal.
    rewrite Hn. unfold enable_gact. destruct (open_gact hp); reflexivity.
  - apply Q. constructor; [reflexivity|].
    repeat (apply Forall_app; split);
      apply (before_logger_emits hp path n0 n1).
Qed.


(** X18. With a positive [n_classes], a validation or test step returns
    only if every label of the batch is at least 0 and below [n_classes].
    A batch with a label outside that range ends the step in the
    [RuntimeError] of the one-hot conversion, before the network is called
    and before anything is logged; the validation counter has been
    incremented all the same, and the test statistics are left as they
    were. *)
Theorem evaluation_step_needs_labels_in_range (w : Draw) (x : list Image)
    (y : Labels) (mode : string) (self : Model) :
  mode = "val" \/ mode = "test" ->
  0 < n_classes (hparams self) ->
  let n := n_classes (hparams self) in
  ((exists loss, outcome_of (shared_step w (x, y) mode self) = inr loss)
   -> Forall (fun c => 0 <= c < n) y)
  /\ (forall c,
         In c y -> c < 0 \/ n <= c ->
         (exists msg,
             outcome_of (shared_step w (x, y) mode self)
             = inl (RuntimeError msg))
         /\ trace_of (shared_step w (x, y) mode self) = [OneHot y n]
         /\ val_step (state_of (shared_step w (x, y) mode self))
            = val_step self + (if (mode =? "val")%string then 1 else 0)
         /\ test_metric_outputs (state_of (shared_step w (x, y) mode self))
            = test_metric_outputs self).
Proof.
  intros M Hn n. subst n.
  assert (NT : mode <> "train") by (destruct M as [-> | ->]; discriminate).
  split.
  - now apply returned_labels_in_range.
  - intros c Hin B.
    destruct (one_hot_out_of_range y Hn Hin B) as [msg OH].
    destruct (@shared_step_one_hot_fails w x y mode self _ NT OH)
      as (O & T & _ & _ & S).
    repeat split; [eauto | exact T | | exact S].
    exact (proj2 (shared_step_counters w (x, y) mode self)).
Qed.

End Callbacks.

(** ** The per-class accuracies *)

Section PerClassAccuracy.
Context `{Framework}.

Lemma wrap64_in_range (z : Z) : in_int64 z -> Torch.wrap64 z = z.
Proof.
  unfold in_int64, Torch.wrap64. intros R.
  rewrite Z.mod_small by lia. lia.
Qed.

Lemma wrap64_add_l (a b : Z) :
  Torch.wrap64 (Torch.wrap64 a + b) = Torch.wrap64 (a + b).
Proof.
  unfold Torch.wrap64. f_equal.
  replace ((a + 2 ^ 63) mod 2 ^ 64 - 2 ^ 63 + b + 2 ^ 63)
    with ((a + 2 ^ 63) mod 2 ^ 64 + b) by lia.
  rewrite Z.add_mod_idemp_l by lia. f_equal. lia.
Qed.

Lemma length_add_rows (a b : list StatRow) :
  length a = length b -> length (Torch.add_rows a b) = length a.
Proof.
  revert b. induction a as [|ra a IH]; intros [|rb b]; simpl; try easy.
  intros E. f_equal. apply IH. lia.
Qed.

Lemma nth_add_rows (a b : list StatRow) (i : nat) (z : StatRow) :
  length a = length b -> (i < length a)%nat ->
  nth i (Torch.add_rows a b) z = Torch.add_row (nth i a z) (nth i b z).
Proof.
  revert b i. induction a as [|ra a IH]; intros [|rb b] i; simpl;
    try easy; try lia.
  intros E L. destruct i as [|i]; [reflexivity|]. apply IH; lia.
Qed.

Lemma fold_add_rows_nth (rest : list (list StatRow)) :
  forall (t : list StatRow) (i : nat) (z : StatRow),
    Forall (fun u => length u = length t) rest -> (i < length t)%nat ->
    length (fold_left Torch.add_rows rest t) = length t
    /\ nth i (fold_left Torch.add_rows rest t) z
       = fold_left Torch.add_row (map (fun u => nth i u z) rest) (nth i t z).
Proof.
  induction rest as [|u rest IH]; intros t i z Hl Hi; simpl; [auto|].
  inversion Hl as [|? ? Hu Hr]; subst.
  assert (La : length (Torch.add_rows t u) = length t)
    by (apply length_add_rows; lia).
  destruct (IH (Torch.add_rows t u) i z) as [L N].
  - eapply Forall_impl; [|exact Hr]. simpl. intros. lia.
  - lia.
  - split; [lia|]. rewrite N. f_equal. apply nth_add_rows; lia.
Qed.

(** A count of the summed tensor is the wrapped sum of the counts. *)
Lemma fold_add_row_component (f : StatRow -> Z) (rs : list StatRow) :
  (forall a b, f (Torch.add_row a b) = Torch.add64 (f a) (f b)) ->
  forall r,
    in_int64 (f r) ->
    f (fold_left Torch.add_row rs r)
    = Torch.wrap64 (f r + fold_right Z.add 0 (map f rs)).
Proof.
  intros Hf. induction rs as [|a rs IH]; intros r Hr; simpl.
  - rewrite Z.add_0_r. symmetry. now apply wrap64_in_range.
  - rewrite IH.
    + rewrite Hf. unfold Torch.add64. rewrite wrap64_add_l. f_equal. lia.
    + rewrite Hf. unfold Torch.add64, Torch.wrap64, in_int64.
      pose proof (Z.mod_pos_bound (f r + f a + 2 ^ 63) (2 ^ 64)). lia.
Qed.

Lemma stat_tp_add_row (a b : StatRow) :
  stat_tp (Torch.add_row a b) = Torch.add64 (stat_tp a) (stat_tp b).
Proof. now destruct a as [[[[? ?] ?] ?] ?], b as [[[[? ?] ?] ?] ?]. Qed.

Lemma stat_sup_add_row (a b : StatRow) :
  stat_sup (Torch.add_row a b) = Torch.add64 (stat_sup a) (stat_sup b).
Proof. now destruct a as [[[[? ?] ?] ?] ?], b as [[[[? ?] ?] ?] ?]. Qed.

Lemma map_nth_seq {A : Type} (l : list A) (d : A) :
  map (fun i => nth i l d) (seq 0 (length l)) = l.
Proof.
  apply (nth_ext _ _ d d).
  - now rewrite length_map, length_seq.
  - intros i Hi. rewrite length_map, length_seq in Hi.
    rewrite (nth_indep _ _ (nth 0 l d))
      by now rewrite length_map, length_seq.
    change (nth 0 l d) with ((fun i => nth i l d) 0%nat).
    rewrite map_nth, seq_nth by lia. reflexivity.
Qed.

Lemma length_fold_add_rows (rest : list (list StatRow)) :
  forall t : list StatRow,
    Forall (fun u => length u = length t) rest ->
    length (fold_left Torch.add_rows rest t) = length t.
Proof.
  induction rest as [|u rest IH]; intros t Hl; simpl; [reflexivity|].
  inversion Hl as [|? ? Hu Hr]; subst.
  assert (La : length (Torch.add_rows t u) = length t)
    by (apply length_add_rows; lia).
  rewrite IH; [exact La|].
  eapply Forall_impl; [|exact Hr]. simpl. intros. lia.
Qed.

Lemma same_size_stats (t : list StatRow) (rest : list (list StatRow)) :
  Forall (fun u => length u = length t) rest ->
  forallb (Torch.same_size (Stats t)) (map Stats rest) = true.
Proof.
  induction 1 as [|u rest Hu _ IH]; simpl; [reflexivity|].
  rewrite IH, Bool.andb_true_r. apply Nat.eqb_eq. lia.
Qed.

(** The rows written for the summed tensor, class by class. *)
Lemma per_class_acc_totals (t : list StatRow) (rest : list (list StatRow)) :
  Forall (fun u => length u = length t) rest ->
  Forall row_in_int64 t ->
  (forall i, (i < length t)%nat ->
             in_int64 (class_total stat_tp (t :: rest) i)
             /\ in_int64 (class_total stat_sup (t :: rest) i)) ->
  per_class_acc (fold_left Torch.add_rows rest t)
  = map (fun i =>
           (true_div (class_total stat_tp (t :: rest) i)
              (class_total stat_sup (t :: rest) i),
            class_total stat_sup (t :: rest) i))
      (seq 0 (length t)).
Proof.
  intros Hl Ht Hr. unfold per_class_acc.
  rewrite <- (map_nth_seq (fold_left Torch.add_rows rest t) (0, 0, 0, 0, 0))
    at 1.
  rewrite map_map, (@length_fold_add_rows rest t Hl).
  apply map_ext_in. intros i Hi. apply in_seq in Hi.
  assert (Li : (i < length t)%nat) by lia.
  destruct (@fold_add_rows_nth rest t i (0, 0, 0, 0, 0) Hl Li) as [_ N].
  assert (Ri : row_in_int64 (nth i t (0, 0, 0, 0, 0))).
  { eapply Forall_forall; [exact Ht|]. now apply nth_In. }
  destruct (Hr i Li) as [Rtp Rsup].
  assert (Tp : stat_tp (nth i (fold_left Torch.add_rows rest t) (0, 0, 0, 0, 0))
               = class_total stat_tp (t :: rest) i).
  { rewrite N. rewrite fold_add_row_component.
    - rewrite map_map. now apply wrap64_in_range.
    - exact stat_tp_add_row.
    - destruct (nth i t (0, 0, 0, 0, 0)) as [[[[? ?] ?] ?] ?]. apply Ri. }
  assert (Sup : stat_sup
                  (nth i (fold_left Torch.add_rows rest t) (0, 0, 0, 0, 0))
                = class_total stat_sup (t :: rest) i).
  { rewrite N. rewrite fold_add_row_component.
    - rewrite map_map. now apply wrap64_in_range.
    - exact stat_sup_add_row.
    - destruct (nth i t (0, 0, 0, 0, 0)) as [[[[? ?] ?] ?] ?]. apply Ri. }
  rewrite <- Tp, <- Sup.
  now destruct (nth i (fold_left Torch.add_rows rest t) (0, 0, 0, 0, 0))
    as [[[[? ?] ?] ?] ?].
Qed.

(** C10. A test step that returns appends the [StatScores] tensor of its
    batch to [test_metric_outputs], and a step in another mode leaves the
    list alone. When the list holds one tensor per test batch, of one
    size, with 64-bit entries and with true-positive and support totals
    that fit in 64 bits, [on_test_epoch_end] writes to
    "per-class-acc-test.csv" a frame with the columns "acc" and "n" and
    one row per class, in class order: the summed true positives divided
    by the summed support, and the summed support. *)
Theorem per_class_accuracy_csv :
  (forall w x y self loss,
      test_metrics self = test_metrics_of (hparams self) ->
      outcome_of (shared_step w (x, y) "test" self) = inr loss ->
      exists h,
        Torch.one_hot y (n_classes (hparams self)) = inr h
        /\ test_metric_outputs (state_of (shared_step w (x, y) "test" self))
           = (test_metric_outputs self
              ++ [Stats (stat_scores_value (n_classes (hparams self))
                           (net_forward (net self) x)
                           (argmax1 (map (map float_of_int) h)))])%list)
  /\ (forall w batch mode,
         mode <> "test" ->
         keeps test_metric_outputs (shared_step w batch mode))
  /\ (forall self t rest,
         test_metric_outputs self = map Stats (t :: rest) ->
         Forall (fun u => length u = length t) rest ->
         Forall (Forall row_in_int64) (t :: rest) ->
         (forall i, (i < length t)%nat ->
                    in_int64 (class_total stat_tp (t :: rest) i)
                    /\ in_int64 (class_total stat_sup (t :: rest) i)) ->
         on_test_epoch_end self
         = (self,
            [ ToCsv
                {| columns := ["acc"; "n"];
                   rows :=
                     map (fun i =>
                            (true_div (class_total stat_tp (t :: rest) i)
                               (class_total stat_sup (t :: rest) i),
                             class_total stat_sup (t :: rest) i))
                       (seq 0 (length t)) |}
                "per-class-acc-test.csv";
              Print "Saved per-class results in per-class-acc-test.csv" ],
            inr tt)).
Proof.
  split; [|split].
  - intros w x y self loss. apply test_step_appends_stats.
  - intros w batch mode. apply other_steps_keep_stats.
  - intros self t rest Hts Hl Hr Htot.
    inversion Hr as [|? ? Ht _]; subst.
    unfold on_test_epoch_end, bind, get, lift, emit. rewrite Hts.
    unfold Torch.stack_sum. cbn [map].
    rewrite (@same_size_stats t rest Hl).
    rewrite map_map. cbn [Torch.stats_rows]. rewrite map_id.
    rewrite (@per_class_acc_totals t rest Hl Ht Htot).
    reflexivity.
Qed.

End PerClassAccuracy.

(** * Worked examples

    Each property above, applied to the small framework. *)

#[local] Existing Instance Toy.carriers.
#[local] Existing Instance Toy.framework.

Lemma model_name_lookup_witness :
  (~ In "resnet50" (PyDict.keys MODEL_DICT)
   /\ new Toy.unknown_model_hp
      = ([SaveHyperparameters], inl (model_error "resnet50")))
  /\ (In "vit-b16-224-in21k" (PyDict.keys MODEL_DICT)
      /\ exists model_path,
           In ("vit-b16-224-in21k", model_path) MODEL_DICT
           /\ lookup_model_path Toy.hp tt = (tt, [], inr model_path)
           /\ snd (new Toy.hp) <> inl (model_error "vit-b16-224-in21k")).
Proof.
  assert (N : ~ In (model_name Toy.unknown_model_hp) (PyDict.keys MODEL_DICT))
    by (vm_compute; intuition discriminate).
  assert (K : In (model_name Toy.hp) (PyDict.keys MODEL_DICT))
    by (left; reflexivity).
  split; split.
  - exact N.
  - exact (proj1 (model_name_lookup Toy.unknown_model_hp) N).
  - exact K.
  - exact (proj2 (model_name_lookup Toy.hp) K).
Defined.

Lemma linear_probing_freezes_backbone_witness :
  exists m,
    training_mode Toy.linear_hp = "linear"
    /\ snd (new Toy.linear_hp) = inr m
    /\ map (fun '(name, p) => (name, requires_grad p)) (net m)
       = [ ("vit.embeddings.cls_token", false);
           ("classifier.weight", true);
           ("classifier.bias", true) ]
    /\ forall i name p,
         nth_error (net m) i = Some (name, p) ->
         PyStr.contains "classifier" name = false ->
         requires_grad p = false.
Proof.
  destruct (snd (new Toy.linear_hp)) as [e|m] eqn:R;
    [vm_compute in R; discriminate|].
  exists m. split; [reflexivity|]. split; [reflexivity|]. split.
  - vm_compute in R. injection R as <-. reflexivity.
  - intros i name p E C.
    destruct (proj2 (linear_probing_freezes_backbone Toy.linear_hp eq_refl)
                m R)
      as (path & n0 & n1 & _ & _ & _ & _ & Each).
    destruct (Each i name p E) as (p0 & _ & _ & F & _).
    exact (F C).
Defined.

Lemma training_mode_is_checked_witness :
  (~ known_mode "prefix"
   /\ snd (new Toy.unknown_mode_hp)
      = inl (ValueError
               "prefix is not an available fine-tuning mode. Should be one of ['full', 'linear', 'lora']"))
  /\ (known_mode "linear" /\ exists m, snd (new Toy.linear_hp) = inr m)
  /\ (known_mode "full" /\ snd (new Toy.hp) <> inl (mode_error "full"))
  /\ exists m, snd (new Toy.hp) = inr m /\ net m = Toy.hub_net.
Proof.
  assert (NK : ~ known_mode (training_mode Toy.unknown_mode_hp))
    by (unfold known_mode; simpl; intuition discriminate).
  assert (KL : known_mode (training_mode Toy.linear_hp))
    by (right; left; reflexivity).
  assert (KF : known_mode (training_mode Toy.hp)) by (left; reflexivity).
  split; [|split; [|split]].
  - split; [exact NK|].
    exact (proj1 (proj1 (training_mode_is_checked Toy.unknown_mode_hp)
                    "google/vit-base-patch16-224-in21k" Toy.hub_net
                    Toy.hub_net eq_refl eq_refl eq_refl) NK).
  - split; [exact KL|].
    exact (proj2 (proj1 (training_mode_is_checked Toy.linear_hp)
                    "google/vit-base-patch16-224-in21k" Toy.hub_net
                    [ ("vit.embeddings.cls_token", Toy.param 10 true);
                      ("classifier.weight", Toy.param 30 true);
                      ("classifier.bias", Toy.param 40 true) ]
                    eq_refl eq_refl eq_refl) KL).
  - split; [exact KF|].
    exact (proj1 (proj2 (training_mode_is_checked Toy.hp)) KF).
  - destruct (snd (new Toy.hp)) as [e|m] eqn:R;
      [vm_compute in R; discriminate|].
    exists m. split; [reflexivity|].
    destruct (proj2 (proj2 (training_mode_is_checked Toy.hp)) eq_refl m R)
      as (path & n0 & n1 & _ & I & L & N & _).
    rewrite N. vm_compute in I. injection I as <-.
    vm_compute in L. now injection L as <-.
Defined.

Lemma four_bit_excludes_full_witness :
  new Toy.four_bit_full_hp
  = ([SaveHyperparameters],
     inl (AssertionError
            "4-bit quantization can not work with full fine-tuning mode"))
  /\ (exists rest,
         fst (new Toy.four_bit_lora_hp)
         = SaveHyperparameters
           :: AutoModelFromPretrained "google/vit-base-patch16-224-in21k" 2
                true 224 (Some nf4_config)
           :: rest)
  /\ network_of (new (with_use_4bit false Toy.scratch_hp))
     = network_of (new Toy.scratch_hp)
  /\ ~ In (AutoModelFromPretrained "google/vit-base-patch16-224-in21k" 2
             true 224 (Some nf4_config))
         (fst (new Toy.hp)).
Proof.
  split; [|split; [|split]].
  - exact (proj1 (proj1 (four_bit_excludes_full Toy.four_bit_full_hp)
                    "google/vit-base-patch16-224-in21k" eq_refl eq_refl
                    eq_refl) eq_refl).
  - exact (proj2 (proj2 (proj2 (proj1 (four_bit_excludes_full
                                         Toy.four_bit_lora_hp)
                                  "google/vit-base-patch16-224-in21k"
                                  eq_refl eq_refl eq_refl)
                           (or_intror eq_refl)))).
  - exact (proj1 (proj2 (proj1 (proj2 (four_bit_excludes_full
                                         Toy.scratch_hp)) eq_refl)) false).
  - exact (proj2 (proj2 (four_bit_excludes_full Toy.hp)) eq_refl
             "google/vit-base-patch16-224-in21k" 2 true 224 nf4_config).
Defined.

Lemma checkpoint_keys_are_stripped_witness :
  weights Toy.linear_hp = Some "last.ckpt"
  /\ torch_load "last.ckpt" = Some Toy.checkpoint
  /\ trace_of (load_checkpoint_weights Toy.linear_hp Toy.hub_net tt)
     = [ Print "Loaded weights from last.ckpt";
         TorchLoad "last.ckpt";
         LoadStateDict
           [ ("vit.embeddings.cls_token", 10);
             ("classifier.weight", 30);
             ("classifier.bias", 40) ]
           true ]
  /\ PyStr.replace "net.classifier.net.weight" "net." ""
     = "classifier.weight".
Proof.
  assert (NE : "last.ckpt" <> "") by discriminate.
  pose proof (@checkpoint_keys_are_stripped _ _ Toy.linear_hp "last.ckpt"
                Toy.checkpoint Toy.hub_net eq_refl NE eq_refl)
    as ((T & _) & _ & _ & _ & R & _).
  split; [reflexivity|]. split; [reflexivity|]. split.
  - exact T.
  - exact (R "net.classifier." "weight").
Defined.



Lemma step_counters_witness :
  exists self,
    snd (new Toy.hp) = inr self
    /\ train_step self = 0 /\ val_step self = 0
    /\ train_step (state_of (shared_step 0 Toy.batch "train" self))
       = train_step self + 1
    /\ val_step (state_of (shared_step 0 Toy.batch "train" self))
       = val_step self
    /\ val_step (state_of (shared_step 0 Toy.batch "val" self))
       = val_step self + 1
    /\ counters (state_of (shared_step 0 Toy.batch "test" self))
       = counters self.
Proof.
  destruct (snd (new Toy.hp)) as [e|self] eqn:R;
    [vm_compute in R; discriminate|].
  exists self. split; [reflexivity|].
  destruct step_counters as (Init & Step & Test & _).
  destruct (Init Toy.hp self R) as [T V].
  destruct (Step 0 Toy.batch "train" self) as (A & _ & _ & B).
  destruct (Step 0 Toy.batch "val" self) as (_ & _ & C & _).
  repeat split.
  - exact T.
  - exact V.
  - exact (A eq_refl).
  - apply B. discriminate.
  - exact (C eq_refl).
  - exact (Test 0 Toy.batch self).
Defined.

Lemma mixup_only_in_training_witness :
  exists self,
    snd (new Toy.hp) = inr self
    /\ existsb is_mixup
         (trace_of (shared_step 0 ([11; 12; 13], [0; 1; 1]) "train" self))
       = true
    /\ 0 < n_classes (hparams self)
    /\ Forall (fun c => 0 <= c < n_classes (hparams self)) [0; 1; 1]
    /\ exists rest,
         trace_of (shared_step 0 ([11; 12; 13], [0; 1; 1]) "val" self)
         = OneHot [0; 1; 1] 2
           :: Forward [11; 12; 13]
           :: LossFn (net_forward (net self) [11; 12; 13])
                [ [(1, 1); (0, 1)]; [(0, 1); (1, 1)]; [(0, 1); (1, 1)] ]
           :: rest.
Proof.
  destruct (snd (new Toy.hp)) as [e|self] eqn:R;
    [vm_compute in R; discriminate|].
  exists self. split; [reflexivity|].
  vm_compute in R. injection R as <-.
  assert (Hn : 0 < 2) by reflexivity.
  assert (Hy : Forall (fun c => 0 <= c < 2) [0; 1; 1])
    by (repeat constructor; discriminate).
  split; [|split; [exact Hn|split; [exact Hy|]]].
  - lazymatch goal with
    | |- context [shared_step _ _ _ ?s] =>
        exact (proj2 (proj1 (mixup_only_in_training 0 [11; 12; 13]
                               [0; 1; 1] "train" s)) eq_refl)
    end.
  - lazymatch goal with
    | |- context [shared_step _ _ _ ?s] =>
        exact (proj1 (proj2 (proj2 (mixup_only_in_training 0 [11; 12; 13]
                                      [0; 1; 1] "val" s)))
                 (or_introl eq_refl) Hn Hy)
    end.
Defined.

Lemma gact_iterate_schedule_witness :
  exists self0 first third,
    snd (new Toy.gact_hp) = inr self0
    /\ open_gact Toy.gact_hp = true
    /\ nth_error Toy.schedule 0 = Some (Toy.driver, TrainingStep 0 Toy.batch)
    /\ nth_error Toy.schedule 2 = Some (Toy.driver, TrainingStep 1 Toy.batch)
    /\ nth_error (traces_of (drive Toy.schedule self0)) 0 = Some first
    /\ nth_error (traces_of (drive Toy.schedule self0)) 2 = Some third
    /\ invokes_iterate first = false
    /\ invokes_iterate third = true.
Proof.
  destruct (snd (new Toy.gact_hp)) as [e|self0] eqn:R;
    [vm_compute in R; discriminate|].
  destruct (nth_error (traces_of (drive Toy.schedule self0)) 0)
    as [first|] eqn:E0;
    [|vm_compute in R; injection R as <-; vm_compute in E0; discriminate].
  destruct (nth_error (traces_of (drive Toy.schedule self0)) 2)
    as [third|] eqn:E2;
    [|vm_compute in R; injection R as <-; vm_compute in E2; discriminate].
  exists self0, first, third.
  do 4 (split; [reflexivity|]).
  split; [exact E0|]. split; [exact E2|].
  pose proof (proj1 gact_iterate_schedule Toy.gact_hp self0 Toy.schedule R
                eq_refl) as Sched.
  split.
  - destruct (invokes_iterate first) eqn:I; [|reflexivity].
    apply (Sched 0%nat _ _ first eq_refl E0) in I.
    destruct I as [_ Earlier]. discriminate Earlier.
  - apply (Sched 2%nat _ _ third eq_refl E2).
    split; reflexivity.
Defined.

Lemma per_class_accuracy_csv_witness :
  exists m,
    snd (new Toy.hp) = inr m
    /\ (exists h,
           Torch.one_hot [0; 1; 1] (n_classes (hparams m)) = inr h
           /\ test_metric_outputs
                (state_of (shared_step 0 ([11; 12; 13], [0; 1; 1]) "test" m))
              = [Stats [(1, 0, 0, 0, 1); (1, 0, 0, 0, 1)]])
    /\ trace_of
         (on_test_epoch_end
            (set_test_metric_outputs
               [ Stats [(3, 0, 5, 1, 4); (4, 1, 3, 0, 4)];
                 Stats [(1, 1, 5, 1, 2); (2, 0, 4, 0, 2)] ]
               m))
       = [ ToCsv {| columns := ["acc"; "n"];
                    rows := [((4, 6), 6); ((6, 6), 6)] |}
             "per-class-acc-test.csv";
           Print "Saved per-class results in per-class-acc-test.csv" ].
Proof.
  destruct (snd (new Toy.hp)) as [e|m] eqn:R;
    [vm_compute in R; discriminate|].
  exists m. split; [reflexivity|].
  vm_compute in R. injection R as <-.
  destruct per_class_accuracy_csv as (Append & _ & Csv).
  split.
  - lazymatch goal with
    | |- context [shared_step _ _ _ ?s] =>
        destruct (Append 0 [11; 12; 13] [0; 1; 1] s (0, 1) eq_refl eq_refl)
          as (h & Hh & Hs)
    end.
    exists h. split; [exact Hh|].
    refine (eq_trans Hs _).
    vm_compute in Hh. injection Hh as <-. reflexivity.
  - lazymatch goal with
    | |- context [on_test_epoch_end ?s] =>
        rewrite (Csv s [(3, 0, 5, 1, 4); (4, 1, 3, 0, 4)]
                   [[(1, 1, 5, 1, 2); (2, 0, 4, 0, 2)]] eq_refl)
    end.
    + reflexivity.
    + repeat constructor.
    + repeat constructor; unfold in_int64; lia.
    + intros i Hi. destruct i as [|[|i]]; [| |simpl in Hi; lia];
        split; unfold in_int64; vm_compute;
        (split; [discriminate | reflexivity]).
Defined.


Lemma constructor_passes_every_check_witness :
  exists m,
    snd (new Toy.linear_hp) = inr m
    /\ PyDict.get MODEL_DICT "vit-b16-224-in21k"
       = Some "google/vit-base-patch16-224-in21k"
    /\ (exists ckpt n1,
           torch_load "last.ckpt" = Some ckpt
           /\ load_state_dict Toy.hub_net (strip_prefix ckpt) true = Some n1)
    /\ known_mode "linear".
Proof.
  destruct (snd (new Toy.linear_hp)) as [e|m] eqn:R;
    [vm_compute in R; discriminate|].
  exists m. split; [reflexivity|].
  destruct (@constructor_passes_every_check Toy.carriers Toy.framework
              Toy.linear_hp m R)
    as (path & n0 & n1 & G & _ & I & [[D _]|(p & ckpt & W & _ & T & L)] & K);
    [discriminate D|].
  split; [reflexivity|]. split; [|exact K].
  injection G as <-. vm_compute in I. injection I as <-.
  injection W as <-. exists ckpt, n1. split; [exact T | exact L].
Defined.

Lemma unknown_mode_fails_late_witness :
  ~ known_mode "prefix"
  /\ In (PrintNet Toy.hub_net) (fst (new Toy.unknown_mode_hp))
  /\ In (AutoModelFromPretrained "google/vit-base-patch16-224-in21k" 2 true
           224 None)
       (fst (new Toy.unknown_mode_hp))
  /\ snd (new Toy.unknown_mode_hp) = inl (mode_error "prefix").
Proof.
  assert (NK : ~ known_mode (training_mode Toy.unknown_mode_hp))
    by (unfold known_mode; simpl; intuition discriminate).
  destruct (@unknown_mode_fails_late Toy.carriers Toy.framework
              Toy.unknown_mode_hp
              "google/vit-base-patch16-224-in21k" NK eq_refl)
    as (n0 & I & P & A & _).
  split; [exact NK|].
  vm_compute in I. injection I as <-.
  split; [exact P|]. split; [exact (A eq_refl) | reflexivity].
Defined.

Lemma lora_wraps_loaded_network_witness :
  exists m,
    training_mode Toy.four_bit_lora_hp = "lora"
    /\ snd (new Toy.four_bit_lora_hp) = inr m
    /\ net m
       = get_peft_model Toy.hub_net (lora_config_of Toy.four_bit_lora_hp)
    /\ controller m = None.
Proof.
  destruct (snd (new Toy.four_bit_lora_hp)) as [e|m] eqn:R;
    [vm_compute in R; discriminate|].
  exists m. split; [reflexivity|]. split; [reflexivity|].
  destruct (@lora_wraps_loaded_network Toy.carriers Toy.framework
              Toy.four_bit_lora_hp m eq_refl R)
    as (path & n0 & n1 & before & after & G & I & L & N & _ & _ & C).
  split; [|exact C].
  injection G as <-. vm_compute in I. injection I as <-.
  vm_compute in L. injection L as <-. exact N.
Defined.

Lemma strip_prefix_distinct_keys_witness :
  NoDup (map fst (kept_entries Toy.checkpoint))
  /\ strip_prefix Toy.checkpoint
     = [ ("vit.embeddings.cls_token", 10);
         ("classifier.weight", 30);
         ("classifier.bias", 40) ].
Proof.
  assert (ND : NoDup (map fst (kept_entries Toy.checkpoint))).
  { vm_compute.
    repeat (constructor; [simpl; intuition discriminate|]). constructor. }
  split; [exact ND|].
  exact (@strip_prefix_distinct_keys Toy.carriers Toy.checkpoint ND).
Defined.

Lemma strip_prefix_round_trip_witness :
  strip_prefix
    [ ("loss_fn.weight", 20);
      ("net.classifier.weight", 30);
      ("net.classifier.bias", 40);
      ("mixup.seed", 50) ]
  = [ ("classifier.weight", 30); ("classifier.bias", 40) ].
Proof.
  assert (ND : NoDup (map fst [ ("classifier.weight", 30);
                                ("classifier.bias", 40) ])).
  { repeat (constructor; [simpl; intuition discriminate|]). constructor. }
  apply (@strip_prefix_round_trip Toy.carriers
           [ ("classifier.weight", 30); ("classifier.bias", 40) ]
           [ ("loss_fn.weight", 20) ] [ ("mixup.seed", 50) ] ND);
    repeat constructor.
Defined.

Lemma evaluation_step_logs_witness :
  exists self,
    snd (new Toy.hp) = inr self
    /\ outcome_of (shared_step 0 ([11; 12; 13], [0; 1; 1]) "test" self)
       = inr (0, 1)
    /\ trace_of (shared_step 0 ([11; 12; 13], [0; 1; 1]) "test" self)
       = [ OneHot [0; 1; 1] 2;
           Forward [11; 12; 13];
           LossFn [ [(11, 1); (0, 1)]; [(12, 1); (0, 1)]; [(13, 1); (0, 1)] ]
             [ [(1, 1); (0, 1)]; [(0, 1); (1, 1)]; [(0, 1); (1, 1)] ];
           MetricsCall
             [ ("acc", Accuracy 2 "multiclass" 1);
               ("acc_top5", Accuracy 2 "multiclass" 2);
               ("stats", StatScores "multiclass" 2) ]
             [ [(11, 1); (0, 1)]; [(12, 1); (0, 1)]; [(13, 1); (0, 1)] ]
             [0; 0; 0];
           Log "test_loss" (0, 1) (Some true) false;
           WandbLog "test_loss" (0, 1) "test_step" 0;
           Log "test_acc" (1, 1) (Some true) false;
           WandbLog "test_acc" (1, 1) "test_step" 0;
           Log "test_acc_top5" (1, 1) (Some true) false;
           WandbLog "test_acc_top5" (1, 1) "test_step" 0 ].
Proof.
  destruct (snd (new Toy.hp)) as [e|self] eqn:R;
    [vm_compute in R; discriminate|].
  exists self. split; [reflexivity|].
  vm_compute in R. injection R as <-.
  assert (Hn : 0 < 2) by reflexivity.
  split; [reflexivity|].
  lazymatch goal with
  | |- context [shared_step _ _ _ ?s] =>
      exact (proj2 (@evaluation_step_logs Toy.carriers Toy.framework 0
                      [11; 12; 13] [0; 1; 1] "test" s (0, 1)
                      (or_intror eq_refl) eq_refl eq_refl Hn eq_refl))
  end.
Defined.

Lemma unknown_step_mode_fails_witness :
  exists self,
    snd (new Toy.hp) = inr self
    /\ outcome_of (shared_step 0 ([11; 12; 13], [0; 1; 1]) "predict" self)
       = inl (AttributeError
                "'ClassificationModel' object has no attribute 'predict_metrics'")
    /\ trace_of (shared_step 0 ([11; 12; 13], [0; 1; 1]) "predict" self)
       = [ OneHot [0; 1; 1] 2;
           Forward [11; 12; 13];
           LossFn [ [(11, 1); (0, 1)]; [(12, 1); (0, 1)]; [(13, 1); (0, 1)] ]
             [ [(1, 1); (0, 1)]; [(0, 1); (1, 1)]; [(0, 1); (1, 1)] ] ].
Proof.
  destruct (snd (new Toy.hp)) as [e|self] eqn:R;
    [vm_compute in R; discriminate|].
  exists self. split; [reflexivity|].
  vm_compute in R. injection R as <-.
  assert (Hn : 0 < 2) by reflexivity.
  assert (Hy : Forall (fun c => 0 <= c < 2) [0; 1; 1])
    by (repeat constructor; discriminate).
  assert (N1 : "predict" <> "train") by discriminate.
  assert (N2 : "predict" <> "val") by discriminate.
  assert (N3 : "predict" <> "test") by discriminate.
  lazymatch goal with
  | |- context [shared_step _ _ _ ?s] =>
      destruct (@unknown_step_mode_fails Toy.carriers Toy.framework
                  0 [11; 12; 13] [0; 1; 1]
                  "predict" s N1 N2 N3 Hn Hy) as (O & T & _)
  end.
  split; [exact O | exact T].
Defined.

Lemma training_step_logs_witness :
  exists m,
    snd (new Toy.gact_hp) = inr m
    /\ exists rest,
         trace_of
           (training_step 0 ([11; 12; 13], [0; 1; 1])
              (@set_partial Toy.carriers [21; 22]
                 [ [(0, 1); (1, 1)]; [(1, 1); (0, 1)] ]
                 (set_train_step 1 (attach Toy.driver m))))
         = (Log "lr" (1, 100) None true
            :: MixupCall [11; 12; 13] [0; 1; 1]
            :: ControllerIterate
                 [ Optimizers;
                   Forward [21; 22];
                   LossFn [ [(21, 1); (0, 1)]; [(22, 1); (0, 1)] ]
                     [ [(0, 1); (1, 1)]; [(1, 1); (0, 1)] ];
                   OptimizerZeroGrad 0 0;
                   Backward (0, 1) ]
            :: Forward [11; 12; 13]
            :: rest)%list.
Proof.
  destruct (snd (new Toy.gact_hp)) as [e|m] eqn:R;
    [vm_compute in R; discriminate|].
  exists m. split; [reflexivity|].
  vm_compute in R. injection R as <-.
  lazymatch goal with
  | |- context [set_partial ?px ?py ?s] =>
      destruct (@training_step_logs Toy.carriers Toy.framework 0
                  [11; 12; 13] [0; 1; 1]
                  (@set_partial Toy.carriers px py s) Toy.driver
                  px py (0, 1) eq_refl
                  ltac:(discriminate)
                  (fun _ _ => conj eq_refl eq_refl)
                  eq_refl eq_refl) as (_ & T)
  end.
  eexists. refine (eq_trans T _). cbv. reflexivity.
Defined.


Lemma training_replays_evaluation_batch_witness :
  exists m,
    snd (new Toy.gact_hp) = inr m
    /\ exists rest,
         trace_of
           (shared_step 1 ([11; 12; 13], [0; 1; 1]) "train"
              (state_of
                 (shared_step 0 ([21; 22], [1; 0]) "val"
                    (set_train_step 1 (attach Toy.driver m)))))
         = MixupCall [11; 12; 13] [0; 1; 1]
           :: ControllerIterate
                [ Optimizers;
                  Forward [21; 22];
                  LossFn [ [(21, 1); (0, 1)]; [(22, 1); (0, 1)] ]
                    [ [(0, 1); (1, 1)]; [(1, 1); (0, 1)] ];
                  OptimizerZeroGrad 0 0;
                  Backward (0, 1) ]
           :: rest.
Proof.
  destruct (snd (new Toy.gact_hp)) as [e|m] eqn:R;
    [vm_compute in R; discriminate|].
  exists m. split; [reflexivity|].
  vm_compute in R. injection R as <-.
  assert (T1 : 1 <> 0) by discriminate.
  lazymatch goal with
  | |- context [set_train_step 1 ?s] =>
      destruct (@training_replays_evaluation_batch Toy.carriers Toy.framework
                  0 1 [21; 22]
                  [11; 12; 13] [1; 0] [0; 1; 1] "val" (set_train_step 1 s)
                  Toy.driver [[0; 1]; [1; 0]] (or_introl eq_refl)
                  ltac:(discriminate) eq_refl T1 eq_refl eq_refl)
        as [rest E]
  end.
  exists rest. exact E.
Defined.

Lemma iterate_replay_is_complete_witness :
  exists self0,
    snd (new Toy.gact_hp) = inr self0
    /\ exists third payload,
         nth_error (traces_of (drive Toy.schedule self0)) 2 = Some third
         /\ In (ControllerIterate payload) third
         /\ exists px py,
              payload
              = [ Optimizers;
                  Forward px;
                  LossFn (net_forward (net self0) px) py;
                  OptimizerZeroGrad 0 0;
                  Backward
                    (soft_target_cross_entropy (net_forward (net self0) px)
                       py) ]
              /\ (length px <= 8)%nat.
Proof.
  destruct (snd (new Toy.gact_hp)) as [e|self0] eqn:R;
    [vm_compute in R; discriminate|].
  exists self0. split; [reflexivity|].
  destruct (nth_error (traces_of (drive Toy.schedule self0)) 2)
    as [third|] eqn:E2;
    [|vm_compute in R; injection R as <-; vm_compute in E2; discriminate].
  assert (Hin : exists payload, In (ControllerIterate payload) third).
  { vm_compute in R. injection R as <-.
    vm_compute in E2. injection E2 as <-.
    eexists. right. right. left. reflexivity. }
  destruct Hin as [payload Hin].
  exists third, payload. split; [reflexivity|]. split; [exact Hin|].
  destruct (@iterate_replay_is_complete Toy.carriers Toy.framework
              Toy.gact_hp self0 Toy.schedule
              2%nat Toy.driver (@TrainingStep Toy.carriers 1 Toy.batch) third payload
              R eq_refl eq_refl E2 Hin)
    as (px & py & E & Lx & _).
  exists px, py. split; [exact E | exact Lx].
Defined.

Lemma test_statistics_accumulate_witness :
  exists self,
    snd (new Toy.hp) = inr self
    /\ constructed Toy.hp self
    /\ exists added,
         test_metric_outputs (final_of (drive Toy.schedule self))
         = (test_metric_outputs self ++ added)%list
         /\ Z.of_nat (length added) = 1.
Proof.
  destruct (snd (new Toy.hp)) as [e|self] eqn:R;
    [vm_compute in R; discriminate|].
  exists self. split; [reflexivity|].
  vm_compute in R. injection R as <-.
  lazymatch goal with
  | |- constructed _ ?s /\ _ =>
      assert (Cs : constructed Toy.hp s) by (repeat split);
      destruct (@test_statistics_accumulate Toy.carriers Toy.framework
                  Toy.hp Toy.schedule s Cs)
        as (added & E & _ & N)
  end.
  split; [exact Cs|]. exists added. split; [exact E|].
  exact (N eq_refl).
Defined.

Lemma optimizer_holds_frozen_parameters_witness :
  exists m,
    snd (new Toy.linear_hp) = inr m
    /\ exists cfg,
         outcome_of (configure_optimizers (attach Toy.driver m)) = inr cfg
         /\ map (@requires_grad _) (optimizer_params (cfg_optimizer cfg))
            = [false; true; true].
Proof.
  destruct (snd (new Toy.linear_hp)) as [e|m] eqn:R;
    [vm_compute in R; discriminate|].
  exists m. split; [reflexivity|].
  destruct (outcome_of (configure_optimizers (attach Toy.driver m)))
    as [e|cfg] eqn:O;
    [vm_compute in R; injection R as <-; vm_compute in O; discriminate|].
  exists cfg. split; [reflexivity|].
  destruct (@optimizer_holds_frozen_parameters Toy.carriers Toy.framework
              Toy.linear_hp m
              Toy.driver cfg R O) as (Ep & _).
  rewrite Ep. vm_compute in R. injection R as <-. reflexivity.
Defined.

Lemma evaluation_step_needs_labels_in_range_witness :
  exists self,
    snd (new Toy.hp) = inr self
    /\ (exists msg,
           outcome_of (shared_step 0 ([11; 12; 13], [0; 2; 1]) "val" self)
           = inl (RuntimeError msg))
    /\ trace_of (shared_step 0 ([11; 12; 13], [0; 2; 1]) "val" self)
       = [OneHot [0; 2; 1] 2]
    /\ val_step (state_of (shared_step 0 ([11; 12; 13], [0; 2; 1]) "val" self))
       = 1.
Proof.
  destruct (snd (new Toy.hp)) as [e|self] eqn:R;
    [vm_compute in R; discriminate|].
  exists self. split; [reflexivity|].
  vm_compute in R. injection R as <-.
  assert (Hn : 0 < 2) by reflexivity.
  assert (Hin : In 2 [0; 2; 1]) by (right; left; reflexivity).
  assert (Bad : 2 < 0 \/ 2 <= 2) by (right; discriminate).
  lazymatch goal with
  | |- context [shared_step _ _ _ ?s] =>
      destruct (proj2 (@evaluation_step_needs_labels_in_range
                         Toy.carriers Toy.framework 0 [11; 12; 13]
                         [0; 2; 1] "val" s (or_introl eq_refl) Hn)
                  2 Hin Bad)
        as (O & T & V & _)
  end.
  split; [exact O|]. split; [exact T | exact V].
Defined.
